(** * mcp2515-banged: the bit-banged MCP2515 CAN driver

    A shallow embedding of [mcp2515-banged.c].  The driver talks to the
    controller over four GPIO lines toggled by software and reacts to the
    controller's interrupt line.  The C functions are embedded as
    computations in a small state monad over a [world] that carries the
    driver's private data, the two SPI byte buffers, the values the input
    line will deliver and the trace of everything the driver does to the
    outside (GPIO accesses, kernel log lines, calls into the network
    stack).

    Machine integers are [Z] with the truncation of the C type written
    out: [u8] for [u8]/[uint8_t], [u32] for [u32]/[canid_t]. *)

From Stdlib Require Import ZArith List Lia Bool.
From stdpp Require Import base list.
Import ListNotations.

Local Open Scope Z_scope.

(** ** Machine integers *)

Definition u8 (x : Z) : Z := Z.land x 255.
Definition u32 (x : Z) : Z := Z.land x 4294967295.

(** A C condition: non-zero is true. *)
Definition nonzero (x : Z) : bool := negb (x =? 0).

(** ** SPI instruction set and register map (the #define block) *)

Definition INSTRUCTION_WRITE : Z := 2.
Definition INSTRUCTION_READ : Z := 3.
Definition INSTRUCTION_BIT_MODIFY : Z := 5.
Definition INSTRUCTION_LOAD_TXB (n : Z) : Z := 64 + 2 * n.
Definition INSTRUCTION_READ_RXB (n : Z) : Z := if n =? 0 then 144 else 148.
Definition INSTRUCTION_RESET : Z := 192.
Definition INSTRUCTION_RTS (n : Z) : Z := Z.lor 128 (Z.land n 7).

Definition CANSTAT : Z := 14.
Definition CANCTRL : Z := 15.
Definition CANCTRL_REQOP_SLEEP : Z := 32.
Definition CNF1 : Z := 42.
Definition CNF1_SJW_SHIFT : Z := 6.
Definition CNF2 : Z := 41.
Definition CNF2_BTLMODE : Z := 128.
Definition CNF2_SAM : Z := 64.
Definition CNF2_PS1_SHIFT : Z := 3.
Definition CNF3 : Z := 40.
Definition CNF3_PHSEG2_MASK : Z := 7.
Definition CANINTF : Z := 44.
Definition CANINTF_MERRF : Z := 128.
Definition CANINTF_WAKIF : Z := 64.
Definition CANINTF_ERRIF : Z := 32.
Definition CANINTF_TX2IF : Z := 16.
Definition CANINTF_TX1IF : Z := 8.
Definition CANINTF_TX0IF : Z := 4.
Definition CANINTF_RX1IF : Z := 2.
Definition CANINTF_RX0IF : Z := 1.
Definition CANINTF_RX : Z := Z.lor CANINTF_RX0IF CANINTF_RX1IF.
Definition CANINTF_TX : Z :=
  Z.lor (Z.lor CANINTF_TX2IF CANINTF_TX1IF) CANINTF_TX0IF.
Definition CANINTF_ERR : Z := CANINTF_ERRIF.
Definition EFLG : Z := 45.
Definition EFLG_EWARN : Z := 1.
Definition EFLG_RXWAR : Z := 2.
Definition EFLG_TXWAR : Z := 4.
Definition EFLG_RXEP : Z := 8.
Definition EFLG_TXEP : Z := 16.
Definition EFLG_TXBO : Z := 32.
Definition EFLG_RX0OVR : Z := 64.
Definition EFLG_RX1OVR : Z := 128.

Definition SIDH_SHIFT : Z := 3.
Definition SIDL_SID_MASK : Z := 7.
Definition SIDL_SID_SHIFT : Z := 5.
Definition SIDL_EXIDE_SHIFT : Z := 3.
Definition SIDL_EID_SHIFT : Z := 16.
Definition SIDL_EID_MASK : Z := 3.
Definition DLC_RTR_SHIFT : Z := 6.
Definition TXBCTRL_OFF : nat := 0.
Definition TXBSIDH_OFF : nat := 1.
Definition TXBSIDL_OFF : nat := 2.
Definition TXBEID8_OFF : nat := 3.
Definition TXBEID0_OFF : nat := 4.
Definition TXBDLC_OFF : nat := 5.
Definition TXBDAT_OFF : nat := 6.
Definition RXBSIDH_SHIFT : Z := 3.
Definition RXBSIDL_IDE : Z := 8.
Definition RXBSIDL_SRR : Z := 16.
Definition RXBSIDL_EID : Z := 3.
Definition RXBSIDL_SHIFT : Z := 5.
Definition RXBDLC_LEN_MASK : Z := 15.
Definition RXBDLC_RTR : Z := 64.
Definition RXBCTRL_OFF : nat := 0.
Definition RXBSIDH_OFF : nat := 1.
Definition RXBSIDL_OFF : nat := 2.
Definition RXBEID8_OFF : nat := 3.
Definition RXBEID0_OFF : nat := 4.
Definition RXBDLC_OFF : nat := 5.
Definition RXBDAT_OFF : nat := 6.

Definition GET_BYTE (val byte : Z) : Z := Z.land (Z.shiftr val (byte * 8)) 255.
Definition SET_BYTE (val byte : Z) : Z := Z.shiftl (Z.land val 255) (byte * 8).

Definition CAN_FRAME_MAX_DATA_LEN : Z := 8.
Definition SPI_TRANSFER_BUF_LEN : Z := 6 + CAN_FRAME_MAX_DATA_LEN.

Definition GPIO_MISO : Z := 0.
Definition GPIO_MOSI : Z := 1.
Definition GPIO_CLK : Z := 2.
Definition GPIO_CS : Z := 3.

(** ** Constants of the kernel's CAN headers

    The driver includes [linux/can/core.h] and [linux/can/dev.h]; the
    values below are the ones those headers give to the names the driver
    uses. *)

Definition CAN_EFF_FLAG : Z := 2147483648.
Definition CAN_RTR_FLAG : Z := 1073741824.
Definition CAN_SFF_MASK : Z := 2047.
Definition CAN_EFF_MASK : Z := 536870911.
Definition CAN_ERR_CRTL : Z := 4.
Definition CAN_ERR_BUSOFF : Z := 64.
Definition CAN_ERR_CRTL_RX_OVERFLOW : Z := 1.
Definition CAN_ERR_CRTL_RX_WARNING : Z := 4.
Definition CAN_ERR_CRTL_TX_WARNING : Z := 8.
Definition CAN_ERR_CRTL_RX_PASSIVE : Z := 16.
Definition CAN_ERR_CRTL_TX_PASSIVE : Z := 32.
Definition CAN_CTRLMODE_3_SAMPLES : Z := 4.

(** [enum can_state], in declaration order; the driver compares states
    with [>=] and [<=], that is, by their position in the enumeration. *)
Inductive can_state : Type :=
| CAN_STATE_ERROR_ACTIVE
| CAN_STATE_ERROR_WARNING
| CAN_STATE_ERROR_PASSIVE
| CAN_STATE_BUS_OFF
| CAN_STATE_STOPPED
| CAN_STATE_SLEEPING.

Definition can_state_rank (s : can_state) : Z :=
  match s with
  | CAN_STATE_ERROR_ACTIVE => 0
  | CAN_STATE_ERROR_WARNING => 1
  | CAN_STATE_ERROR_PASSIVE => 2
  | CAN_STATE_BUS_OFF => 3
  | CAN_STATE_STOPPED => 4
  | CAN_STATE_SLEEPING => 5
  end.

Definition can_state_eqb (a b : can_state) : bool :=
  can_state_rank a =? can_state_rank b.

Inductive netdev_tx_t : Type := NETDEV_TX_OK | NETDEV_TX_BUSY.

Inductive can_led_event_t : Type := CAN_LED_EVENT_RX | CAN_LED_EVENT_TX.

(** ** Data *)

(** [struct can_frame]: identifier word with its flag bits, length code,
    eight data bytes. *)
Record can_frame : Type := mk_can_frame {
  can_id : Z;
  can_dlc : Z;
  data : list Z
}.

(** [struct can_bittiming], the fields the driver reads. *)
Record can_bittiming : Type := mk_can_bittiming {
  sjw : Z;
  brp : Z;
  phase_seg1 : Z;
  phase_seg2 : Z;
  prop_seg : Z
}.

(** [struct mcp2515_priv] together with the fields of the embedded
    [struct can_priv] that the driver touches.  [tx_skb] is a pointer in
    C: [None] is NULL.  The two SPI buffers it points to live in the
    [world] below. *)
Record mcp2515_priv : Type := mk_priv {
  can_st : can_state;
  can_restart_ms : Z;
  can_ctrlmode : Z;
  can_bt : can_bittiming;
  error_warning : Z;
  error_passive : Z;
  tx_skb : option can_frame;
  tx_len : Z;
  force_quit : Z
}.

(** [net->stats]: the counters of [struct net_device_stats] that the
    driver and the kernel inlines it calls update.  Each is an
    [unsigned long]. *)
Record net_device_stats : Type := mk_stats {
  rx_packets : Z;
  rx_bytes : Z;
  rx_dropped : Z;
  rx_over_errors : Z;
  rx_errors : Z;
  tx_packets : Z;
  tx_bytes : Z;
  tx_dropped : Z
}.

(** What the driver does to its surroundings, in program order. *)
Inductive event : Type :=
| Gpio_set_value (gpio value : Z)
| Gpio_get_value (gpio value : Z)
| Udelay (usecs : Z)
| Printk_write (bytes : list Z)
| Printk_read (bytes : list Z)
| Netif_rx_ni (frame : can_frame)
| Netdev_err_no_skb
| Can_led_event (ev : can_led_event_t)
| Can_bus_off
| Can_get_echo_skb
| Dev_kfree_skb
| Netif_wake_queue
| Netif_stop_queue
| Queue_work_tx
| Mutex_lock
| Mutex_unlock.

(** The state the driver runs in.  [gpio_in n] is the value the [n]-th
    call of [gpio_get_value] returns and [skb_pool n] the outcome of the
    [n]-th frame-buffer allocation ([None]: the allocator failed). *)
Record world : Type := mk_world {
  priv : mcp2515_priv;
  stats : net_device_stats;
  spi_tx_buf : list Z;
  spi_rx_buf : list Z;
  gpio_in : nat -> Z;
  gpio_reads : nat;
  skb_pool : nat -> option can_frame;
  skb_allocs : nat;
  trace : list event
}.

Definition set_priv (p : mcp2515_priv) (w : world) : world :=
  mk_world p (stats w) (spi_tx_buf w) (spi_rx_buf w) (gpio_in w)
           (gpio_reads w) (skb_pool w) (skb_allocs w) (trace w).
Definition set_stats (s : net_device_stats) (w : world) : world :=
  mk_world (priv w) s (spi_tx_buf w) (spi_rx_buf w) (gpio_in w)
           (gpio_reads w) (skb_pool w) (skb_allocs w) (trace w).
Definition set_spi_tx_buf (b : list Z) (w : world) : world :=
  mk_world (priv w) (stats w) b (spi_rx_buf w) (gpio_in w)
           (gpio_reads w) (skb_pool w) (skb_allocs w) (trace w).
Definition set_spi_rx_buf (b : list Z) (w : world) : world :=
  mk_world (priv w) (stats w) (spi_tx_buf w) b (gpio_in w)
           (gpio_reads w) (skb_pool w) (skb_allocs w) (trace w).
Definition set_gpio_reads (n : nat) (w : world) : world :=
  mk_world (priv w) (stats w) (spi_tx_buf w) (spi_rx_buf w) (gpio_in w)
           n (skb_pool w) (skb_allocs w) (trace w).
Definition set_skb_allocs (n : nat) (w : world) : world :=
  mk_world (priv w) (stats w) (spi_tx_buf w) (spi_rx_buf w) (gpio_in w)
           (gpio_reads w) (skb_pool w) n (trace w).
Definition set_trace (t : list event) (w : world) : world :=
  mk_world (priv w) (stats w) (spi_tx_buf w) (spi_rx_buf w) (gpio_in w)
           (gpio_reads w) (skb_pool w) (skb_allocs w) t.

Definition set_can_st (s : can_state) (p : mcp2515_priv) : mcp2515_priv :=
  mk_priv s (can_restart_ms p) (can_ctrlmode p) (can_bt p) (error_warning p)
          (error_passive p) (tx_skb p) (tx_len p) (force_quit p).
Definition set_error_warning (n : Z) (p : mcp2515_priv) : mcp2515_priv :=
  mk_priv (can_st p) (can_restart_ms p) (can_ctrlmode p) (can_bt p) n
          (error_passive p) (tx_skb p) (tx_len p) (force_quit p).
Definition set_error_passive (n : Z) (p : mcp2515_priv) : mcp2515_priv :=
  mk_priv (can_st p) (can_restart_ms p) (can_ctrlmode p) (can_bt p)
          (error_warning p) n (tx_skb p) (tx_len p) (force_quit p).
Definition set_tx_skb (s : option can_frame) (p : mcp2515_priv) : mcp2515_priv :=
  mk_priv (can_st p) (can_restart_ms p) (can_ctrlmode p) (can_bt p)
          (error_warning p) (error_passive p) s (tx_len p) (force_quit p).
Definition set_tx_len (n : Z) (p : mcp2515_priv) : mcp2515_priv :=
  mk_priv (can_st p) (can_restart_ms p) (can_ctrlmode p) (can_bt p)
          (error_warning p) (error_passive p) (tx_skb p) n (force_quit p).
Definition set_force_quit (n : Z) (p : mcp2515_priv) : mcp2515_priv :=
  mk_priv (can_st p) (can_restart_ms p) (can_ctrlmode p) (can_bt p)
          (error_warning p) (error_passive p) (tx_skb p) (tx_len p) n.

(** ** The monad *)

Definition M (A : Type) : Type := world -> A * world.

Definition ret {A : Type} (a : A) : M A := fun w => (a, w).
Definition bind {A B : Type} (m : M A) (k : A -> M B) : M B :=
  fun w => let (a, w') := m w in k a w'.

Declare Scope drv_scope.
Delimit Scope drv_scope with drv.
Notation "x <- m ;; k" := (bind m (fun x => k))
  (at level 100, m at next level, right associativity) : drv_scope.
Notation "m ;;; k" := (bind m (fun _ => k))
  (at level 100, right associativity) : drv_scope.
Local Open Scope drv_scope.

Definition when (b : bool) (m : M unit) : M unit := if b then m else ret tt.

Definition get_priv : M mcp2515_priv := fun w => (priv w, w).
Definition modify_priv (f : mcp2515_priv -> mcp2515_priv) : M unit :=
  fun w => (tt, set_priv (f (priv w)) w).
Definition modify_stats (f : net_device_stats -> net_device_stats) : M unit :=
  fun w => (tt, set_stats (f (stats w)) w).
Definition emit (e : event) : M unit :=
  fun w => (tt, set_trace (trace w ++ [e]) w).

(** Buffer cells.  A read outside the buffer yields 0 and a write outside
    it is dropped; the driver's buffers hold [SPI_TRANSFER_BUF_LEN] bytes
    and the statements below assume that length where it matters. *)
Definition tx_load (i : nat) : M Z := fun w => (spi_tx_buf w !!! i, w).
Definition rx_load (i : nat) : M Z := fun w => (spi_rx_buf w !!! i, w).
Definition tx_store (i : nat) (v : Z) : M unit :=
  fun w => (tt, set_spi_tx_buf (<[i := u8 v]> (spi_tx_buf w)) w).
Definition rx_store (i : nat) (v : Z) : M unit :=
  fun w => (tt, set_spi_rx_buf (<[i := u8 v]> (spi_rx_buf w)) w).

(** [memcpy(dst, src, n)] on lists: the first [n] cells of [dst] are
    replaced by the first [n] cells of [src]. *)
Definition memcpy (dst src : list Z) (n : nat) : list Z :=
  take n src ++ drop n dst.

(** ** GPIO primitives *)

Definition gpio_set_value (gpio value : Z) : M unit :=
  emit (Gpio_set_value gpio value).

Definition gpio_get_value (gpio : Z) : M Z :=
  fun w =>
    let v := gpio_in w (gpio_reads w) in
    (v, set_trace (trace w ++ [Gpio_get_value gpio v])
          (set_gpio_reads (S (gpio_reads w)) w)).

Definition udelay (usecs : Z) : M unit := emit (Udelay usecs).

(** ** Line transport: [mcp2515_spi_trans] *)

(** The inner [for (j = 0; j < 8; j++)] loop, [n] iterations left.
    [data_out] is the byte being sent and [data_in] the byte being
    assembled; [data_out] is tested against [0x80] in every iteration and
    is not changed by the loop body. *)
Fixpoint spi_trans_bits (n : nat) (data_out data_in : Z) : M Z :=
  match n with
  | O => ret data_in
  | S n' =>
      gpio_set_value GPIO_CLK 0 ;;;
      (if nonzero (Z.land data_out 128)
       then gpio_set_value GPIO_MOSI 1
       else gpio_set_value GPIO_MOSI 0) ;;;
      gpio_set_value GPIO_CLK 1 ;;;
      let data_in := u8 (Z.shiftl data_in 1) in
      v <- gpio_get_value GPIO_MISO ;;
      let data_in := if nonzero v then Z.lor data_in 1 else data_in in
      spi_trans_bits n' data_out data_in
  end.

(** The outer [for (i = 0; i < len; i++)] loop, from index [i] with [n]
    iterations left. *)
Fixpoint spi_trans_bytes (n : nat) (i : nat) : M unit :=
  match n with
  | O => ret tt
  | S n' =>
      data_out <- tx_load i ;;
      data_in <- spi_trans_bits 8 data_out 0 ;;
      rx_store i data_in ;;;
      spi_trans_bytes n' (S i)
  end.

(** The two log lines after the transfer; both loops print
    [priv->spi_tx_buf]. *)
Definition spi_trans_printk (len : Z) : M unit :=
  fun w =>
    let bytes := take (Z.to_nat len) (spi_tx_buf w) in
    (tt, set_trace (trace w ++ [Printk_write bytes; Printk_read bytes]) w).

Definition mcp2515_spi_trans (len : Z) : M Z :=
  spi_trans_bytes (Z.to_nat len) 0 ;;;
  spi_trans_printk len ;;;
  ret 0.

(** ** Register access *)

Definition mcp2515_read_reg (reg : Z) : M Z :=
  tx_store 0 INSTRUCTION_READ ;;;
  tx_store 1 reg ;;;
  gpio_set_value GPIO_CS 0 ;;;
  mcp2515_spi_trans 3 ;;;
  udelay 1 ;;;
  gpio_set_value GPIO_CS 1 ;;;
  rx_load 2.

Definition mcp2515_read_2regs (reg : Z) : M (Z * Z) :=
  tx_store 0 INSTRUCTION_READ ;;;
  tx_store 1 reg ;;;
  gpio_set_value GPIO_CS 0 ;;;
  mcp2515_spi_trans 4 ;;;
  udelay 1 ;;;
  gpio_set_value GPIO_CS 1 ;;;
  v1 <- rx_load 2 ;;
  v2 <- rx_load 3 ;;
  ret (v1, v2).

Definition mcp2515_write_reg (reg val : Z) : M unit :=
  tx_store 0 INSTRUCTION_WRITE ;;;
  tx_store 1 reg ;;;
  tx_store 2 val ;;;
  gpio_set_value GPIO_CS 0 ;;;
  mcp2515_spi_trans 3 ;;;
  udelay 1 ;;;
  gpio_set_value GPIO_CS 1.

Definition mcp2515_write_bits (reg mask val : Z) : M unit :=
  tx_store 0 INSTRUCTION_BIT_MODIFY ;;;
  tx_store 1 reg ;;;
  tx_store 2 mask ;;;
  tx_store 3 val ;;;
  gpio_set_value GPIO_CS 0 ;;;
  mcp2515_spi_trans 4 ;;;
  udelay 1 ;;;
  gpio_set_value GPIO_CS 1.

(** ** Frame codec *)

Definition mcp2515_hw_tx_frame (buf : list Z) (len : Z) (tx_buf_idx : Z)
  : M unit :=
  (fun w =>
     (tt, set_spi_tx_buf
            (memcpy (spi_tx_buf w) buf
                    (Z.to_nat (Z.of_nat TXBDAT_OFF + len))) w)) ;;;
  mcp2515_spi_trans (Z.of_nat TXBDAT_OFF + len) ;;;
  ret tt.

(** The local [buf] of [mcp2515_hw_tx] once it is filled: the six header
    bytes and the [can_dlc] data bytes copied behind them.  The cells
    after those are never read. *)
Definition hw_tx_buf (frame : can_frame) (tx_buf_idx : Z) : list Z :=
  let exide := if nonzero (Z.land (can_id frame) CAN_EFF_FLAG) then 1 else 0 in
  let sid :=
    if nonzero exide
    then Z.shiftr (Z.land (can_id frame) CAN_EFF_MASK) 18
    else Z.land (can_id frame) CAN_SFF_MASK in
  let eid := Z.land (can_id frame) CAN_EFF_MASK in
  let rtr := if nonzero (Z.land (can_id frame) CAN_RTR_FLAG) then 1 else 0 in
  [ u8 (INSTRUCTION_LOAD_TXB tx_buf_idx);
    u8 (Z.shiftr sid SIDH_SHIFT);
    u8 (Z.lor (Z.lor (Z.shiftl (Z.land sid SIDL_SID_MASK) SIDL_SID_SHIFT)
                     (Z.shiftl exide SIDL_EXIDE_SHIFT))
              (Z.land (Z.shiftr eid SIDL_EID_SHIFT) SIDL_EID_MASK));
    u8 (GET_BYTE eid 1);
    u8 (GET_BYTE eid 0);
    u8 (Z.lor (Z.shiftl rtr DLC_RTR_SHIFT) (can_dlc frame)) ]
  ++ take (Z.to_nat (can_dlc frame)) (data frame).

Definition mcp2515_hw_tx (frame : can_frame) (tx_buf_idx : Z) : M unit :=
  mcp2515_hw_tx_frame (hw_tx_buf frame tx_buf_idx) (can_dlc frame) tx_buf_idx ;;;
  (* use INSTRUCTION_RTS, to avoid "repeated frame problem" *)
  tx_store 0 (INSTRUCTION_RTS (Z.shiftl 1 tx_buf_idx)) ;;;
  mcp2515_spi_trans 1 ;;;
  ret tt.

Definition mcp2515_hw_rx_frame (buf_idx : Z) : M (list Z) :=
  tx_store RXBCTRL_OFF (INSTRUCTION_READ_RXB buf_idx) ;;;
  mcp2515_spi_trans SPI_TRANSFER_BUF_LEN ;;;
  (fun w => (take (Z.to_nat SPI_TRANSFER_BUF_LEN) (spi_rx_buf w), w)).

(** Modelled from the spec: [get_can_dlc], a macro of the kernel header
    [linux/can/dev.h] that is not part of this repository.  The spec says
    the length code "is clamped/sanitized against the maximum of 8 before
    being used as a copy length". *)
Definition get_can_dlc (i : Z) : Z := Z.min i 8.

(** The decoding part of [mcp2515_hw_rx]: [buf] is the register image
    read from the mailbox, [frame] the frame the allocator handed out. *)
Definition hw_rx_decode (buf : list Z) (frame : can_frame) : can_frame :=
  let sidh := buf !!! RXBSIDH_OFF in
  let sidl := buf !!! RXBSIDL_OFF in
  let eid8 := buf !!! RXBEID8_OFF in
  let eid0 := buf !!! RXBEID0_OFF in
  let dlc := buf !!! RXBDLC_OFF in
  let id :=
    if nonzero (Z.land sidl RXBSIDL_IDE) then
      (* Extended ID format *)
      let id := CAN_EFF_FLAG in
      let id :=
        u32 (Z.lor id
               (Z.lor (Z.lor (Z.lor (SET_BYTE (Z.land sidl RXBSIDL_EID) 2)
                                    (SET_BYTE eid8 1))
                             (SET_BYTE eid0 0))
                      (Z.shiftl (Z.lor (Z.shiftl sidh RXBSIDH_SHIFT)
                                       (Z.shiftr sidl RXBSIDL_SHIFT)) 18))) in
      if nonzero (Z.land dlc RXBDLC_RTR) then u32 (Z.lor id CAN_RTR_FLAG)
      else id
    else
      (* Standard ID format *)
      let id := u32 (Z.lor (Z.shiftl sidh RXBSIDH_SHIFT)
                           (Z.shiftr sidl RXBSIDL_SHIFT)) in
      if nonzero (Z.land sidl RXBSIDL_SRR) then u32 (Z.lor id CAN_RTR_FLAG)
      else id in
  (* Data length *)
  let len := u8 (get_can_dlc (Z.land dlc RXBDLC_LEN_MASK)) in
  mk_can_frame id len
    (memcpy (data frame) (drop RXBDAT_OFF buf) (Z.to_nat len)).

(** ** The target's word size *)

Section Target.

(** The counters of [net->stats] are [unsigned long]: as wide as a
    machine word of the target the driver is built for.  The width is
    the kernel's [BITS_PER_LONG] (32 or 64), fixed by the kernel
    configuration and not by this repository, so it is a parameter of
    everything below that touches those counters. *)
Variable BITS_PER_LONG : Z.

(** Arithmetic on an [unsigned long] is arithmetic modulo
    [2 ^ BITS_PER_LONG]. *)
Definition ulong (x : Z) : Z := x mod 2 ^ BITS_PER_LONG.

(** An [unsigned long] counter that held [x], after [k] increments:
    not touched when there was none. *)
Definition ulong_count (x k : Z) : Z := if k =? 0 then x else ulong (x + k).

Definition alloc_can_skb : M (option can_frame) :=
  fun w => (skb_pool w (skb_allocs w), set_skb_allocs (S (skb_allocs w)) w).

Definition mcp2515_hw_rx (buf_idx : Z) : M unit :=
  skb <- alloc_can_skb ;;
  match skb with
  | None =>
      modify_stats (fun s =>
        mk_stats (rx_packets s) (rx_bytes s) (ulong (rx_dropped s + 1))
                 (rx_over_errors s) (rx_errors s) (tx_packets s) (tx_bytes s)
                 (tx_dropped s))
  | Some frame0 =>
      buf <- mcp2515_hw_rx_frame buf_idx ;;
      let frame := hw_rx_decode buf frame0 in
      modify_stats (fun s =>
        mk_stats (ulong (rx_packets s + 1))
                 (ulong (rx_bytes s + can_dlc frame))
                 (rx_dropped s) (rx_over_errors s) (rx_errors s)
                 (tx_packets s) (tx_bytes s) (tx_dropped s)) ;;;
      emit (Can_led_event CAN_LED_EVENT_RX) ;;;
      emit (Netif_rx_ni frame)
  end.

Definition mcp2515_hw_sleep : M unit :=
  mcp2515_write_reg CANCTRL CANCTRL_REQOP_SLEEP.

(** ** Transmit submission *)

(** The kernel's inline [can_dropped_invalid_skb] of [linux/can/dev.h],
    which is not part of this repository.  It lets a buffer pass when
    its protocol is [ETH_P_CAN], its length is [CAN_MTU] and the length
    code in it is at most 8 (or the CAN FD counterparts); any other
    buffer it frees, counts in [dev->stats.tx_dropped] and reports as
    dropped.  The buffer handed to the driver is embedded as the classic
    CAN frame it holds, so the protocol and the buffer length are what
    they should be by typing and of the inline's tests the one on the
    length code is left. *)
Definition can_dropped_invalid_skb (skb : can_frame) : M bool :=
  if 8 <? can_dlc skb
  then
    emit Dev_kfree_skb ;;;
    modify_stats (fun s =>
      mk_stats (rx_packets s) (rx_bytes s) (rx_dropped s)
               (rx_over_errors s) (rx_errors s) (tx_packets s) (tx_bytes s)
               (ulong (tx_dropped s + 1))) ;;;
    ret true
  else ret false.

Definition mcp2515_hard_start_xmit (skb : can_frame) : M netdev_tx_t :=
  p <- get_priv ;;
  if (match tx_skb p with Some _ => true | None => false end)
     || nonzero (tx_len p)
  then ret NETDEV_TX_BUSY
  else
    dropped <- can_dropped_invalid_skb skb ;;
    if dropped then ret NETDEV_TX_OK
    else
      emit Netif_stop_queue ;;;
      modify_priv (set_tx_skb (Some skb)) ;;;
      emit Queue_work_tx ;;;
      ret NETDEV_TX_OK.

(** ** Link configuration *)

Definition cnf1_val (bt : can_bittiming) : Z :=
  u32 (Z.lor (u32 (Z.shiftl (u32 (sjw bt - 1)) CNF1_SJW_SHIFT))
             (u32 (brp bt - 1))).

Definition cnf2_val (ctrlmode : Z) (bt : can_bittiming) : Z :=
  u32 (Z.lor
         (Z.lor
            (Z.lor CNF2_BTLMODE
                   (if nonzero (Z.land ctrlmode CAN_CTRLMODE_3_SAMPLES)
                    then CNF2_SAM else 0))
            (u32 (Z.shiftl (u32 (phase_seg1 bt - 1)) CNF2_PS1_SHIFT)))
         (u32 (prop_seg bt - 1))).

Definition cnf3_val (bt : can_bittiming) : Z := u32 (phase_seg2 bt - 1).

Definition mcp2515_do_set_bittiming : M Z :=
  p <- get_priv ;;
  let bt := can_bt p in
  mcp2515_write_reg CNF1 (cnf1_val bt) ;;;
  mcp2515_write_reg CNF2 (cnf2_val (can_ctrlmode p) bt) ;;;
  mcp2515_write_bits CNF3 CNF3_PHSEG2_MASK (cnf3_val bt) ;;;
  ret 0.

(** ** Interrupt handler *)

Definition mcp2515_error_skb (can_id' data1 : Z) : M unit :=
  skb <- alloc_can_skb ;;
  match skb with
  | Some frame =>
      emit (Netif_rx_ni
              (mk_can_frame (u32 (Z.lor (can_id frame) can_id'))
                            (can_dlc frame)
                            (<[1%nat := u8 data1]> (data frame))))
  | None => emit Netdev_err_no_skb
  end.

(** The [if ... else if ...] chain over [eflag]: the new state together
    with the [can_id] and [data1] bits of the error frame. *)
Definition ist_new_state (eflag : Z) : can_state * Z * Z :=
  if nonzero (Z.land eflag EFLG_TXBO) then
    (CAN_STATE_BUS_OFF, CAN_ERR_BUSOFF, 0)
  else if nonzero (Z.land eflag EFLG_TXEP) then
    (CAN_STATE_ERROR_PASSIVE, CAN_ERR_CRTL, CAN_ERR_CRTL_TX_PASSIVE)
  else if nonzero (Z.land eflag EFLG_RXEP) then
    (CAN_STATE_ERROR_PASSIVE, CAN_ERR_CRTL, CAN_ERR_CRTL_RX_PASSIVE)
  else if nonzero (Z.land eflag EFLG_TXWAR) then
    (CAN_STATE_ERROR_WARNING, CAN_ERR_CRTL, CAN_ERR_CRTL_TX_WARNING)
  else if nonzero (Z.land eflag EFLG_RXWAR) then
    (CAN_STATE_ERROR_WARNING, CAN_ERR_CRTL, CAN_ERR_CRTL_RX_WARNING)
  else
    (CAN_STATE_ERROR_ACTIVE, 0, 0).

Definition state_in (lo hi s : can_state) : bool :=
  (can_state_rank lo <=? can_state_rank s)
  && (can_state_rank s <=? can_state_rank hi).

(** The [switch (priv->can.state)] that updates the statistics; the
    [CAN_STATE_ERROR_ACTIVE] case falls through into the
    [CAN_STATE_ERROR_WARNING] case.  The two counters are the [__u32]
    fields of [struct can_device_stats]: [++] on them is modulo
    [2 ^ 32]. *)
Definition ist_state_stats (new_state : can_state) (p : mcp2515_priv)
  : mcp2515_priv :=
  let count_passive (p : mcp2515_priv) :=
    if state_in CAN_STATE_ERROR_PASSIVE CAN_STATE_BUS_OFF new_state
    then set_error_passive (u32 (error_passive p + 1)) p else p in
  match can_st p with
  | CAN_STATE_ERROR_ACTIVE =>
      let p :=
        if state_in CAN_STATE_ERROR_WARNING CAN_STATE_BUS_OFF new_state
        then set_error_warning (u32 (error_warning p + 1)) p else p in
      count_passive p
  | CAN_STATE_ERROR_WARNING => count_passive p
  | _ => p
  end.

Inductive loop_ctl : Type := Continue | Break.

(** The body of the [while] loop is embedded block by block, in the
    order of the source; [intf] is the flag byte after the masking and
    [eflag] the error-flag byte. *)

(** "receive buffer 0", "receive buffer 1". *)
Definition ist_receive (intf : Z) : M unit :=
  when (nonzero (Z.land intf CANINTF_RX0IF)) (mcp2515_hw_rx 0) ;;;
  when (nonzero (Z.land intf CANINTF_RX1IF)) (mcp2515_hw_rx 1).

(** The mask handed to the bit-modify of [CANINTF]. *)
Definition ist_clear_intf (intf : Z) : Z :=
  let clear_intf := 0 in
  if nonzero (Z.land intf (Z.lor CANINTF_ERR CANINTF_TX))
  then u8 (Z.lor clear_intf (Z.land intf (Z.lor CANINTF_ERR CANINTF_TX)))
  else clear_intf.

(** "any error or tx interrupt we need to clear?" and the clearing of
    the error flags. *)
Definition ist_clear (intf eflag : Z) : M unit :=
  let clear_intf := ist_clear_intf intf in
  when (nonzero clear_intf) (mcp2515_write_bits CANINTF clear_intf 0) ;;;
  when (nonzero eflag) (mcp2515_write_bits EFLG eflag 0).

(** "Update can state statistics" and [priv->can.state = new_state]. *)
Definition ist_update_state (eflag : Z) : M unit :=
  let new_state := fst (fst (ist_new_state eflag)) in
  modify_priv (ist_state_stats new_state) ;;;
  modify_priv (set_can_st new_state).

(** [net->stats.rx_over_errors++; net->stats.rx_errors++;] *)
Definition count_rx_over (s : net_device_stats) : net_device_stats :=
  mk_stats (rx_packets s) (rx_bytes s) (rx_dropped s)
           (ulong (rx_over_errors s + 1)) (ulong (rx_errors s + 1))
           (tx_packets s) (tx_bytes s) (tx_dropped s).

(** [if (intf & CANINTF_ERRIF) { ... }]: "Handle overflow counters" and
    the error frame. *)
Definition ist_error_notify (intf eflag : Z) : M unit :=
  let can_id' := snd (fst (ist_new_state eflag)) in
  let data1 := snd (ist_new_state eflag) in
  when (nonzero (Z.land intf CANINTF_ERRIF))
    (let ovr := nonzero (Z.land eflag (Z.lor EFLG_RX0OVR EFLG_RX1OVR)) in
     when ovr
       (when (nonzero (Z.land eflag EFLG_RX0OVR)) (modify_stats count_rx_over) ;;;
        when (nonzero (Z.land eflag EFLG_RX1OVR)) (modify_stats count_rx_over)) ;;;
     let can_id' := if ovr then Z.lor can_id' CAN_ERR_CRTL else can_id' in
     let data1 := if ovr then Z.lor data1 CAN_ERR_CRTL_RX_OVERFLOW else data1 in
     mcp2515_error_skb can_id' data1).

(** The end of the loop body: the bus-off exit, the [intf == 0] exit and
    the transmit-complete handling. *)
Definition ist_finish (intf : Z) : M loop_ctl :=
  p <- get_priv ;;
  if can_state_eqb (can_st p) CAN_STATE_BUS_OFF && (can_restart_ms p =? 0)
  then
    modify_priv (set_force_quit 1) ;;;
    emit Can_bus_off ;;;
    mcp2515_hw_sleep ;;;
    ret Break
  else if intf =? 0 then ret Break
  else
    when (nonzero (Z.land intf CANINTF_TX))
      (modify_stats (fun s =>
         mk_stats (rx_packets s) (rx_bytes s) (rx_dropped s)
                  (rx_over_errors s) (rx_errors s)
                  (ulong (tx_packets s + 1))
                  (ulong (tx_bytes s + (tx_len p - 1)))
                  (tx_dropped s)) ;;;
       emit (Can_led_event CAN_LED_EVENT_TX) ;;;
       when (nonzero (tx_len p))
         (emit Can_get_echo_skb ;;; modify_priv (set_tx_len 0)) ;;;
       emit Netif_wake_queue) ;;;
    ret Continue.

(** One pass of the [while] loop after the two registers are read:
    [intf] and [eflag] are the bytes [mcp2515_read_2regs] delivered. *)
Definition ist_body (intf eflag : Z) : M loop_ctl :=
  (* mask out flags we don't care about *)
  let intf := Z.land intf (Z.lor (Z.lor CANINTF_RX CANINTF_TX) CANINTF_ERR) in
  ist_receive intf ;;;
  ist_clear intf eflag ;;;
  ist_update_state eflag ;;;
  ist_error_notify intf eflag ;;;
  ist_finish intf.

(** One full pass: read [CANINTF] and [EFLG], then act on them. *)
Definition ist_pass : M loop_ctl :=
  regs <- mcp2515_read_2regs CANINTF ;;
  ist_body (fst regs) (snd regs).

(** [while (!priv->force_quit) { ... }] with a bound on the number of
    passes; [None] when the bound is reached before the loop ends. *)
Fixpoint ist_loop (fuel : nat) (w : world) : option world :=
  match fuel with
  | O => None
  | S fuel' =>
      if nonzero (force_quit (priv w)) then Some w
      else
        match ist_pass w with
        | (Break, w') => Some w'
        | (Continue, w') => ist_loop fuel' w'
        end
  end.

Definition mcp2515_can_ist (fuel : nat) (w : world) : option world :=
  match ist_loop fuel (snd (emit Mutex_lock w)) with
  | Some w' => Some (snd (emit Mutex_unlock w'))
  | None => None
  end.


(** ** Observations on a trace *)

(** The transactions handed to the line transport, in order: the bytes
    of [priv->spi_tx_buf] that each [mcp2515_spi_trans] call logs. *)
Definition spi_log (t : list event) : list (list Z) :=
  flat_map (fun e => match e with Printk_write b => [b] | _ => [] end) t.

(** The frames (data and error frames alike) passed to [netif_rx_ni]. *)
Definition deliveries (t : list event) : list can_frame :=
  flat_map (fun e => match e with Netif_rx_ni f => [f] | _ => [] end) t.

(** The levels driven on the data-out line, in order. *)
Definition mosi_levels (t : list event) : list Z :=
  flat_map (fun e => match e with
                     | Gpio_set_value gpio v =>
                         if gpio =? GPIO_MOSI then [v] else []
                     | _ => []
                     end) t.

(** The events of [w'] that were not yet in [w]. *)
Definition new_events (w w' : world) : list event :=
  drop (length (trace w)) (trace w').

(** ** The contract of the line transport, from the spec

    "For each byte, most-significant-bit first, for each of 8 bits: drive
    clock low, set data-out to the bit value, drive clock high, sample
    data-in into the corresponding inbound bit." *)

Definition bit_of (b : Z) (k : Z) : Z := if Z.testbit b k then 1 else 0.

Definition msb_first_bits (b : Z) : list Z :=
  map (bit_of b) [7; 6; 5; 4; 3; 2; 1; 0].

(** The data-out levels the contract asks for when [out] is sent. *)
Definition spec_transfer_mosi (out : list Z) : list Z :=
  flat_map msb_first_bits out.

(** ** The controller's side of a bit-modify *)

(** Modelled from the spec: the controller's reaction to the bit-modify
    instruction is hardware, not code of this repository.  The spec says
    of [BIT-MODIFY, addr, mask, value] that "only bits set in mask are
    affected". *)
Definition chip_bit_modify (old mask val : Z) : Z :=
  Z.lor (Z.land old (Z.lnot mask)) (Z.land val mask).

(** A freshly set-up driver: zeroed 14-byte buffers, nothing pending,
    input line and allocator given. *)
Definition idle_priv : mcp2515_priv :=
  mk_priv CAN_STATE_ERROR_ACTIVE 0 0 (mk_can_bittiming 1 1 1 1 1) 0 0 None 0 0.

Definition idle_world (line : nat -> Z) (pool : nat -> option can_frame)
  : world :=
  mk_world idle_priv (mk_stats 0 0 0 0 0 0 0 0)
           (replicate 14 0) (replicate 14 0) line 0 pool 0 [].

(** ** Reading bits off the input line *)

(** The value of a bit sequence read most-significant-bit first, on top
    of the bits [acc] already read. *)
Definition msb_first_value (acc : Z) (bits : list Z) : Z :=
  fold_left (fun a b => 2 * a + b) bits acc.

(** The [n] samples of the input line from read number [start] on, as
    bits. *)
Definition sampled_bits (line : nat -> Z) (start n : nat) : list Z :=
  map (fun k => if nonzero (line (start + k)%nat) then 1 else 0) (seq 0 n).

(** ** Example states *)

Definition zero_frame : can_frame := mk_can_frame 0 0 (replicate 8 0).

(** An idle driver on a line that reads low, with an allocator that
    always succeeds. *)
Definition quiet_world : world :=
  idle_world (fun _ => 0) (fun _ => Some zero_frame).

(** A driver with a transmission in flight: the pending length is set. *)
Definition busy_world : world :=
  set_priv (set_tx_len 3 idle_priv) quiet_world.

(** A driver configured with sjw = 2, brp = 4, phase_seg1 = 6,
    phase_seg2 = 4, prop_seg = 3 and triple sampling off. *)
Definition timing_world : world :=
  set_priv (mk_priv CAN_STATE_STOPPED 0 0 (mk_can_bittiming 2 4 6 4 3)
                    0 0 None 0 0) quiet_world.

(** A receive-mailbox image whose DLC byte holds 0x0F. *)
Definition corrupt_dlc_image : list Z :=
  [0; 36; 96; 0; 0; 15; 1; 2; 3; 4; 5; 6; 7; 8].

(** ** Auxiliary notions for the proofs *)

(** A world that differs from [w] only in what a bus transfer may touch:
    the buffers, the count of line reads and the trace. *)
Definition after_io (w : world) (tx rx : list Z) (n : nat) (evs : list event)
  : world :=
  mk_world (priv w) (stats w) tx rx (gpio_in w) n (skb_pool w) (skb_allocs w)
           (trace w ++ evs).

(** The mask of a logged transaction when it is a bit-modify addressed
    to [CANINTF]. *)
Definition intf_clear_mask (bytes : list Z) : option Z :=
  match bytes with
  | ins :: reg :: mask :: _ =>
      if (ins =? INSTRUCTION_BIT_MODIFY) && (reg =? CANINTF)
      then Some mask else None
  | _ => None
  end.

Definition intf_clear_masks (log : list (list Z)) : list Z :=
  omap intf_clear_mask log.

(** What the handler's bus and notification steps leave untouched: the
    private data, the line script and the allocator, and the size of the
    buffers. *)
Definition same_driver (w w' : world) : Prop :=
  priv w' = priv w
  /\ gpio_in w' = gpio_in w
  /\ skb_pool w' = skb_pool w
  /\ length (spi_tx_buf w') = length (spi_tx_buf w)
  /\ length (spi_rx_buf w') = length (spi_rx_buf w).

(** The flag byte after "mask out flags we don't care about". *)
Definition ist_masked (intf : Z) : Z :=
  Z.land intf (Z.lor (Z.lor CANINTF_RX CANINTF_TX) CANINTF_ERR).


(** The two transition counters hold values of their type and are at
    least [k] increments away from its largest value. *)
Definition counters_have_room (k : nat) (w : world) : Prop :=
  0 <= error_warning (priv w)
  /\ error_warning (priv w) + Z.of_nat k < 2 ^ 32
  /\ 0 <= error_passive (priv w)
  /\ error_passive (priv w) + Z.of_nat k < 2 ^ 32.


(** * Further functions of the driver *)

(** ** Constants *)

Definition CANCTRL_REQOP_MASK : Z := 224.
Definition CANCTRL_REQOP_CONF : Z := 128.
Definition RXBCTRL (n : Z) : Z := n * 16 + 96 + Z.of_nat RXBCTRL_OFF.
Definition RXBCTRL_BUKT : Z := 4.
Definition RXBCTRL_RXM0 : Z := 32.
Definition RXBCTRL_RXM1 : Z := 64.
Definition MCP251X_OST_DELAY_MS : Z := 5.
(** [ENODEV] of the kernel's [errno-base.h]. *)
Definition ENODEV : Z := 19.

(** ** Setup, reset and probe *)

(** The kernel's [mdelay(n)]: a busy wait of [n] milliseconds, which
    [linux/delay.h] writes as [udelay((n) * 1000)] for a constant [n] of
    at most 5; the driver only calls it with [MCP251X_OST_DELAY_MS]. *)
Definition mdelay (msecs : Z) : M unit := udelay (msecs * 1000).

Definition mcp2515_setup : M Z :=
  mcp2515_do_set_bittiming ;;;
  mcp2515_write_reg (RXBCTRL 0)
    (Z.lor (Z.lor RXBCTRL_BUKT RXBCTRL_RXM0) RXBCTRL_RXM1) ;;;
  mcp2515_write_reg (RXBCTRL 1) (Z.lor RXBCTRL_RXM0 RXBCTRL_RXM1) ;;;
  ret 0.

Definition mcp2515_hw_reset : M Z :=
  (* Wait for oscillator startup timer after power up *)
  mdelay MCP251X_OST_DELAY_MS ;;;
  tx_store 0 INSTRUCTION_RESET ;;;
  r <- mcp2515_spi_trans 1 ;;
  if nonzero r then ret r
  else
    (* Wait for oscillator startup timer after reset *)
    mdelay MCP251X_OST_DELAY_MS ;;;
    reg <- mcp2515_read_reg CANSTAT ;;
    if negb (Z.land reg CANCTRL_REQOP_MASK =? CANCTRL_REQOP_CONF)
    then ret (- ENODEV)
    else ret 0.

Definition mcp2515_hw_probe : M Z :=
  r <- mcp2515_hw_reset ;;
  if nonzero r then ret r
  else
    ctrl <- mcp2515_read_reg CANCTRL ;;
    (* Check for power up default value *)
    if negb (Z.land ctrl 23 =? 7) then ret (- ENODEV) else ret 0.

(** ** Shape of the line activity *)

(** One clock cycle of the transport: clock low, data-out, clock high,
    one sample of data-in. *)
Definition spi_cycle (level sample : Z) : list event :=
  [Gpio_set_value GPIO_CLK 0; Gpio_set_value GPIO_MOSI level;
   Gpio_set_value GPIO_CLK 1; Gpio_get_value GPIO_MISO sample].

(** The eight cycles of the byte [b] when the next sample is number
    [start]: data-out holds the top bit of [b] throughout. *)
Definition spi_byte_cycles (line : nat -> Z) (start : nat) (b : Z)
  : list event :=
  flat_map (fun k => spi_cycle (bit_of b 7) (line (start + k)%nat)) (seq 0 8).

(** The cycles of the bytes [out], sent one after the other. *)
Fixpoint spi_bytes_cycles (line : nat -> Z) (start : nat) (out : list Z)
  : list event :=
  match out with
  | [] => []
  | b :: out' =>
      spi_byte_cycles line start b ++ spi_bytes_cycles line (start + 8) out'
  end.

(** Everything one transfer of [out] adds to the trace. *)
Definition spi_transfer_events (line : nat -> Z) (start : nat) (out : list Z)
  : list event :=
  spi_bytes_cycles line start out ++ [Printk_write out; Printk_read out].

(** The byte assembled from the eight samples [start], ..., [start + 7]. *)
Definition sampled_byte (line : nat -> Z) (start : nat) : Z :=
  msb_first_value 0 (sampled_bits line start 8).

(** The levels driven on the chip-select line, in order. *)
Definition cs_levels (t : list event) : list Z :=
  flat_map (fun e => match e with
                     | Gpio_set_value gpio v =>
                         if gpio =? GPIO_CS then [v] else []
                     | _ => []
                     end) t.

(** The microseconds spent in [udelay], in total. *)
Definition delay_usecs (t : list event) : Z :=
  fold_right (fun e acc => match e with Udelay n => n + acc | _ => acc end) 0 t.

(** ** Format-equivalent mailbox images *)

(** The receive-mailbox image that holds what a transmit buffer holds:
    the bytes behind the instruction byte, behind a control byte [ctrl]
    and followed by [pad]. *)
Definition rx_image_of_tx (ctrl : Z) (txbuf pad : list Z) : list Z :=
  ctrl :: drop 1 txbuf ++ pad.

(** ** More example states *)

(** A line that reads high, low, high, ...: every byte sampled from it
    is 0xAA. *)
Definition alternating_line (n : nat) : Z := if Nat.even n then 1 else 0.

Definition alternating_world : world :=
  idle_world alternating_line (fun _ => Some zero_frame).

(** The same line with an allocator that has nothing to hand out. *)
Definition starved_world : world :=
  idle_world alternating_line (fun _ => None).


(** A driver on the same line with automatic restart on and a
    transmission of three bytes in flight. *)
Definition sending_world : world :=
  set_priv (mk_priv CAN_STATE_ERROR_ACTIVE 100 0 (mk_can_bittiming 1 1 1 1 1)
                    0 0 None 3 0) alternating_world.

(** * Proofs *)

(** ** Machine integers *)

Lemma land_pow2 (x k : Z) :
  0 <= k -> Z.land x (2 ^ k) = if Z.testbit x k then 2 ^ k else 0.
Proof.
  intros Hk. apply Z.bits_inj'. intros n Hn.
  rewrite Z.land_spec, Z.pow2_bits_eqb by exact Hk.
  destruct (Z.eqb_spec k n) as [->|Hne].
  - destruct (Z.testbit x n); cbn.
    + rewrite Z.pow2_bits_true by exact Hn. reflexivity.
    + rewrite Z.bits_0. reflexivity.
  - rewrite andb_false_r. destruct (Z.testbit x k).
    + rewrite Z.pow2_bits_false by congruence. reflexivity.
    + rewrite Z.bits_0. reflexivity.
Qed.

Lemma nonzero_land_pow2 (x k : Z) :
  0 <= k -> nonzero (Z.land x (2 ^ k)) = Z.testbit x k.
Proof.
  intros Hk. rewrite land_pow2 by exact Hk. unfold nonzero.
  destruct (Z.testbit x k).
  - assert (0 < 2 ^ k) by (apply Z.pow_pos_nonneg; lia).
    destruct (Z.eqb_spec (2 ^ k) 0); [lia | reflexivity].
  - reflexivity.
Qed.

Lemma u8_idem (x : Z) : u8 (u8 x) = u8 x.
Proof. unfold u8. rewrite <- Z.land_assoc. reflexivity. Qed.

Lemma u8_small (x : Z) : 0 <= x < 256 -> u8 x = x.
Proof.
  intros H. unfold u8. change 255 with (Z.ones 8).
  rewrite Z.land_ones by lia. apply Z.mod_small. exact H.
Qed.

Lemma u8_u32 (x : Z) : u8 (u32 x) = u8 x.
Proof. unfold u8, u32. rewrite <- Z.land_assoc. reflexivity. Qed.

Lemma u8_lor (a b : Z) : u8 (Z.lor a b) = Z.lor (u8 a) (u8 b).
Proof. unfold u8. apply Z.land_lor_distr_l. Qed.

Lemma u8_shiftl_u32 (x k : Z) :
  0 <= k -> u8 (Z.shiftl (u32 x) k) = u8 (Z.shiftl x k).
Proof.
  intros Hk. unfold u8, u32. apply Z.bits_inj'. intros i Hi.
  rewrite !Z.land_spec, !Z.shiftl_spec, Z.land_spec by exact Hi.
  change 255 with (Z.ones 8). change 4294967295 with (Z.ones 32).
  destruct (Z.lt_ge_cases i 8) as [Hlt|Hge].
  - destruct (Z.lt_ge_cases (i - k) 0) as [Hn|Hp].
    + rewrite !Z.testbit_neg_r by exact Hn. reflexivity.
    + rewrite (Z.ones_spec_low 32 (i - k)) by lia.
      rewrite andb_true_r. reflexivity.
  - rewrite (Z.ones_spec_high 8 i) by lia. rewrite !andb_false_r.
    reflexivity.
Qed.

Lemma shift_in_bit (acc : Z) (b : bool) :
  0 <= acc < 128 ->
  (if b then Z.lor (u8 (Z.shiftl acc 1)) 1 else u8 (Z.shiftl acc 1))
  = 2 * acc + (if b then 1 else 0).
Proof.
  intros Ha.
  assert (Hs : u8 (Z.shiftl acc 1) = 2 * acc).
  { unfold u8. change 255 with (Z.ones 8).
    rewrite Z.land_ones, Z.shiftl_mul_pow2 by lia.
    change (2 ^ 1) with 2. change (2 ^ 8) with 256.
    rewrite Z.mod_small by lia. lia. }
  rewrite Hs. destruct b; [|lia].
  rewrite <- Z.add_nocarry_lor; [reflexivity|].
  change 1 with (Z.ones 1) at 1. rewrite Z.land_ones by lia.
  change (2 ^ 1) with 2. rewrite Z.mul_comm. apply Z.mod_mul. lia.
Qed.

(** ** Traces *)

Lemma spi_log_app (a b : list event) : spi_log (a ++ b) = spi_log a ++ spi_log b.
Proof. unfold spi_log. apply flat_map_app. Qed.

Lemma deliveries_app (a b : list event) :
  deliveries (a ++ b) = deliveries a ++ deliveries b.
Proof. unfold deliveries. apply flat_map_app. Qed.

Lemma new_events_app (w w' : world) (evs : list event) :
  trace w' = trace w ++ evs -> new_events w w' = evs.
Proof.
  intros H. unfold new_events. rewrite H. apply drop_app_length.
Qed.

(** ** The monad *)

Lemma bind_unfold {A B : Type} (m : M A) (k : A -> M B) (w : world) :
  bind m k w = k (fst (m w)) (snd (m w)).
Proof. unfold bind. destruct (m w); reflexivity. Qed.

Lemma bind_seq {A B : Type} (m : M A) (k : M B) (w : world) :
  bind m (fun _ => k) w = k (snd (m w)).
Proof. unfold bind. destruct (m w); reflexivity. Qed.

(** ** Line transport *)

Lemma spi_trans_bits_eq (n : nat) (data_out data_in : Z) (w : world) :
  exists (r : Z) (evs : list event),
    spi_trans_bits n data_out data_in w
    = (r, after_io w (spi_tx_buf w) (spi_rx_buf w) (gpio_reads w + n) evs)
    /\ spi_log evs = [] /\ deliveries evs = []
    /\ mosi_levels evs
       = replicate n (if nonzero (Z.land data_out 128) then 1 else 0).
Proof.
  revert data_in w. induction n as [|n IH]; intros data_in w.
  - exists data_in, []. simpl. unfold ret, after_io.
    rewrite app_nil_r, Nat.add_0_r. destruct w; auto.
  - cbn [spi_trans_bits]. rewrite !bind_seq, bind_unfold.
    match goal with
    | |- context [spi_trans_bits n data_out ?d ?w1] =>
        destruct (IH d w1) as (r & evs & Heq & Hlog & Hdel & Hmosi);
        rewrite Heq
    end.
    destruct (nonzero (Z.land data_out 128)) eqn:Hb;
      cbn in Hmosi |- *.
    + eexists r, (_ :: _ :: _ :: _ :: evs). split; [|split; [|split]].
      * unfold after_io. cbn. rewrite <- !app_assoc. cbn.
        do 2 f_equal. lia.
      * cbn. exact Hlog.
      * cbn. exact Hdel.
      * cbn. f_equal. exact Hmosi.
    + eexists r, (_ :: _ :: _ :: _ :: evs). split; [|split; [|split]].
      * unfold after_io. cbn. rewrite <- !app_assoc. cbn.
        do 2 f_equal. lia.
      * cbn. exact Hlog.
      * cbn. exact Hdel.
      * cbn. f_equal. exact Hmosi.
Qed.

Lemma spi_trans_bytes_eq (n i : nat) (w : world) :
  exists (rx : list Z) (evs : list event),
    spi_trans_bytes n i w
    = (tt, after_io w (spi_tx_buf w) rx (gpio_reads w + 8 * n) evs)
    /\ length rx = length (spi_rx_buf w)
    /\ spi_log evs = [] /\ deliveries evs = [].
Proof.
  revert i w. induction n as [|n IH]; intros i w.
  - exists (spi_rx_buf w), []. cbn. unfold ret, after_io.
    rewrite app_nil_r, Nat.add_0_r. destruct w; auto.
  - cbn [spi_trans_bytes]. rewrite bind_unfold, bind_unfold, bind_seq.
    destruct (spi_trans_bits_eq 8 (tx_load i w).1 0 (tx_load i w).2)
      as (r & evs1 & Heq1 & Hlog1 & Hdel1 & _).
    rewrite Heq1. cbn [fst snd].
    match goal with
    | |- context [spi_trans_bytes n (S i) ?w1] =>
        destruct (IH (S i) w1) as (rx & evs2 & Heq2 & Hlen & Hlog2 & Hdel2);
        rewrite Heq2
    end.
    exists rx, (evs1 ++ evs2). split; [|split; [|split]].
    + unfold after_io. cbn. rewrite <- !app_assoc. do 2 f_equal. lia.
    + rewrite Hlen. cbn. apply length_insert.
    + rewrite spi_log_app, Hlog1, Hlog2. reflexivity.
    + rewrite deliveries_app, Hdel1, Hdel2. reflexivity.
Qed.

Lemma mcp2515_spi_trans_eq (len : Z) (w : world) :
  exists (rx : list Z) (n : nat) (evs : list event),
    mcp2515_spi_trans len w = (0, after_io w (spi_tx_buf w) rx n evs)
    /\ length rx = length (spi_rx_buf w)
    /\ spi_log evs = [take (Z.to_nat len) (spi_tx_buf w)]
    /\ deliveries evs = [].
Proof.
  unfold mcp2515_spi_trans. rewrite !bind_seq.
  destruct (spi_trans_bytes_eq (Z.to_nat len) 0 w)
    as (rx & evs & Heq & Hlen & Hlog & Hdel).
  rewrite Heq. cbn.
  exists rx, (gpio_reads w + 8 * Z.to_nat len)%nat,
    (evs ++ [Printk_write (take (Z.to_nat len) (spi_tx_buf w));
             Printk_read (take (Z.to_nat len) (spi_tx_buf w))]).
  split; [|split; [|split]].
  - unfold after_io. cbn. rewrite <- !app_assoc. reflexivity.
  - exact Hlen.
  - rewrite spi_log_app, Hlog. reflexivity.
  - rewrite deliveries_app, Hdel. reflexivity.
Qed.

Lemma sampled_bits_S (line : nat -> Z) (start n : nat) :
  sampled_bits line start (S n)
  = (if nonzero (line start) then 1 else 0) :: sampled_bits line (S start) n.
Proof.
  unfold sampled_bits. cbn [seq map]. rewrite Nat.add_0_r. f_equal.
  rewrite <- seq_shift, map_map. apply map_ext. intros k.
  rewrite Nat.add_succ_r. reflexivity.
Qed.

Lemma spi_trans_bits_in (n : nat) (data_out data_in : Z) (w : world) :
  (n <= 8)%nat -> 0 <= data_in < 2 ^ Z.of_nat (8 - n) ->
  let r := fst (spi_trans_bits n data_out data_in w) in
  r = msb_first_value data_in (sampled_bits (gpio_in w) (gpio_reads w) n)
  /\ 0 <= r < 256.
Proof.
  revert data_in w. induction n as [|n IH]; intros data_in w Hn Hd.
  - cbn. change (2 ^ Z.of_nat (8 - 0)) with 256 in Hd. lia.
  - cbn [spi_trans_bits]. rewrite !bind_seq, bind_unfold. cbv zeta.
    rewrite sampled_bits_S. unfold msb_first_value. cbn [fold_left].
    assert (Hpow : 2 ^ Z.of_nat (8 - n) = 2 * 2 ^ Z.of_nat (8 - S n)).
    { replace (8 - n)%nat with (S (8 - S n)) by lia.
      rewrite Nat2Z.inj_succ, Z.pow_succ_r by lia. reflexivity. }
    assert (H128 : 2 ^ Z.of_nat (8 - S n) <= 128).
    { change 128 with (2 ^ 7). apply Z.pow_le_mono_r; lia. }
    destruct (nonzero (Z.land data_out 128));
    match goal with
    | |- context [spi_trans_bits n data_out ?d ?w1] =>
        assert (Hv : d = 2 * data_in
                         + (if nonzero (gpio_in w (gpio_reads w))
                            then 1 else 0))
          by (apply shift_in_bit; lia);
        assert (Hw : gpio_in w1 = gpio_in w
                     /\ gpio_reads w1 = S (gpio_reads w))
          by (split; reflexivity);
        destruct Hw as (Hg & Hr);
        rewrite Hv; specialize (IH (2 * data_in
                         + (if nonzero (gpio_in w (gpio_reads w))
                            then 1 else 0)) w1)
    end;
    rewrite Hg, Hr in IH; apply IH; try lia;
    rewrite Hpow;
    destruct (nonzero (gpio_in w (gpio_reads w))); lia.
Qed.

Lemma spi_trans_bytes_rx (n i : nat) (w : world) (j : nat) :
  let w' := snd (spi_trans_bytes n i w) in
  ((i <= j < i + n)%nat -> (j < length (spi_rx_buf w))%nat ->
   spi_rx_buf w' !! j
   = Some (msb_first_value 0
             (sampled_bits (gpio_in w) (gpio_reads w + 8 * (j - i)) 8)))
  /\ (~ (i <= j < i + n)%nat -> spi_rx_buf w' !! j = spi_rx_buf w !! j).
Proof.
  revert i w. induction n as [|n IH]; intros i w; cbv zeta.
  - cbn. split; [lia | reflexivity].
  - cbn [spi_trans_bytes]. rewrite bind_unfold, bind_unfold, bind_seq.
    cbn [tx_load fst snd].
    destruct (spi_trans_bits_in 8 (spi_tx_buf w !!! i) 0 w ltac:(lia)
                ltac:(cbn; lia)) as (Hv & Hb).
    destruct (spi_trans_bits_eq 8 (spi_tx_buf w !!! i) 0 w)
      as (r & evs & Heq & _).
    rewrite Heq in Hv, Hb |- *. cbn [fst snd] in Hv, Hb |- *.
    match goal with
    | |- context [spi_trans_bytes n (S i) ?w1] =>
        specialize (IH (S i) w1); cbv zeta in IH;
        change (gpio_in w1) with (gpio_in w) in IH;
        change (gpio_reads w1) with (gpio_reads w + 8)%nat in IH;
        change (spi_rx_buf w1) with (<[i := u8 r]> (spi_rx_buf w)) in IH
    end.
    destruct IH as (IHin & IHout). rewrite length_insert in IHin.
    split.
    + intros Hj Hl. destruct (Nat.eq_dec j i) as [->|Hne].
      * rewrite IHout by lia.
        rewrite list_lookup_insert_eq by exact Hl.
        rewrite u8_small by exact Hb. rewrite Hv.
        replace (gpio_reads w + 8 * (i - i))%nat with (gpio_reads w) by lia.
        reflexivity.
      * rewrite IHin by lia.
        replace (gpio_reads w + 8 + 8 * (j - S i))%nat
          with (gpio_reads w + 8 * (j - i))%nat by lia.
        reflexivity.
    + intros Hj. rewrite IHout by lia.
      apply list_lookup_insert_ne. lia.
Qed.

(** The inbound half of the transfer: the receive buffer keeps its
    length, and byte [j] of a transfer is the eight samples taken during
    that byte, most significant bit first. *)
Lemma mcp2515_spi_trans_inbound (len : Z) (w : world) (j : nat) :
  (j < Z.to_nat len)%nat -> (j < length (spi_rx_buf w))%nat ->
  let w' := snd (mcp2515_spi_trans len w) in
  length (spi_rx_buf w') = length (spi_rx_buf w)
  /\ spi_rx_buf w' !! j
     = Some (msb_first_value 0
               (sampled_bits (gpio_in w) (gpio_reads w + 8 * j) 8)).
Proof.
  intros Hj Hl. cbv zeta. split.
  - destruct (mcp2515_spi_trans_eq len w) as (rx & n & evs & Heq & Hlen & _).
    rewrite Heq. exact Hlen.
  - unfold mcp2515_spi_trans. rewrite !bind_seq.
    change (spi_rx_buf (ret 0 (spi_trans_printk len
              (spi_trans_bytes (Z.to_nat len) 0 w).2).2).2)
      with (spi_rx_buf (spi_trans_bytes (Z.to_nat len) 0 w).2).
    destruct (spi_trans_bytes_rx (Z.to_nat len) 0 w j) as (Hin & _).
    rewrite Hin by lia.
    replace (j - 0)%nat with j by lia. reflexivity.
Qed.

Lemma mosi_levels_app (a b : list event) :
  mosi_levels (a ++ b) = mosi_levels a ++ mosi_levels b.
Proof. unfold mosi_levels. apply flat_map_app. Qed.

Lemma spi_trans_bytes_mosi (n i : nat) (w : world) :
  exists evs : list event,
    trace (snd (spi_trans_bytes n i w)) = trace w ++ evs
    /\ mosi_levels evs
       = flat_map (fun k => replicate 8 (bit_of (spi_tx_buf w !!! k) 7))
                  (seq i n).
Proof.
  revert i w. induction n as [|n IH]; intros i w.
  - exists []. cbn. rewrite app_nil_r. auto.
  - cbn [spi_trans_bytes]. rewrite bind_unfold, bind_unfold, bind_seq.
    cbn [tx_load fst snd].
    destruct (spi_trans_bits_eq 8 (spi_tx_buf w !!! i) 0 w)
      as (r & evs1 & Heq & _ & _ & Hmosi).
    rewrite Heq. cbn [fst snd].
    match goal with
    | |- context [spi_trans_bytes n (S i) ?w1] =>
        destruct (IH (S i) w1) as (evs2 & Htr & Hm2)
    end.
    exists (evs1 ++ evs2). split.
    + rewrite Htr. cbn. rewrite app_assoc. reflexivity.
    + rewrite mosi_levels_app, Hmosi, Hm2. cbn [seq flat_map].
      change 128 with (2 ^ 7). rewrite nonzero_land_pow2 by lia.
      reflexivity.
Qed.

(** What the transfer drives on data-out: for each outbound byte, its
    top bit in all eight clock cycles. *)
Lemma mcp2515_spi_trans_mosi (len : Z) (w : world) :
  mosi_levels (new_events w (snd (mcp2515_spi_trans len w)))
  = flat_map (fun k => replicate 8 (bit_of (spi_tx_buf w !!! k) 7))
             (seq 0 (Z.to_nat len)).
Proof.
  unfold mcp2515_spi_trans. rewrite !bind_seq.
  destruct (spi_trans_bytes_mosi (Z.to_nat len) 0 w) as (evs & Htr & Hm).
  rewrite (new_events_app w _ (evs ++ [Printk_write
             (take (Z.to_nat len) (spi_tx_buf (spi_trans_bytes (Z.to_nat len) 0 w).2));
           Printk_read
             (take (Z.to_nat len) (spi_tx_buf (spi_trans_bytes (Z.to_nat len) 0 w).2))])).
  - rewrite mosi_levels_app, Hm. cbn. apply app_nil_r.
  - cbn. rewrite Htr, <- app_assoc. reflexivity.
Qed.

(** ** Register access *)

Ltac spi_trans_step :=
  match goal with
  | |- context [mcp2515_spi_trans ?l ?w] =>
      let rx := fresh "rx" in
      let n := fresh "n" in
      let evs := fresh "evs" in
      let Heq := fresh "Heq" in
      let Hlen := fresh "Hlen" in
      let Hlog := fresh "Hlog" in
      let Hdel := fresh "Hdel" in
      destruct (mcp2515_spi_trans_eq l w)
        as (rx & n & evs & Heq & Hlen & Hlog & Hdel);
      rewrite Heq; clear Heq
  end.

Ltac run_prims :=
  cbv [gpio_set_value udelay emit tx_store rx_store tx_load rx_load
       modify_priv modify_stats get_priv ret after_io
       set_trace set_spi_tx_buf set_spi_rx_buf set_priv set_stats
       set_skb_allocs set_gpio_reads
       fst snd priv stats spi_tx_buf spi_rx_buf gpio_in gpio_reads skb_pool
       skb_allocs trace] in *.

Lemma mcp2515_write_reg_eq (reg val : Z) (w : world) :
  let tx := <[2%nat := u8 val]>
              (<[1%nat := u8 reg]>
                 (<[0%nat := u8 INSTRUCTION_WRITE]> (spi_tx_buf w))) in
  exists (rx : list Z) (n : nat) (evs : list event),
    mcp2515_write_reg reg val w = (tt, after_io w tx rx n evs)
    /\ length rx = length (spi_rx_buf w)
    /\ spi_log evs = [take 3 tx]
    /\ deliveries evs = [].
Proof.
  intros tx. unfold mcp2515_write_reg. rewrite !bind_seq.
  spi_trans_step. run_prims.
  exists rx, n, (Gpio_set_value GPIO_CS 0 :: evs
                 ++ [Udelay 1; Gpio_set_value GPIO_CS 1]).
  split; [|split; [|split]].
  - rewrite <- !app_assoc. reflexivity.
  - exact Hlen.
  - cbn. rewrite spi_log_app, Hlog. reflexivity.
  - cbn. rewrite deliveries_app, Hdel. reflexivity.
Qed.

Lemma mcp2515_write_bits_eq (reg mask val : Z) (w : world) :
  let tx := <[3%nat := u8 val]>
              (<[2%nat := u8 mask]>
                 (<[1%nat := u8 reg]>
                    (<[0%nat := u8 INSTRUCTION_BIT_MODIFY]> (spi_tx_buf w)))) in
  exists (rx : list Z) (n : nat) (evs : list event),
    mcp2515_write_bits reg mask val w = (tt, after_io w tx rx n evs)
    /\ length rx = length (spi_rx_buf w)
    /\ spi_log evs = [take 4 tx]
    /\ deliveries evs = [].
Proof.
  intros tx. unfold mcp2515_write_bits. rewrite !bind_seq.
  spi_trans_step. run_prims.
  exists rx, n, (Gpio_set_value GPIO_CS 0 :: evs
                 ++ [Udelay 1; Gpio_set_value GPIO_CS 1]).
  split; [|split; [|split]].
  - rewrite <- !app_assoc. reflexivity.
  - exact Hlen.
  - cbn. rewrite spi_log_app, Hlog. reflexivity.
  - cbn. rewrite deliveries_app, Hdel. reflexivity.
Qed.

Lemma mcp2515_read_2regs_eq (reg : Z) (w : world) :
  let tx := <[1%nat := u8 reg]>
              (<[0%nat := u8 INSTRUCTION_READ]> (spi_tx_buf w)) in
  exists (v : Z * Z) (rx : list Z) (n : nat) (evs : list event),
    mcp2515_read_2regs reg w = (v, after_io w tx rx n evs)
    /\ length rx = length (spi_rx_buf w)
    /\ spi_log evs = [take 4 tx]
    /\ deliveries evs = [].
Proof.
  intros tx. unfold mcp2515_read_2regs. rewrite !bind_seq, !bind_unfold.
  spi_trans_step. run_prims.
  eexists _, rx, n, (Gpio_set_value GPIO_CS 0 :: evs
                     ++ [Udelay 1; Gpio_set_value GPIO_CS 1]).
  split; [|split; [|split]].
  - rewrite <- !app_assoc. reflexivity.
  - exact Hlen.
  - cbn. rewrite spi_log_app, Hlog. reflexivity.
  - cbn. rewrite deliveries_app, Hdel. reflexivity.
Qed.

Lemma mcp2515_hw_rx_frame_eq (buf_idx : Z) (w : world) :
  let tx := <[0%nat := u8 (INSTRUCTION_READ_RXB buf_idx)]> (spi_tx_buf w) in
  exists (rx : list Z) (n : nat) (evs : list event),
    mcp2515_hw_rx_frame buf_idx w = (take 14 rx, after_io w tx rx n evs)
    /\ length rx = length (spi_rx_buf w)
    /\ spi_log evs = [take 14 tx]
    /\ deliveries evs = [].
Proof.
  intros tx. unfold mcp2515_hw_rx_frame. rewrite !bind_seq.
  spi_trans_step. run_prims.
  exists rx, n, evs. auto.
Qed.

(** ** Frame codec *)

Lemma READ_RXB_not_bit_modify (buf_idx : Z) (l : list Z) :
  intf_clear_mask (take 14 (<[0%nat := u8 (INSTRUCTION_READ_RXB buf_idx)]> l))
  = None.
Proof.
  destruct l as [|a [|b [|c l]]]; try reflexivity.
  unfold INSTRUCTION_READ_RXB. destruct (buf_idx =? 0); reflexivity.
Qed.

Lemma mcp2515_hw_rx_eq (buf_idx : Z) (w : world) :
  exists (w' : world) (evs : list event),
    mcp2515_hw_rx buf_idx w = (tt, w')
    /\ same_driver w w'
    /\ trace w' = trace w ++ evs
    /\ intf_clear_masks (spi_log evs) = [].
Proof.
  unfold mcp2515_hw_rx. rewrite bind_unfold.
  unfold alloc_can_skb at 1 2. cbn [fst snd].
  destruct (skb_pool w (skb_allocs w)) as [frame0|].
  - rewrite bind_unfold, !bind_seq.
    match goal with
    | |- context [mcp2515_hw_rx_frame ?i ?w1] =>
        destruct (mcp2515_hw_rx_frame_eq i w1)
          as (rx & n & evs & Heq & Hlen & Hlog & Hdel); rewrite Heq
    end.
    run_prims.
    eexists _, (evs ++ [Can_led_event CAN_LED_EVENT_RX; Netif_rx_ni _]).
    split; [reflexivity|]. split; [|split].
    + unfold same_driver; cbn. rewrite length_insert. auto.
    + cbn. rewrite <- !app_assoc. reflexivity.
    + rewrite spi_log_app, Hlog. cbn. rewrite READ_RXB_not_bit_modify.
      reflexivity.
  - run_prims. eexists _, []. split; [reflexivity|]. split; [|split].
    + unfold same_driver; cbn. auto.
    + cbn. rewrite app_nil_r. reflexivity.
    + reflexivity.
Qed.

Lemma same_driver_refl (w : world) : same_driver w w.
Proof. unfold same_driver; auto. Qed.

Lemma same_driver_trans (w1 w2 w3 : world) :
  same_driver w1 w2 -> same_driver w2 w3 -> same_driver w1 w3.
Proof. unfold same_driver. intuition congruence. Qed.

Lemma intf_clear_masks_app (a b : list (list Z)) :
  intf_clear_masks (a ++ b) = intf_clear_masks a ++ intf_clear_masks b.
Proof. unfold intf_clear_masks. apply omap_app. Qed.

(** ** The interrupt handler, block by block *)

Lemma ist_receive_eq (intf : Z) (w : world) :
  exists (w' : world) (evs : list event),
    ist_receive intf w = (tt, w')
    /\ same_driver w w'
    /\ trace w' = trace w ++ evs
    /\ intf_clear_masks (spi_log evs) = []
    /\ (Z.land intf CANINTF_RX0IF = 0 -> Z.land intf CANINTF_RX1IF = 0 ->
        evs = []).
Proof.
  unfold ist_receive, when. rewrite bind_unfold.
  assert (Hret : forall v : world, ret tt v = (tt, v)) by reflexivity.
  assert (H0 : exists w1 evs1,
             (if nonzero (Z.land intf CANINTF_RX0IF)
              then mcp2515_hw_rx 0 else ret tt) w = (tt, w1)
             /\ same_driver w w1 /\ trace w1 = trace w ++ evs1
             /\ intf_clear_masks (spi_log evs1) = []
             /\ (Z.land intf CANINTF_RX0IF = 0 -> evs1 = [])).
  { unfold nonzero. destruct (Z.land intf CANINTF_RX0IF =? 0) eqn:E; cbn.
    - exists w, []. rewrite app_nil_r. auto using same_driver_refl.
    - destruct (mcp2515_hw_rx_eq 0 w) as (w1 & evs1 & Heq & Hsd & Htr & Hm).
      exists w1, evs1. split; [exact Heq|]. split; [exact Hsd|].
      split; [exact Htr|]. split; [exact Hm|].
      intros Hz. apply Z.eqb_neq in E. contradiction. }
  destruct H0 as (w1 & evs1 & Heq1 & Hsd1 & Htr1 & Hm1 & Hz1).
  rewrite Heq1. cbn [fst snd].
  unfold nonzero. destruct (Z.land intf CANINTF_RX1IF =? 0) eqn:E; cbn.
  - exists w1, evs1. split; [reflexivity|]. split; [exact Hsd1|].
    split; [exact Htr1|]. split; [exact Hm1|].
    intros Hz _. exact (Hz1 Hz).
  - destruct (mcp2515_hw_rx_eq 1 w1) as (w2 & evs2 & Heq2 & Hsd2 & Htr2 & Hm2).
    exists w2, (evs1 ++ evs2). split; [exact Heq2|]. split; [|split; [|split]].
    + eapply same_driver_trans; eauto.
    + rewrite Htr2, Htr1, app_assoc. reflexivity.
    + rewrite spi_log_app, intf_clear_masks_app, Hm1, Hm2. reflexivity.
    + intros _ Hz. apply Z.eqb_neq in E. contradiction.
Qed.

Lemma take4_insert4 (a b c d : Z) (l : list Z) :
  (4 <= length l)%nat ->
  take 4 (<[3%nat := d]> (<[2%nat := c]> (<[1%nat := b]> (<[0%nat := a]> l))))
  = [a; b; c; d].
Proof.
  destruct l as [|x0 [|x1 [|x2 [|x3 l]]]]; cbn; intros; try lia.
  reflexivity.
Qed.

Lemma take3_insert3 (a b c : Z) (l : list Z) :
  (3 <= length l)%nat ->
  take 3 (<[2%nat := c]> (<[1%nat := b]> (<[0%nat := a]> l))) = [a; b; c].
Proof.
  destruct l as [|x0 [|x1 [|x2 l]]]; cbn; intros; try lia.
  reflexivity.
Qed.

Lemma write_reg_not_bit_modify (b c : Z) (l : list Z) :
  intf_clear_mask
    (take 3 (<[2%nat := c]> (<[1%nat := b]>
       (<[0%nat := u8 INSTRUCTION_WRITE]> l)))) = None.
Proof. destruct l as [|x0 [|x1 [|x2 l]]]; reflexivity. Qed.

Lemma EFLG_not_CANINTF (c d : Z) (l : list Z) :
  intf_clear_mask
    (take 4 (<[3%nat := d]> (<[2%nat := c]> (<[1%nat := u8 EFLG]>
       (<[0%nat := u8 INSTRUCTION_BIT_MODIFY]> l))))) = None.
Proof. destruct l as [|x0 [|x1 [|x2 [|x3 l]]]]; reflexivity. Qed.

Lemma ist_clear_eq (intf eflag : Z) (w : world) :
  exists (w' : world) (evs : list event),
    ist_clear intf eflag w = (tt, w')
    /\ same_driver w w'
    /\ trace w' = trace w ++ evs
    /\ deliveries evs = []
    /\ ((4 <= length (spi_tx_buf w))%nat ->
        intf_clear_masks (spi_log evs)
        = if nonzero (ist_clear_intf intf)
          then [u8 (ist_clear_intf intf)] else []).
Proof.
  unfold ist_clear, when. rewrite bind_unfold.
  set (m := ist_clear_intf intf).
  assert (H0 : exists w1 evs1,
             (if nonzero m then mcp2515_write_bits CANINTF m 0 else ret tt) w
             = (tt, w1)
             /\ same_driver w w1 /\ trace w1 = trace w ++ evs1
             /\ deliveries evs1 = []
             /\ ((4 <= length (spi_tx_buf w))%nat ->
                 intf_clear_masks (spi_log evs1)
                 = if nonzero m then [u8 m] else [])).
  { destruct (nonzero m).
    - destruct (mcp2515_write_bits_eq CANINTF m 0 w)
        as (rx & n & evs & Heq & Hlen & Hlog & Hdel).
      eexists _, evs. split; [exact Heq|]. split; [|split; [|split]]; auto.
      + unfold same_driver, after_io; cbn. rewrite !length_insert. auto.
      + intros Hl. rewrite Hlog, take4_insert4 by exact Hl. reflexivity.
    - exists w, []. rewrite app_nil_r. cbn. auto using same_driver_refl. }
  destruct H0 as (w1 & evs1 & Heq1 & Hsd1 & Htr1 & Hd1 & Hm1).
  rewrite Heq1. cbn [fst snd].
  destruct (nonzero eflag).
  - destruct (mcp2515_write_bits_eq EFLG eflag 0 w1)
      as (rx & n & evs & Heq & Hlen & Hlog & Hdel).
    eexists _, (evs1 ++ evs). split; [exact Heq|].
    split; [|split; [|split]].
    + eapply same_driver_trans; [exact Hsd1|].
      unfold same_driver, after_io; cbn. rewrite !length_insert. auto.
    + unfold after_io; cbn. rewrite Htr1, app_assoc. reflexivity.
    + rewrite deliveries_app, Hd1, Hdel. reflexivity.
    + intros Hl. rewrite spi_log_app, intf_clear_masks_app, Hm1 by exact Hl.
      rewrite Hlog. cbn [intf_clear_masks omap list_omap].
      rewrite EFLG_not_CANINTF. cbn. apply app_nil_r.
  - exists w1, evs1. cbn. auto.
Qed.

Lemma mcp2515_error_skb_eq (id d1 : Z) (w : world) :
  exists (w' : world) (evs : list event),
    mcp2515_error_skb id d1 w = (tt, w')
    /\ same_driver w w'
    /\ trace w' = trace w ++ evs
    /\ spi_log evs = [].
Proof.
  unfold mcp2515_error_skb. rewrite bind_unfold.
  unfold alloc_can_skb at 1 2. cbn [fst snd].
  destruct (skb_pool w (skb_allocs w)) as [frame|]; run_prims;
    eexists _, [_]; (split; [reflexivity|]);
    unfold same_driver; cbn; repeat split.
Qed.

Lemma ist_error_notify_eq (intf eflag : Z) (w : world) :
  exists (w' : world) (evs : list event),
    ist_error_notify intf eflag w = (tt, w')
    /\ same_driver w w'
    /\ trace w' = trace w ++ evs
    /\ spi_log evs = []
    /\ (Z.land intf CANINTF_ERRIF = 0 -> evs = []).
Proof.
  unfold ist_error_notify, when, nonzero.
  destruct (Z.land intf CANINTF_ERRIF =? 0) eqn:E; cbn [negb].
  - exists w, []. rewrite app_nil_r.
    split; [reflexivity|]. auto using same_driver_refl.
  - rewrite bind_seq.
    match goal with
    | |- context [mcp2515_error_skb ?i ?d ?w1] =>
        destruct (mcp2515_error_skb_eq i d w1)
          as (w' & evs & Heq & Hsd & Htr & Hlog)
    end.
    exists w', evs. split; [exact Heq|]. split; [|split; [|split]].
    + eapply same_driver_trans; [|exact Hsd].
      destruct (negb (Z.land eflag (Z.lor EFLG_RX0OVR EFLG_RX1OVR) =? 0));
        [rewrite bind_seq|];
        destruct (negb (Z.land eflag EFLG_RX0OVR =? 0));
        destruct (negb (Z.land eflag EFLG_RX1OVR =? 0));
        run_prims; unfold same_driver; cbn; auto.
    + rewrite Htr. f_equal.
      destruct (negb (Z.land eflag (Z.lor EFLG_RX0OVR EFLG_RX1OVR) =? 0));
        [rewrite bind_seq|];
        destruct (negb (Z.land eflag EFLG_RX0OVR =? 0));
        destruct (negb (Z.land eflag EFLG_RX1OVR =? 0));
        reflexivity.
    + exact Hlog.
    + intros Hz. apply Z.eqb_neq in E. contradiction.
Qed.

Lemma ist_finish_eq (intf : Z) (w : world) :
  exists (c : loop_ctl) (w' : world) (evs : list event),
    ist_finish intf w = (c, w')
    /\ can_st (priv w') = can_st (priv w)
    /\ error_warning (priv w') = error_warning (priv w)
    /\ error_passive (priv w') = error_passive (priv w)
    /\ trace w' = trace w ++ evs
    /\ intf_clear_masks (spi_log evs) = []
    /\ deliveries evs = []
    /\ (intf = 0 -> c = Break).
Proof.
  unfold ist_finish. rewrite bind_unfold. cbn [get_priv fst snd].
  destruct (can_state_eqb (can_st (priv w)) CAN_STATE_BUS_OFF
            && (can_restart_ms (priv w) =? 0)).
  - rewrite !bind_seq. unfold mcp2515_hw_sleep.
    match goal with
    | |- context [mcp2515_write_reg ?r ?v ?w1] =>
        destruct (mcp2515_write_reg_eq r v w1)
          as (rx & n & evs & Heq & Hlen & Hlog & Hdel); rewrite Heq
    end.
    run_prims.
    eexists Break, _, (Can_bus_off :: evs). split; [reflexivity|].
    cbn [priv trace can_st error_warning error_passive set_force_quit].
    repeat split.
    + rewrite <- app_assoc. reflexivity.
    + change (intf_clear_masks (spi_log evs) = []). rewrite Hlog.
      cbn [intf_clear_masks omap list_omap].
      rewrite write_reg_not_bit_modify. reflexivity.
    + exact Hdel.
  - destruct (intf =? 0) eqn:E.
    + exists Break, w, []. rewrite app_nil_r. cbn. repeat split; auto.
    + rewrite bind_seq. unfold when.
      destruct (nonzero (Z.land intf CANINTF_TX)).
      * rewrite !bind_seq. destruct (nonzero (tx_len (priv w)));
          [rewrite !bind_seq|]; run_prims;
          eexists Continue, _, (_ :: _); (split; [reflexivity|]);
          cbn [priv trace can_st error_warning error_passive set_tx_len];
          repeat split;
          first [ reflexivity
                | rewrite <- !app_assoc; reflexivity
                | intros Hz; apply Z.eqb_neq in E; contradiction ].
      * exists Continue, w, []. rewrite app_nil_r. cbn.
        repeat split; auto.
        intros Hz. apply Z.eqb_neq in E. contradiction.
Qed.

Lemma ist_body_eq (intf eflag : Z) (w : world) :
  let new_state := fst (fst (ist_new_state eflag)) in
  exists (c : loop_ctl) (w' : world) (evs : list event),
    ist_body intf eflag w = (c, w')
    /\ can_st (priv w') = new_state
    /\ error_warning (priv w')
       = error_warning (ist_state_stats new_state (priv w))
    /\ error_passive (priv w')
       = error_passive (ist_state_stats new_state (priv w))
    /\ trace w' = trace w ++ evs
    /\ ((4 <= length (spi_tx_buf w))%nat ->
        intf_clear_masks (spi_log evs)
        = if nonzero (ist_clear_intf (ist_masked intf))
          then [u8 (ist_clear_intf (ist_masked intf))] else [])
    /\ (ist_masked intf = 0 -> c = Break /\ deliveries evs = []).
Proof.
  intros new_state. unfold ist_body. cbv zeta.
  fold (ist_masked intf). set (i := ist_masked intf).
  rewrite !bind_seq.
  destruct (ist_receive_eq i w) as (w1 & evs1 & Heq1 & Hsd1 & Htr1 & Hm1 & Hz1).
  rewrite Heq1. cbn [snd].
  destruct (ist_clear_eq i eflag w1)
    as (w2 & evs2 & Heq2 & Hsd2 & Htr2 & Hd2 & Hm2).
  rewrite Heq2. cbn [snd].
  unfold ist_update_state. rewrite bind_seq. fold new_state.
  set (w3 := snd (modify_priv (set_can_st new_state)
                    (snd (modify_priv (ist_state_stats new_state) w2)))).
  assert (Hp3 : priv w3
                = set_can_st new_state (ist_state_stats new_state (priv w)))
    by (subst w3; cbn; destruct Hsd1 as (Hp1 & _), Hsd2 as (Hp2 & _);
        rewrite Hp2, Hp1; reflexivity).
  assert (Htr3 : trace w3 = trace w2) by reflexivity.
  clearbody w3.
  destruct (ist_error_notify_eq i eflag w3)
    as (w4 & evs4 & Heq4 & Hsd4 & Htr4 & Hlog4 & Hz4).
  rewrite Heq4. cbn [snd].
  destruct (ist_finish_eq i w4)
    as (c & w5 & evs5 & Heq5 & Hst & Hew & Hep & Htr5 & Hm5 & Hd5 & Hz5).
  exists c, w5, (evs1 ++ evs2 ++ evs4 ++ evs5).
  split; [exact Heq5|].
  destruct Hsd4 as (Hp4 & _).
  rewrite Hst, Hew, Hep, Hp4, Hp3.
  split; [reflexivity|]. split; [reflexivity|]. split; [reflexivity|].
  split; [|split].
  - rewrite Htr5, Htr4, Htr3, Htr2, Htr1, <- !app_assoc. reflexivity.
  - intros Hl.
    rewrite !spi_log_app, !intf_clear_masks_app, Hm1, Hm5, Hlog4.
    rewrite Hm2.
    + cbn. apply app_nil_r.
    + destruct Hsd1 as (_ & _ & _ & -> & _). exact Hl.
  - intros Hi. split; [exact (Hz5 Hi)|].
    rewrite Hi in Hz1, Hz4.
    rewrite (Hz1 eq_refl eq_refl), (Hz4 eq_refl).
    cbn. rewrite deliveries_app, Hd2, Hd5. reflexivity.
Qed.

(** ** Error state *)

Lemma ist_new_state_bits (eflag : Z) :
  fst (fst (ist_new_state eflag))
  = if Z.testbit eflag 5 then CAN_STATE_BUS_OFF
    else if Z.testbit eflag 4 then CAN_STATE_ERROR_PASSIVE
    else if Z.testbit eflag 3 then CAN_STATE_ERROR_PASSIVE
    else if Z.testbit eflag 2 then CAN_STATE_ERROR_WARNING
    else if Z.testbit eflag 1 then CAN_STATE_ERROR_WARNING
    else CAN_STATE_ERROR_ACTIVE.
Proof.
  unfold ist_new_state.
  change EFLG_TXBO with (2 ^ 5). change EFLG_TXEP with (2 ^ 4).
  change EFLG_RXEP with (2 ^ 3). change EFLG_TXWAR with (2 ^ 2).
  change EFLG_RXWAR with (2 ^ 1).
  rewrite !nonzero_land_pow2 by lia.
  destruct (Z.testbit eflag 5), (Z.testbit eflag 4), (Z.testbit eflag 3),
    (Z.testbit eflag 2), (Z.testbit eflag 1); reflexivity.
Qed.

(** C2. In every pass of the interrupt handler the new link state is
    decided by the error-flag byte with a fixed precedence, first match
    winning: bus-off (bit 5, [EFLG_TXBO]) before tx-error-passive (bit 4,
    [EFLG_TXEP]) before rx-error-passive (bit 3, [EFLG_RXEP]) before
    tx-error-warning (bit 2, [EFLG_TXWAR]) before rx-error-warning (bit 1,
    [EFLG_RXWAR]), error-active otherwise.  In particular a byte with both
    [EFLG_TXBO] and [EFLG_RXWAR] set gives bus-off. *)
Theorem ist_error_state_precedence (intf eflag : Z) (w : world) :
  can_st (priv (snd (ist_body intf eflag w)))
  = (if Z.testbit eflag 5 then CAN_STATE_BUS_OFF
     else if Z.testbit eflag 4 then CAN_STATE_ERROR_PASSIVE
     else if Z.testbit eflag 3 then CAN_STATE_ERROR_PASSIVE
     else if Z.testbit eflag 2 then CAN_STATE_ERROR_WARNING
     else if Z.testbit eflag 1 then CAN_STATE_ERROR_WARNING
     else CAN_STATE_ERROR_ACTIVE)
  /\ can_st (priv (snd (ist_body intf
                          (Z.lor (Z.lor eflag EFLG_TXBO) EFLG_RXWAR) w)))
     = CAN_STATE_BUS_OFF.
Proof.
  split.
  - destruct (ist_body_eq intf eflag w) as (c & w' & evs & Heq & Hst & _).
    rewrite Heq. cbn [snd]. rewrite Hst. apply ist_new_state_bits.
  - destruct (ist_body_eq intf (Z.lor (Z.lor eflag EFLG_TXBO) EFLG_RXWAR) w)
      as (c & w' & evs & Heq & Hst & _).
    rewrite Heq. cbn [snd]. rewrite Hst, ist_new_state_bits.
    rewrite !Z.lor_spec.
    replace (Z.testbit EFLG_TXBO 5) with true by reflexivity.
    rewrite orb_true_r. reflexivity.
Qed.

(** ** Transition counters *)










Lemma counters_have_room_le (k : nat) (w : world) :
  counters_have_room (S k) w -> counters_have_room k w.
Proof. unfold counters_have_room. lia. Qed.




(** ** The clear mask *)

Lemma ist_clear_intf_eq (intf : Z) :
  ist_clear_intf intf = Z.land intf (Z.lor CANINTF_ERR CANINTF_TX).
Proof.
  unfold ist_clear_intf, nonzero, u8.
  destruct (Z.eqb_spec (Z.land intf (Z.lor CANINTF_ERR CANINTF_TX)) 0)
    as [->|_]; cbn [negb]; [reflexivity|].
  rewrite Z.lor_0_l, <- Z.land_assoc. reflexivity.
Qed.

Lemma ist_clear_intf_bits (intf : Z) :
  let m := u8 (ist_clear_intf intf) in
  Z.land m CANINTF_RX = 0
  /\ Z.land m (Z.lor CANINTF_MERRF CANINTF_WAKIF) = 0
  /\ Z.land m (Z.lor CANINTF_TX CANINTF_ERR) = m.
Proof.
  cbv zeta. rewrite ist_clear_intf_eq. unfold u8.
  rewrite <- !Z.land_assoc. cbn. auto using Z.land_0_r.
Qed.

Lemma chip_bit_modify_outside (old mask val k : Z) :
  Z.testbit mask k = false ->
  Z.testbit (chip_bit_modify old mask val) k = Z.testbit old k.
Proof.
  intros Hm. unfold chip_bit_modify.
  destruct (Z.neg_nonneg_cases k) as [Hk|Hk].
  - rewrite !Z.testbit_neg_r by exact Hk. reflexivity.
  - rewrite Z.lor_spec, !Z.land_spec, Z.lnot_spec, Hm by exact Hk.
    cbn. rewrite andb_true_r, andb_false_r, orb_false_r. reflexivity.
Qed.

Lemma chip_bit_modify_disjoint (old mask val keep : Z) :
  Z.land mask keep = 0 ->
  Z.land (chip_bit_modify old mask val) keep = Z.land old keep.
Proof.
  intros Hd. apply Z.bits_inj'. intros k Hk.
  rewrite !Z.land_spec.
  destruct (Z.testbit keep k) eqn:Ek; [|rewrite !andb_false_r; reflexivity].
  rewrite !andb_true_r. apply chip_bit_modify_outside.
  assert (Hb : Z.testbit (Z.land mask keep) k = false)
    by (rewrite Hd; apply Z.bits_0).
  rewrite Z.land_spec, Ek, andb_true_r in Hb. exact Hb.
Qed.

Lemma buf_len_ge4 (l : list Z) :
  length l = Z.to_nat SPI_TRANSFER_BUF_LEN -> (4 <= length l)%nat.
Proof.
  intros ->. change (Z.to_nat SPI_TRANSFER_BUF_LEN) with 14%nat. lia.
Qed.

Lemma ist_body_clear_masks (intf eflag : Z) (w : world) :
  length (spi_tx_buf w) = Z.to_nat SPI_TRANSFER_BUF_LEN ->
  intf_clear_masks (spi_log (new_events w (snd (ist_body intf eflag w))))
  = if nonzero (ist_clear_intf (ist_masked intf))
    then [u8 (ist_clear_intf (ist_masked intf))] else [].
Proof.
  intros Hl.
  destruct (ist_body_eq intf eflag w)
    as (c & w' & evs & Heq & _ & _ & _ & Htr & Hm & _).
  rewrite Heq. cbn [snd]. rewrite (new_events_app _ _ _ Htr).
  apply Hm, buf_len_ge4, Hl.
Qed.

(** C9. The mask that a handler pass writes back to [CANINTF] by
    bit-modify holds only transmit-complete and error-interrupt bits and
    neither receive-ready bit; a bit-modify goes out as
    [BIT_MODIFY, reg, mask, val], and on the controller it leaves every
    bit outside the mask as it was, so a receive flag that is asserted
    stays asserted when the pass clears its flags. *)
Theorem ist_clear_mask_spares_rx (intf eflag : Z) (w : world) :
  length (spi_tx_buf w) = Z.to_nat SPI_TRANSFER_BUF_LEN ->
  let masks :=
    intf_clear_masks (spi_log (new_events w (snd (ist_body intf eflag w)))) in
  Forall (fun m => Z.land m CANINTF_RX = 0
                   /\ Z.land m (Z.lor CANINTF_TX CANINTF_ERR) = m) masks
  /\ (forall reg mask val : Z,
        spi_log (new_events w (snd (mcp2515_write_bits reg mask val w)))
        = [[INSTRUCTION_BIT_MODIFY; u8 reg; u8 mask; u8 val]])
  /\ (forall old mask val k : Z,
        Z.testbit mask k = false ->
        Z.testbit (chip_bit_modify old mask val) k = Z.testbit old k)
  /\ (forall old m : Z,
        In m masks ->
        Z.land (chip_bit_modify old m 0) CANINTF_RX = Z.land old CANINTF_RX).
Proof.
  intros Hl masks.
  assert (Hmasks : Forall (fun m => Z.land m CANINTF_RX = 0
                     /\ Z.land m (Z.lor CANINTF_TX CANINTF_ERR) = m) masks).
  { subst masks. rewrite ist_body_clear_masks by exact Hl.
    destruct (nonzero _); [|constructor].
    constructor; [|constructor].
    destruct (ist_clear_intf_bits (ist_masked intf)) as (H1 & _ & H3).
    split; assumption. }
  split; [exact Hmasks|]. split; [|split].
  - intros reg mask val.
    destruct (mcp2515_write_bits_eq reg mask val w)
      as (rx & n & evs & Heq & _ & Hlog & _).
    rewrite Heq. cbn [snd].
    rewrite (new_events_app w _ evs) by reflexivity.
    rewrite Hlog, take4_insert4; [reflexivity|].
    apply buf_len_ge4, Hl.
  - apply chip_bit_modify_outside.
  - intros old m Hin. apply chip_bit_modify_disjoint.
    rewrite Forall_forall in Hmasks. apply Hmasks.
    apply list_elem_of_In. exact Hin.
Qed.

(** ** Flags the handler does not look at *)

Lemma ist_masked_idem (intf : Z) : ist_masked (ist_masked intf) = ist_masked intf.
Proof. unfold ist_masked. rewrite <- Z.land_assoc. reflexivity. Qed.

Lemma ist_body_masked (intf eflag : Z) :
  ist_body intf eflag = ist_body (ist_masked intf) eflag.
Proof.
  unfold ist_body. cbv zeta. fold (ist_masked intf).
  fold (ist_masked (ist_masked intf)). rewrite ist_masked_idem. reflexivity.
Qed.

Lemma ist_masked_merr_wak (k : Z) :
  ist_masked (Z.land k (Z.lor CANINTF_MERRF CANINTF_WAKIF)) = 0.
Proof.
  unfold ist_masked. rewrite <- Z.land_assoc. cbn. apply Z.land_0_r.
Qed.

(** C10. The handler masks the flag byte to the receive, transmit and
    error bits before it does anything: a pass gives the same result as
    the pass on the masked byte, the mask written back to [CANINTF] never
    holds [MERRF] or [WAKIF], and a pass in which at most those two bits
    are set is the pass with no flag set: it leaves the loop and hands
    nothing to [netif_rx_ni]. *)
Theorem ist_ignores_merr_wak (intf eflag k : Z) (w : world) :
  length (spi_tx_buf w) = Z.to_nat SPI_TRANSFER_BUF_LEN ->
  ist_body intf eflag w = ist_body (ist_masked intf) eflag w
  /\ Forall (fun m => Z.land m (Z.lor CANINTF_MERRF CANINTF_WAKIF) = 0)
       (intf_clear_masks
          (spi_log (new_events w (snd (ist_body intf eflag w)))))
  /\ (let only := Z.land k (Z.lor CANINTF_MERRF CANINTF_WAKIF) in
      ist_body only eflag w = ist_body 0 eflag w
      /\ fst (ist_body only eflag w) = Break
      /\ deliveries (new_events w (snd (ist_body only eflag w))) = []).
Proof.
  intros Hl. split; [rewrite ist_body_masked; reflexivity|]. split.
  - rewrite ist_body_clear_masks by exact Hl.
    destruct (nonzero _); [|constructor].
    constructor; [|constructor].
    apply (ist_clear_intf_bits (ist_masked intf)).
  - cbv zeta. set (only := Z.land k (Z.lor CANINTF_MERRF CANINTF_WAKIF)).
    split; [|].
    + rewrite (ist_body_masked only). unfold only.
      rewrite ist_masked_merr_wak. reflexivity.
    + destruct (ist_body_eq only eflag w)
        as (c & w' & evs & Heq & _ & _ & _ & Htr & _ & Hz).
      rewrite Heq. cbn [fst snd]. rewrite (new_events_app _ _ _ Htr).
      apply Hz. apply ist_masked_merr_wak.
Qed.

(** ** Bit timing *)

Lemma forallb_seqZ (P : Z -> bool) (lo len : Z) :
  forallb P (seqZ lo len) = true ->
  forall x : Z, lo <= x < lo + len -> P x = true.
Proof.
  intros H x Hx. rewrite forallb_forall in H. apply H.
  apply list_elem_of_In, elem_of_seqZ. exact Hx.
Qed.

Lemma cnf1_byte (bt : can_bittiming) :
  u8 (cnf1_val bt) = u8 (Z.lor (Z.shiftl (sjw bt - 1) 6) (brp bt - 1)).
Proof.
  unfold cnf1_val, CNF1_SJW_SHIFT.
  rewrite u8_u32, !u8_lor, !u8_u32, u8_shiftl_u32 by lia. reflexivity.
Qed.

Lemma cnf2_byte (ctrlmode : Z) (bt : can_bittiming) :
  u8 (cnf2_val ctrlmode bt)
  = u8 (Z.lor (Z.lor (Z.lor CNF2_BTLMODE
                            (if Z.testbit ctrlmode 2 then CNF2_SAM else 0))
                     (Z.shiftl (phase_seg1 bt - 1) 3))
              (prop_seg bt - 1)).
Proof.
  unfold cnf2_val, CNF2_PS1_SHIFT.
  change CAN_CTRLMODE_3_SAMPLES with (2 ^ 2).
  rewrite nonzero_land_pow2 by lia.
  rewrite u8_u32, !u8_lor, !u8_u32, u8_shiftl_u32 by lia. reflexivity.
Qed.

Lemma cnf3_byte (bt : can_bittiming) :
  u8 (cnf3_val bt) = u8 (phase_seg2 bt - 1).
Proof. unfold cnf3_val. apply u8_u32. Qed.

Lemma cnf1_fields (s b : Z) :
  1 <= s <= 4 -> 1 <= b <= 64 ->
  u8 (u32 (Z.lor (u32 (Z.shiftl (u32 (s - 1)) CNF1_SJW_SHIFT)) (u32 (b - 1))))
  = Z.shiftl (s - 1) 6 + (b - 1).
Proof.
  intros Hs Hb. apply Z.eqb_eq.
  revert b Hb. 
  assert (H : forall b, 1 <= b < 1 + 64 ->
            (fun b => u8 (u32 (Z.lor (u32 (Z.shiftl (u32 (s - 1)) CNF1_SJW_SHIFT))
                                     (u32 (b - 1))))
                      =? Z.shiftl (s - 1) 6 + (b - 1)) b = true).
  { apply forallb_seqZ.
    assert (Hc : s = 1 \/ s = 2 \/ s = 3 \/ s = 4) by lia.
    destruct Hc as [->|[->|[->| ->]]]; vm_compute; reflexivity. }
  intros b Hb. apply H. lia.
Qed.

Lemma cnf2_fields (sam ps1 pr : Z) :
  1 <= ps1 <= 8 -> 1 <= pr <= 8 -> (sam = 0 \/ sam = CNF2_SAM) ->
  u8 (u32 (Z.lor (Z.lor (Z.lor CNF2_BTLMODE sam)
                        (u32 (Z.shiftl (u32 (ps1 - 1)) CNF2_PS1_SHIFT)))
                 (u32 (pr - 1))))
  = CNF2_BTLMODE + sam + Z.shiftl (ps1 - 1) 3 + (pr - 1).
Proof.
  intros H1 H2 Hs.
  assert (Hc1 : ps1 = 1 \/ ps1 = 2 \/ ps1 = 3 \/ ps1 = 4
                \/ ps1 = 5 \/ ps1 = 6 \/ ps1 = 7 \/ ps1 = 8) by lia.
  assert (Hc2 : pr = 1 \/ pr = 2 \/ pr = 3 \/ pr = 4
                \/ pr = 5 \/ pr = 6 \/ pr = 7 \/ pr = 8) by lia.
  destruct Hs as [-> | ->];
    destruct Hc1 as [->|[->|[->|[->|[->|[->|[->| ->]]]]]]];
    destruct Hc2 as [->|[->|[->|[->|[->|[->|[->| ->]]]]]]];
    reflexivity.
Qed.

Lemma cnf3_fields (ps2 : Z) : 1 <= ps2 <= 8 -> u8 (u32 (ps2 - 1)) = ps2 - 1.
Proof.
  intros H.
  assert (Hc : ps2 = 1 \/ ps2 = 2 \/ ps2 = 3 \/ ps2 = 4
               \/ ps2 = 5 \/ ps2 = 6 \/ ps2 = 7 \/ ps2 = 8) by lia.
  destruct Hc as [->|[->|[->|[->|[->|[->|[->| ->]]]]]]]; reflexivity.
Qed.

Lemma chip_bit_modify_low (old mask val : Z) :
  Z.land (chip_bit_modify old mask val) mask = Z.land val mask.
Proof.
  unfold chip_bit_modify. apply Z.bits_inj'. intros k Hk.
  rewrite !Z.land_spec, Z.lor_spec, !Z.land_spec, Z.lnot_spec by exact Hk.
  destruct (Z.testbit old k), (Z.testbit mask k), (Z.testbit val k);
    reflexivity.
Qed.

Lemma mcp2515_do_set_bittiming_log (w : world) :
  length (spi_tx_buf w) = Z.to_nat SPI_TRANSFER_BUF_LEN ->
  spi_log (new_events w (snd (mcp2515_do_set_bittiming w)))
  = [[INSTRUCTION_WRITE; CNF1; u8 (cnf1_val (can_bt (priv w)))];
     [INSTRUCTION_WRITE; CNF2;
      u8 (cnf2_val (can_ctrlmode (priv w)) (can_bt (priv w)))];
     [INSTRUCTION_BIT_MODIFY; CNF3; CNF3_PHSEG2_MASK;
      u8 (cnf3_val (can_bt (priv w)))]].
Proof.
  intros Hl. apply buf_len_ge4 in Hl.
  unfold mcp2515_do_set_bittiming. rewrite bind_unfold.
  cbn [get_priv fst snd]. rewrite !bind_seq.
  destruct (mcp2515_write_reg_eq CNF1 (cnf1_val (can_bt (priv w))) w)
    as (rx1 & n1 & evs1 & Heq1 & _ & Hlog1 & _).
  rewrite Heq1. cbn [snd].
  match goal with
  | |- context [mcp2515_write_reg CNF2 ?v ?w1] =>
      destruct (mcp2515_write_reg_eq CNF2 v w1)
        as (rx2 & n2 & evs2 & Heq2 & _ & Hlog2 & _); rewrite Heq2
  end.
  cbn [snd].
  match goal with
  | |- context [mcp2515_write_bits CNF3 ?m ?v ?w2] =>
      destruct (mcp2515_write_bits_eq CNF3 m v w2)
        as (rx3 & n3 & evs3 & Heq3 & _ & Hlog3 & _); rewrite Heq3
  end.
  cbn [snd ret].
  rewrite (new_events_app w _ (evs1 ++ evs2 ++ evs3))
    by (cbn; rewrite <- !app_assoc; reflexivity).
  rewrite !spi_log_app, Hlog1, Hlog2, Hlog3.
  cbn [after_io spi_tx_buf].
  rewrite !take3_insert3, take4_insert4
    by (rewrite ?length_insert; lia).
  reflexivity.
Qed.

(** C8. Applying the bit timing sends three transactions: a write of
    [CNF1], a write of [CNF2] and a bit-modify of [CNF3] under the mask
    of its low three bits.  For every input the bytes are the low eight
    bits of [(sjw - 1) << 6 | (brp - 1)], of the mode bit, the sample
    flag, [(phase_seg1 - 1) << 3] and [prop_seg - 1] or-ed together, and
    of [phase_seg2 - 1].  For one-based inputs within the width of their
    fields the fields do not overlap: [CNF1] is [sjw - 1] in bits 7..6
    next to [brp - 1], [CNF2] is the mode bit, the sample flag,
    [phase_seg1 - 1] shifted left by 3 and [prop_seg - 1], and on the
    controller only the low three bits of [CNF3] change, to
    [phase_seg2 - 1]. *)
Theorem set_bittiming_encoding (w : world) :
  length (spi_tx_buf w) = Z.to_nat SPI_TRANSFER_BUF_LEN ->
  let bt := can_bt (priv w) in
  let cnf1 := u8 (cnf1_val bt) in
  let cnf2 := u8 (cnf2_val (can_ctrlmode (priv w)) bt) in
  let cnf3 := u8 (cnf3_val bt) in
  spi_log (new_events w (snd (mcp2515_do_set_bittiming w)))
  = [[INSTRUCTION_WRITE; CNF1; cnf1];
     [INSTRUCTION_WRITE; CNF2; cnf2];
     [INSTRUCTION_BIT_MODIFY; CNF3; 7; cnf3]]
  /\ cnf1 = u8 (Z.lor (Z.shiftl (sjw bt - 1) 6) (brp bt - 1))
  /\ cnf2 = u8 (Z.lor (Z.lor (Z.lor CNF2_BTLMODE
                                    (if Z.testbit (can_ctrlmode (priv w)) 2
                                     then CNF2_SAM else 0))
                             (Z.shiftl (phase_seg1 bt - 1) 3))
                      (prop_seg bt - 1))
  /\ cnf3 = u8 (phase_seg2 bt - 1)
  /\ (1 <= sjw bt <= 4 -> 1 <= brp bt <= 64 ->
      cnf1 = Z.shiftl (sjw bt - 1) 6 + (brp bt - 1))
  /\ (1 <= phase_seg1 bt <= 8 -> 1 <= prop_seg bt <= 8 ->
      cnf2 = CNF2_BTLMODE
             + (if Z.testbit (can_ctrlmode (priv w)) 2 then CNF2_SAM else 0)
             + Z.shiftl (phase_seg1 bt - 1) 3 + (prop_seg bt - 1))
  /\ (1 <= phase_seg2 bt <= 8 ->
      cnf3 = phase_seg2 bt - 1
      /\ forall old : Z,
           Z.land (chip_bit_modify old 7 cnf3) 7 = phase_seg2 bt - 1
           /\ forall k : Z, 3 <= k ->
                Z.testbit (chip_bit_modify old 7 cnf3) k = Z.testbit old k).
Proof.
  intros Hl bt cnf1 cnf2 cnf3.
  split; [apply (mcp2515_do_set_bittiming_log w Hl)|].
  split; [apply cnf1_byte|]. split; [apply cnf2_byte|].
  split; [apply cnf3_byte|].
  split; [|split].
  - intros Hs Hb. subst cnf1. unfold cnf1_val. apply cnf1_fields; assumption.
  - intros H1 H2. subst cnf2. unfold cnf2_val.
    change CAN_CTRLMODE_3_SAMPLES with (2 ^ 2).
    rewrite nonzero_land_pow2 by lia.
    apply cnf2_fields; try assumption.
    destruct (Z.testbit _ 2); auto.
  - intros H2.
    assert (Hc : cnf3 = phase_seg2 bt - 1)
      by (subst cnf3; unfold cnf3_val; apply cnf3_fields; exact H2).
    split; [exact Hc|]. intros old. split.
    + rewrite chip_bit_modify_low, Hc.
      change 7 with (Z.ones 3). rewrite Z.land_ones by lia.
      apply Z.mod_small. lia.
    + intros k Hk. apply chip_bit_modify_outside.
      change 7 with (Z.ones 3). apply Z.ones_spec_high. lia.
Qed.

Lemma set_bittiming_encoding_witness :
  length (spi_tx_buf timing_world) = Z.to_nat SPI_TRANSFER_BUF_LEN
  /\ spi_log (new_events timing_world
                (snd (mcp2515_do_set_bittiming timing_world)))
     = [[2; 42; 67]; [2; 41; 170]; [5; 40; 7; 3]]
  /\ u8 (cnf1_val (can_bt (priv timing_world)))
     = Z.shiftl (2 - 1) 6 + (4 - 1).
Proof.
  split; [reflexivity|].
  destruct (set_bittiming_encoding timing_world eq_refl)
    as (Hlog & _ & _ & _ & H1 & _).
  split; [exact Hlog|].
  apply H1; cbn; lia.
Defined.

(** ** Frame codec *)

Lemma mcp2515_hw_tx_log (frame : can_frame) (tx_buf_idx : Z) (w : world) :
  let buf := hw_tx_buf frame tx_buf_idx in
  length buf = Z.to_nat (Z.of_nat TXBDAT_OFF + can_dlc frame) ->
  spi_log (new_events w (snd (mcp2515_hw_tx frame tx_buf_idx w)))
  = [buf; [u8 (INSTRUCTION_RTS (Z.shiftl 1 tx_buf_idx))]].
Proof.
  intros buf Hlen. unfold mcp2515_hw_tx, mcp2515_hw_tx_frame.
  rewrite !bind_seq. fold buf.
  set (n := Z.to_nat (Z.of_nat TXBDAT_OFF + can_dlc frame)) in *.
  cbn [snd].
  match goal with
  | |- context [mcp2515_spi_trans (Z.of_nat TXBDAT_OFF + _) ?w1] =>
      destruct (mcp2515_spi_trans_eq (Z.of_nat TXBDAT_OFF + can_dlc frame) w1)
        as (rx1 & n1 & evs1 & Heq1 & _ & Hlog1 & _); rewrite Heq1
  end.
  cbn [snd ret].
  match goal with
  | |- context [mcp2515_spi_trans 1 ?w2] =>
      destruct (mcp2515_spi_trans_eq 1 w2)
        as (rx2 & n2 & evs2 & Heq2 & _ & Hlog2 & _); rewrite Heq2
  end.
  cbn [snd ret].
  rewrite (new_events_app w _ (evs1 ++ evs2))
    by (cbn; rewrite <- !app_assoc; reflexivity).
  rewrite spi_log_app, Hlog1, Hlog2. fold n.
  cbv [tx_store after_io set_spi_tx_buf snd spi_tx_buf memcpy].
  assert (Hbuf : take n buf = buf) by (apply take_ge; lia).
  rewrite Hbuf, take_app_length' by (symmetry; exact Hlen).
  reflexivity.
Qed.

(** C3. For the standard frame with identifier 0x123, DLC 2 and data
    0xAA, 0xBB (no extended or remote flag) the transmit buffer has
    SIDH = 0x24, SIDL = 0x60 with the extended-ID-enable bit (bit 3)
    clear, DLC = 0x02 and then the data bytes 0xAA, 0xBB; this buffer is
    what the driver hands to the line transport. *)
Theorem hw_tx_standard_0x123 (tx_buf_idx : Z) (rest : list Z) (w : world) :
  let frame := mk_can_frame 291 2 (170 :: 187 :: rest) in
  let buf := hw_tx_buf frame tx_buf_idx in
  buf = [u8 (INSTRUCTION_LOAD_TXB tx_buf_idx); 36; 96; 1; 35; 2; 170; 187]
  /\ buf !! TXBSIDH_OFF = Some 36
  /\ buf !! TXBSIDL_OFF = Some 96
  /\ Z.testbit 96 SIDL_EXIDE_SHIFT = false
  /\ buf !! TXBDLC_OFF = Some 2
  /\ drop TXBDAT_OFF buf = [170; 187]
  /\ spi_log (new_events w (snd (mcp2515_hw_tx frame tx_buf_idx w)))
     = [buf; [u8 (INSTRUCTION_RTS (Z.shiftl 1 tx_buf_idx))]].
Proof.
  intros frame buf.
  assert (Hbuf : buf = [u8 (INSTRUCTION_LOAD_TXB tx_buf_idx);
                        36; 96; 1; 35; 2; 170; 187]) by reflexivity.
  split; [exact Hbuf|].
  repeat split; try (rewrite Hbuf; reflexivity).
  apply mcp2515_hw_tx_log. fold buf. rewrite Hbuf. reflexivity.
Qed.

(** C4. For the extended identifier 0x1ABCDEF the transmit buffer has
    the IDE bit (bit 3) set in SIDL, and the receive decoder applied to a
    register image with the same SIDH, SIDL, EID8 and EID0 bytes gives an
    extended frame whose 29-bit identifier is 0x1ABCDEF. *)
Theorem extended_id_0x1ABCDEF_reconstructs
    (tx_buf_idx tx_dlc : Z) (tx_data : list Z)
    (ctrl rx_dlc : Z) (rx_data : list Z) (frame0 : can_frame) :
  let buf :=
    hw_tx_buf (mk_can_frame (Z.lor CAN_EFF_FLAG 28036591) tx_dlc tx_data)
              tx_buf_idx in
  let sidh := buf !!! TXBSIDH_OFF in
  let sidl := buf !!! TXBSIDL_OFF in
  let eid8 := buf !!! TXBEID8_OFF in
  let eid0 := buf !!! TXBEID0_OFF in
  let frame :=
    hw_rx_decode (ctrl :: sidh :: sidl :: eid8 :: eid0 :: rx_dlc :: rx_data)
                 frame0 in
  Z.testbit sidl SIDL_EXIDE_SHIFT = true
  /\ Z.land sidl RXBSIDL_IDE = RXBSIDL_IDE
  /\ [sidh; sidl; eid8; eid0] = [13; 75; 205; 239]
  /\ Z.land (can_id frame) CAN_EFF_MASK = 28036591
  /\ Z.land (can_id frame) CAN_EFF_FLAG = CAN_EFF_FLAG.
Proof.
  cbv zeta.
  repeat split; try reflexivity;
    unfold hw_rx_decode; cbn [lookup_total list_lookup_total hw_tx_buf app];
    change (hw_tx_buf _ _ !!! TXBSIDL_OFF) with 75;
    change (hw_tx_buf _ _ !!! TXBSIDH_OFF) with 13;
    change (hw_tx_buf _ _ !!! TXBEID8_OFF) with 205;
    change (hw_tx_buf _ _ !!! TXBEID0_OFF) with 239;
    cbn [lookup_total list_lookup_total RXBSIDH_OFF RXBSIDL_OFF RXBEID8_OFF
         RXBEID0_OFF RXBDLC_OFF can_id];
    destruct (nonzero (Z.land rx_dlc RXBDLC_RTR)); reflexivity.
Qed.

(** C5. For every 14-byte register image, whatever its DLC byte holds,
    the decoded frame's length code is at most 8 (the low four bits of
    the DLC byte clamped to 8), exactly that many bytes are copied from
    the data region of the image, and the rest of the frame's data is
    left as it was. *)
Theorem hw_rx_dlc_clamped (buf : list Z) (frame0 : can_frame) :
  length buf = Z.to_nat SPI_TRANSFER_BUF_LEN ->
  let frame := hw_rx_decode buf frame0 in
  let n := Z.to_nat (can_dlc frame) in
  0 <= can_dlc frame <= 8
  /\ can_dlc frame = Z.min (Z.land (buf !!! RXBDLC_OFF) 15) 8
  /\ take n (data frame) = take n (drop RXBDAT_OFF buf)
  /\ length (take n (drop RXBDAT_OFF buf)) = n
  /\ drop n (data frame) = drop n (data frame0).
Proof.
  intros Hlen. cbv zeta. unfold hw_rx_decode. cbn [can_dlc data].
  set (d := Z.land (buf !!! RXBDLC_OFF) RXBDLC_LEN_MASK).
  assert (Hd : 0 <= d <= 15).
  { subst d. change RXBDLC_LEN_MASK with (Z.ones 4).
    rewrite Z.land_ones by lia.
    pose proof (Z.mod_pos_bound (buf !!! RXBDLC_OFF) (2 ^ 4) ltac:(lia)).
    change (2 ^ 4) with 16 in *. lia. }
  assert (Hu : u8 (get_can_dlc d) = Z.min d 8).
  { unfold get_can_dlc, u8. change 255 with (Z.ones 8).
    rewrite Z.land_ones by lia. apply Z.mod_small.
    change (2 ^ 8) with 256. lia. }
  rewrite Hu.
  assert (Hn : (Z.to_nat (Z.min d 8) <= length (drop RXBDAT_OFF buf))%nat).
  { rewrite length_drop, Hlen.
    change (Z.to_nat SPI_TRANSFER_BUF_LEN - RXBDAT_OFF)%nat with 8%nat. lia. }
  assert (Hl : length (take (Z.to_nat (Z.min d 8)) (drop RXBDAT_OFF buf))
               = Z.to_nat (Z.min d 8))
    by (rewrite length_take; lia).
  unfold memcpy.
  split; [lia|]. split; [reflexivity|]. split; [|split].
  - rewrite take_app_length' by (symmetry; exact Hl). reflexivity.
  - exact Hl.
  - rewrite drop_app_length' by (symmetry; exact Hl). reflexivity.
Qed.

Lemma hw_rx_dlc_clamped_witness :
  length corrupt_dlc_image = Z.to_nat SPI_TRANSFER_BUF_LEN
  /\ 0 <= can_dlc (hw_rx_decode corrupt_dlc_image zero_frame) <= 8.
Proof.
  split; [reflexivity|].
  exact (proj1 (hw_rx_dlc_clamped corrupt_dlc_image zero_frame eq_refl)).
Defined.

(** ** Transmit submission *)

(** C6. When the pending-transmit slot is occupied (a pending frame or a
    non-zero pending length), submitting a frame returns
    [NETDEV_TX_BUSY] at once and changes nothing: the slot, the rest of
    the driver state and the trace are as before. *)
Theorem hard_start_xmit_busy (skb : can_frame) (w : world) :
  tx_skb (priv w) <> None \/ tx_len (priv w) <> 0 ->
  mcp2515_hard_start_xmit skb w = (NETDEV_TX_BUSY, w).
Proof.
  intros H. unfold mcp2515_hard_start_xmit. rewrite bind_unfold.
  cbn [get_priv fst snd].
  assert (Hb : (match tx_skb (priv w) with Some _ => true | None => false end
                || nonzero (tx_len (priv w))) = true).
  { destruct H as [H|H].
    - destruct (tx_skb (priv w)); [reflexivity | contradiction].
    - unfold nonzero. destruct (Z.eqb_spec (tx_len (priv w)) 0);
        [contradiction|apply orb_true_r]. }
  rewrite Hb. reflexivity.
Qed.

(** ** Line transport *)

(** C1. The line transport does not shift the outbound byte: the byte
    is tested against 0x80 in each of the eight clock cycles, so data-out
    carries its top bit eight times.  For the reset instruction 0xC0
    (sent with a transfer of length 1) the levels driven on data-out are
    eight ones, where the contract asks for 1,1,0,0,0,0,0,0. *)
Theorem spi_trans_reset_mosi (line : nat -> Z) (pool : nat -> option can_frame) :
  let w := snd (tx_store 0 INSTRUCTION_RESET (idle_world line pool)) in
  spi_tx_buf w !! 0%nat = Some INSTRUCTION_RESET
  /\ mosi_levels (new_events w (snd (mcp2515_spi_trans 1 w)))
     = [1; 1; 1; 1; 1; 1; 1; 1]
  /\ spec_transfer_mosi [INSTRUCTION_RESET] = [1; 1; 0; 0; 0; 0; 0; 0]
  /\ mosi_levels (new_events w (snd (mcp2515_spi_trans 1 w)))
     <> spec_transfer_mosi [INSTRUCTION_RESET].
Proof.
  cbv zeta. split; [reflexivity|].
  assert (H : mosi_levels
                (new_events
                   (snd (tx_store 0 INSTRUCTION_RESET (idle_world line pool)))
                   (snd (mcp2515_spi_trans 1
                      (snd (tx_store 0 INSTRUCTION_RESET
                              (idle_world line pool))))))
              = [1; 1; 1; 1; 1; 1; 1; 1])
    by (vm_compute; reflexivity).
  rewrite H. split; [reflexivity|]. split; [reflexivity|]. discriminate.
Qed.

(** * Further properties *)

(** ** The transfer, event by event *)

Lemma cycles_shift (f : nat -> list event) (n : nat) :
  flat_map f (seq 1 n) = flat_map (fun k => f (S k)) (seq 0 n).
Proof.
  rewrite <- seq_shift. induction (seq 0 n) as [|a l IH]; cbn; [reflexivity|].
  rewrite IH. reflexivity.
Qed.

Lemma spi_trans_bits_run (n : nat) (data_out data_in : Z) (w : world) :
  exists r : Z,
    spi_trans_bits n data_out data_in w
    = (r, after_io w (spi_tx_buf w) (spi_rx_buf w) (gpio_reads w + n)
            (flat_map (fun k => spi_cycle (bit_of data_out 7)
                                  (gpio_in w (gpio_reads w + k)%nat))
                      (seq 0 n))).
Proof.
  revert data_in w. induction n as [|n IH]; intros data_in w.
  - exists data_in. cbn. unfold ret, after_io.
    rewrite app_nil_r, Nat.add_0_r. destruct w; reflexivity.
  - destruct w as [p s tx rx line reads pool allocs tr].
    cbn [spi_trans_bits]. rewrite !bind_seq, bind_unfold.
    change 128 with (2 ^ 7). rewrite nonzero_land_pow2 by lia.
    match goal with
    | |- context [spi_trans_bits n data_out ?d ?w1] =>
        destruct (IH d w1) as (r & Heq); rewrite Heq
    end.
    exists r. f_equal. cbn [seq flat_map]. rewrite cycles_shift.
    unfold bit_of, spi_cycle, after_io.
    destruct (Z.testbit data_out 7);
      cbv [gpio_set_value gpio_get_value emit set_trace set_gpio_reads
           fst snd priv stats spi_tx_buf spi_rx_buf gpio_in gpio_reads
           skb_pool skb_allocs trace];
      rewrite <- !app_assoc, Nat.add_0_r; cbn [app];
      (f_equal; [lia|]); do 5 f_equal;
      apply flat_map_ext; intros k; rewrite Nat.add_succ_r; reflexivity.
Qed.

Lemma spi_trans_bytes_run (n i : nat) (w : world) :
  exists rx : list Z,
    spi_trans_bytes n i w
    = (tt, after_io w (spi_tx_buf w) rx (gpio_reads w + 8 * n)
             (spi_bytes_cycles (gpio_in w) (gpio_reads w)
                (map (fun k => spi_tx_buf w !!! k) (seq i n)))).
Proof.
  revert i w. induction n as [|n IH]; intros i w.
  - exists (spi_rx_buf w). cbn. unfold ret, after_io.
    rewrite app_nil_r, Nat.add_0_r. destruct w; reflexivity.
  - cbn [spi_trans_bytes]. rewrite bind_unfold, bind_unfold, bind_seq.
    cbn [tx_load fst snd].
    destruct (spi_trans_bits_run 8 (spi_tx_buf w !!! i) 0 w) as (r & Heq).
    rewrite Heq. cbn [fst snd].
    match goal with
    | |- context [spi_trans_bytes n (S i) ?w1] =>
        destruct (IH (S i) w1) as (rx & Heq2); rewrite Heq2
    end.
    exists rx. f_equal. destruct w as [p s tx rx0 line reads pool allocs tr].
    cbv [rx_store after_io set_spi_rx_buf fst snd priv stats spi_tx_buf
         spi_rx_buf gpio_in gpio_reads skb_pool skb_allocs trace].
    cbn [seq map spi_bytes_cycles]. unfold spi_byte_cycles.
    rewrite <- !app_assoc. f_equal. lia.
Qed.

Lemma map_lookup_total_take (l : list Z) (n : nat) :
  (n <= length l)%nat -> map (fun k => l !!! k) (seq 0 n) = take n l.
Proof.
  induction n as [|n IH]; intros Hn; [reflexivity|].
  rewrite seq_S, map_app, IH by lia. cbn [map Nat.add].
  destruct (lookup_lt_is_Some_2 l n ltac:(lia)) as (x & Hx).
  rewrite (take_S_r l n x Hx).
  rewrite (list_lookup_total_correct l n x Hx). reflexivity.
Qed.

(** The transfer as a whole: its result, the state it leaves and the
    events it adds. *)
Lemma mcp2515_spi_trans_run (len : Z) (w : world) :
  (Z.to_nat len <= length (spi_tx_buf w))%nat ->
  exists rx : list Z,
    mcp2515_spi_trans len w
    = (0, after_io w (spi_tx_buf w) rx (gpio_reads w + 8 * Z.to_nat len)
            (spi_transfer_events (gpio_in w) (gpio_reads w)
               (take (Z.to_nat len) (spi_tx_buf w))))
    /\ length rx = length (spi_rx_buf w)
    /\ (forall j : nat,
          (j < Z.to_nat len)%nat -> (j < length (spi_rx_buf w))%nat ->
          rx !! j = Some (sampled_byte (gpio_in w) (gpio_reads w + 8 * j)))
    /\ (forall j : nat,
          (Z.to_nat len <= j)%nat -> rx !! j = spi_rx_buf w !! j).
Proof.
  intros Hlen.
  destruct (spi_trans_bytes_run (Z.to_nat len) 0 w) as (rx & Heq).
  exists rx.
  pose proof (spi_trans_bytes_eq (Z.to_nat len) 0 w) as (rx' & evs & Heq' & Hl & _).
  assert (Hrx : rx = spi_rx_buf (snd (spi_trans_bytes (Z.to_nat len) 0 w)))
    by (rewrite Heq; reflexivity).
  split; [|split; [|split]].
  - unfold mcp2515_spi_trans. rewrite !bind_seq, Heq.
    rewrite map_lookup_total_take by exact Hlen.
    unfold spi_transfer_events. destruct w as [p s tx rx0 line reads pool allocs tr].
    cbv [spi_trans_printk ret after_io set_trace fst snd priv stats spi_tx_buf
         spi_rx_buf gpio_in gpio_reads skb_pool skb_allocs trace].
    rewrite <- app_assoc. reflexivity.
  - rewrite Hrx, Heq'. exact Hl.
  - intros j Hj Hjl. rewrite Hrx.
    destruct (spi_trans_bytes_rx (Z.to_nat len) 0 w j) as (Hin & _).
    rewrite Hin by lia. replace (j - 0)%nat with j by lia. reflexivity.
  - intros j Hj. rewrite Hrx.
    destruct (spi_trans_bytes_rx (Z.to_nat len) 0 w j) as (_ & Hout).
    apply Hout. lia.
Qed.

(** ** Register access, event by event *)

Ltac world_prims :=
  cbv [gpio_set_value udelay emit tx_store rx_store tx_load rx_load
       modify_priv modify_stats get_priv ret after_io
       set_trace set_spi_tx_buf set_spi_rx_buf set_priv set_stats
       set_skb_allocs set_gpio_reads
       fst snd priv stats spi_tx_buf spi_rx_buf gpio_in gpio_reads skb_pool
       skb_allocs trace].

Ltac spi_trans_run :=
  match goal with
  | |- context [mcp2515_spi_trans ?l ?w] =>
      let rx := fresh "rx" in
      let Heq := fresh "Heq" in
      let Hlen := fresh "Hlen" in
      let Hin := fresh "Hin" in
      let Hout := fresh "Hout" in
      destruct (mcp2515_spi_trans_run l w)
        as (rx & Heq & Hlen & Hin & Hout);
      [ cbn [spi_tx_buf]; rewrite ?length_insert; cbn; lia
      | rewrite Heq; clear Heq ]
  end.

Lemma cs_levels_app (a b : list event) :
  cs_levels (a ++ b) = cs_levels a ++ cs_levels b.
Proof. unfold cs_levels. apply flat_map_app. Qed.

Lemma cs_levels_bytes_cycles (line : nat -> Z) (start : nat) (out : list Z) :
  cs_levels (spi_bytes_cycles line start out) = [].
Proof.
  revert start. induction out as [|b out IH]; intros start; [reflexivity|].
  cbn [spi_bytes_cycles]. rewrite cs_levels_app, IH. reflexivity.
Qed.

Lemma cs_levels_transfer (line : nat -> Z) (start : nat) (out : list Z) :
  cs_levels (spi_transfer_events line start out) = [].
Proof.
  unfold spi_transfer_events.
  rewrite cs_levels_app, cs_levels_bytes_cycles. reflexivity.
Qed.

Lemma mcp2515_write_reg_run (reg val : Z) (w : world) :
  (3 <= length (spi_tx_buf w))%nat ->
  exists rx : list Z,
    mcp2515_write_reg reg val w
    = (tt, after_io w
             (<[2%nat := u8 val]> (<[1%nat := u8 reg]>
                (<[0%nat := u8 INSTRUCTION_WRITE]> (spi_tx_buf w))))
             rx (gpio_reads w + 24)
             (Gpio_set_value GPIO_CS 0
              :: spi_transfer_events (gpio_in w) (gpio_reads w)
                   [INSTRUCTION_WRITE; u8 reg; u8 val]
              ++ [Udelay 1; Gpio_set_value GPIO_CS 1]))
    /\ length rx = length (spi_rx_buf w).
Proof.
  intros Hl. destruct w as [p s tx rx0 line reads pool allocs tr].
  cbn [spi_tx_buf] in Hl.
  unfold mcp2515_write_reg. rewrite !bind_seq. world_prims.
  spi_trans_run. world_prims.
  exists rx. split; [|exact Hlen].
  rewrite take3_insert3 by exact Hl.
  rewrite <- !app_assoc. reflexivity.
Qed.

Lemma mcp2515_write_bits_run (reg mask val : Z) (w : world) :
  (4 <= length (spi_tx_buf w))%nat ->
  exists rx : list Z,
    mcp2515_write_bits reg mask val w
    = (tt, after_io w
             (<[3%nat := u8 val]> (<[2%nat := u8 mask]> (<[1%nat := u8 reg]>
                (<[0%nat := u8 INSTRUCTION_BIT_MODIFY]> (spi_tx_buf w)))))
             rx (gpio_reads w + 32)
             (Gpio_set_value GPIO_CS 0
              :: spi_transfer_events (gpio_in w) (gpio_reads w)
                   [INSTRUCTION_BIT_MODIFY; u8 reg; u8 mask; u8 val]
              ++ [Udelay 1; Gpio_set_value GPIO_CS 1]))
    /\ length rx = length (spi_rx_buf w).
Proof.
  intros Hl. destruct w as [p s tx rx0 line reads pool allocs tr].
  cbn [spi_tx_buf] in Hl.
  unfold mcp2515_write_bits. rewrite !bind_seq. world_prims.
  spi_trans_run. world_prims.
  exists rx. split; [|exact Hlen].
  rewrite take4_insert4 by exact Hl.
  rewrite <- !app_assoc. reflexivity.
Qed.

Lemma take3_insert2 (a b : Z) (l : list Z) :
  (3 <= length l)%nat ->
  take 3 (<[1%nat := b]> (<[0%nat := a]> l)) = [a; b; l !!! 2%nat].
Proof.
  destruct l as [|x0 [|x1 [|x2 l]]]; cbn; intros; try lia. reflexivity.
Qed.

Lemma take4_insert2 (a b : Z) (l : list Z) :
  (4 <= length l)%nat ->
  take 4 (<[1%nat := b]> (<[0%nat := a]> l))
  = [a; b; l !!! 2%nat; l !!! 3%nat].
Proof.
  destruct l as [|x0 [|x1 [|x2 [|x3 l]]]]; cbn; intros; try lia. reflexivity.
Qed.

Lemma mcp2515_read_reg_run (reg : Z) (w : world) :
  (3 <= length (spi_tx_buf w))%nat -> (3 <= length (spi_rx_buf w))%nat ->
  exists rx : list Z,
    mcp2515_read_reg reg w
    = (sampled_byte (gpio_in w) (gpio_reads w + 16),
       after_io w
         (<[1%nat := u8 reg]> (<[0%nat := u8 INSTRUCTION_READ]> (spi_tx_buf w)))
         rx (gpio_reads w + 24)
         (Gpio_set_value GPIO_CS 0
          :: spi_transfer_events (gpio_in w) (gpio_reads w)
               [INSTRUCTION_READ; u8 reg; spi_tx_buf w !!! 2%nat]
          ++ [Udelay 1; Gpio_set_value GPIO_CS 1]))
    /\ length rx = length (spi_rx_buf w).
Proof.
  intros Hl Hr. destruct w as [p s tx rx0 line reads pool allocs tr].
  cbn [spi_tx_buf spi_rx_buf] in Hl, Hr.
  unfold mcp2515_read_reg. rewrite !bind_seq. world_prims.
  spi_trans_run. world_prims. cbn [gpio_in gpio_reads spi_rx_buf] in Hin, Hlen.
  exists rx. split; [|exact Hlen].
  rewrite take3_insert2 by exact Hl.
  rewrite (list_lookup_total_correct rx 2 _ (Hin 2%nat ltac:(cbn; lia) ltac:(lia))).
  rewrite <- !app_assoc. reflexivity.
Qed.

Lemma mcp2515_read_2regs_run (reg : Z) (w : world) :
  (4 <= length (spi_tx_buf w))%nat -> (4 <= length (spi_rx_buf w))%nat ->
  exists rx : list Z,
    mcp2515_read_2regs reg w
    = ((sampled_byte (gpio_in w) (gpio_reads w + 16),
        sampled_byte (gpio_in w) (gpio_reads w + 24)),
       after_io w
         (<[1%nat := u8 reg]> (<[0%nat := u8 INSTRUCTION_READ]> (spi_tx_buf w)))
         rx (gpio_reads w + 32)
         (Gpio_set_value GPIO_CS 0
          :: spi_transfer_events (gpio_in w) (gpio_reads w)
               [INSTRUCTION_READ; u8 reg; spi_tx_buf w !!! 2%nat;
                spi_tx_buf w !!! 3%nat]
          ++ [Udelay 1; Gpio_set_value GPIO_CS 1]))
    /\ length rx = length (spi_rx_buf w).
Proof.
  intros Hl Hr. destruct w as [p s tx rx0 line reads pool allocs tr].
  cbn [spi_tx_buf spi_rx_buf] in Hl, Hr.
  unfold mcp2515_read_2regs. rewrite !bind_seq, !bind_unfold. world_prims.
  spi_trans_run. world_prims. cbn [gpio_in gpio_reads spi_rx_buf] in Hin, Hlen.
  exists rx. split; [|exact Hlen].
  rewrite take4_insert2 by exact Hl.
  rewrite (list_lookup_total_correct rx 2 _ (Hin 2%nat ltac:(cbn; lia) ltac:(lia))).
  rewrite (list_lookup_total_correct rx 3 _ (Hin 3%nat ltac:(cbn; lia) ltac:(lia))).
  rewrite <- !app_assoc. reflexivity.
Qed.

(** ** Frame transfers, event by event *)

Lemma sampled_byte_range (line : nat -> Z) (start : nat) :
  0 <= sampled_byte line start < 256.
Proof.
  pose (w := mk_world idle_priv (mk_stats 0 0 0 0 0 0 0 0) [] [] line start
                      (fun _ => None) 0%nat []).
  destruct (spi_trans_bits_in 8 0 0 w ltac:(lia) ltac:(cbn; lia)) as (Hv & Hb).
  rewrite Hv in Hb. exact Hb.
Qed.

Lemma length_hw_tx_buf (frame : can_frame) (tx_buf_idx : Z) :
  0 <= can_dlc frame ->
  (Z.to_nat (can_dlc frame) <= length (data frame))%nat ->
  length (hw_tx_buf frame tx_buf_idx)
  = Z.to_nat (Z.of_nat TXBDAT_OFF + can_dlc frame).
Proof.
  intros H0 H. unfold hw_tx_buf. rewrite length_app, length_take. cbn [length].
  unfold TXBDAT_OFF. lia.
Qed.

Lemma mcp2515_hw_tx_run (frame : can_frame) (tx_buf_idx : Z) (w : world) :
  0 <= can_dlc frame <= 8 ->
  (Z.to_nat (can_dlc frame) <= length (data frame))%nat ->
  length (spi_tx_buf w) = Z.to_nat SPI_TRANSFER_BUF_LEN ->
  let buf := hw_tx_buf frame tx_buf_idx in
  let rts := u8 (INSTRUCTION_RTS (Z.shiftl 1 tx_buf_idx)) in
  exists rx : list Z,
    mcp2515_hw_tx frame tx_buf_idx w
    = (tt, after_io w
             (rts :: drop 1 buf ++ drop (length buf) (spi_tx_buf w))
             rx (gpio_reads w + 8 * length buf + 8)
             (spi_transfer_events (gpio_in w) (gpio_reads w) buf
              ++ spi_transfer_events (gpio_in w)
                   (gpio_reads w + 8 * length buf) [rts]))
    /\ length rx = length (spi_rx_buf w).
Proof.
  intros Hd Hdata Hl buf rts.
  pose proof (length_hw_tx_buf frame tx_buf_idx (proj1 Hd) Hdata) as Hbuf.
  fold buf in Hbuf.
  change (Z.to_nat SPI_TRANSFER_BUF_LEN) with 14%nat in Hl.
  assert (Hb14 : (6 <= length buf <= 14)%nat)
    by (rewrite Hbuf; unfold TXBDAT_OFF; lia).
  destruct w as [p s tx rx0 line reads pool allocs tr].
  cbn [spi_tx_buf] in Hl.
  unfold mcp2515_hw_tx, mcp2515_hw_tx_frame. rewrite !bind_seq. fold buf.
  rewrite <- Hbuf. unfold memcpy. rewrite (take_ge buf) by lia.
  world_prims.
  destruct (mcp2515_spi_trans_run (Z.of_nat TXBDAT_OFF + can_dlc frame)
              (mk_world p s (buf ++ drop (length buf) tx) rx0 line reads pool
                        allocs tr))
    as (rx1 & Heq1 & Hlen1 & _).
  { cbn [spi_tx_buf]. rewrite <- Hbuf, length_app. lia. }
  rewrite Heq1. clear Heq1. rewrite <- Hbuf. world_prims.
  rewrite take_app_length.
  assert (Hne : exists b0 rest, buf = b0 :: rest).
  { destruct buf as [|b0 rest]; [cbn in Hb14; lia | eauto]. }
  destruct Hne as (b0 & rest & Hcons). rewrite Hcons. cbn [app].
  cbn [insert list_insert].
  match goal with
  | |- context [mcp2515_spi_trans 1 ?w2] =>
      destruct (mcp2515_spi_trans_run 1 w2) as (rx2 & Heq2 & Hlen2 & _);
      [cbn; lia | rewrite Heq2; clear Heq2]
  end.
  world_prims. exists rx2. split.
  - cbn [take drop length]. rewrite <- !app_assoc. reflexivity.
  - cbv [tx_store after_io set_spi_tx_buf snd spi_rx_buf] in Hlen1, Hlen2.
    rewrite Hlen2. exact Hlen1.
Qed.

Lemma drop1_insert0 (a : Z) (l : list Z) :
  (1 <= length l)%nat -> <[0%nat := a]> l = a :: drop 1 l.
Proof. destruct l; cbn; intros; [lia | reflexivity]. Qed.

Lemma mcp2515_hw_rx_frame_run (buf_idx : Z) (w : world) :
  length (spi_tx_buf w) = Z.to_nat SPI_TRANSFER_BUF_LEN ->
  length (spi_rx_buf w) = Z.to_nat SPI_TRANSFER_BUF_LEN ->
  let out := u8 (INSTRUCTION_READ_RXB buf_idx) :: drop 1 (spi_tx_buf w) in
  let image := map (fun j => sampled_byte (gpio_in w) (gpio_reads w + 8 * j))
                   (seq 0 14) in
  mcp2515_hw_rx_frame buf_idx w
  = (image, after_io w out image (gpio_reads w + 112)
              (spi_transfer_events (gpio_in w) (gpio_reads w) out)).
Proof.
  intros Hl Hr out image.
  change (Z.to_nat SPI_TRANSFER_BUF_LEN) with 14%nat in Hl, Hr.
  destruct w as [p s tx rx0 line reads pool allocs tr].
  cbn [spi_tx_buf spi_rx_buf gpio_in gpio_reads] in *.
  unfold mcp2515_hw_rx_frame. rewrite !bind_seq. world_prims.
  rewrite drop1_insert0 by lia. fold out.
  destruct (mcp2515_spi_trans_run SPI_TRANSFER_BUF_LEN
              (mk_world p s out rx0 line reads pool allocs tr))
    as (rx & Heq & Hlen & Hin & _).
  { change (Z.to_nat SPI_TRANSFER_BUF_LEN) with 14%nat. subst out.
    cbn [spi_tx_buf length]. rewrite length_drop. lia. }
  rewrite Heq. clear Heq. world_prims.
  cbn [gpio_in gpio_reads spi_rx_buf spi_tx_buf] in *.
  change (Z.to_nat SPI_TRANSFER_BUF_LEN) with 14%nat in *.
  assert (Hrx : rx = image).
  { apply list_eq. intros j. destruct (Nat.lt_ge_cases j 14) as [Hj|Hj].
    - rewrite Hin by lia. subst image.
      rewrite list_lookup_fmap, lookup_seq_lt by lia. reflexivity.
    - rewrite !lookup_ge_None_2; [reflexivity | subst image | lia].
      rewrite length_map, length_seq. lia. }
  rewrite Hrx.
  replace (take 14 out) with out
    by (symmetry; apply take_ge; cbn; rewrite length_drop; lia).
  replace (take 14 image) with image
    by (symmetry; apply take_ge; subst image;
        rewrite length_map, length_seq; lia).
  reflexivity.
Qed.

(** ** What the transport and the register access do *)

Lemma new_events_after_io (w : world) (tx rx : list Z) (n : nat)
    (evs : list event) :
  new_events w (after_io w tx rx n evs) = evs.
Proof. apply new_events_app. reflexivity. Qed.

(** X1. A transfer of [len] bytes returns 0 and adds to the trace, for
    each outbound byte in turn, eight clock cycles (clock low, data-out
    at the byte's top bit, clock high, one sample of data-in) and then
    the two log lines; it takes [8 * len] samples, never touches the
    chip-select line and leaves the transmit buffer, the private data
    and the statistics as they were. *)
Theorem mcp2515_spi_trans_line_activity (len : Z) (w : world) :
  (Z.to_nat len <= length (spi_tx_buf w))%nat ->
  let out := take (Z.to_nat len) (spi_tx_buf w) in
  let w' := snd (mcp2515_spi_trans len w) in
  fst (mcp2515_spi_trans len w) = 0
  /\ new_events w w'
     = spi_bytes_cycles (gpio_in w) (gpio_reads w) out
       ++ [Printk_write out; Printk_read out]
  /\ gpio_reads w' = (gpio_reads w + 8 * Z.to_nat len)%nat
  /\ cs_levels (new_events w w') = []
  /\ spi_tx_buf w' = spi_tx_buf w
  /\ priv w' = priv w
  /\ stats w' = stats w.
Proof.
  intros Hl out w'.
  destruct (mcp2515_spi_trans_run len w Hl) as (rx & Heq & _).
  subst w'. rewrite Heq. cbn [fst snd].
  rewrite new_events_after_io.
  split; [reflexivity|]. split; [reflexivity|]. split; [reflexivity|].
  split; [apply cs_levels_transfer|]. auto.
Qed.

Lemma mcp2515_spi_trans_line_activity_witness :
  (Z.to_nat 2 <= length (spi_tx_buf alternating_world))%nat
  /\ gpio_reads (snd (mcp2515_spi_trans 2 alternating_world)) = 16%nat.
Proof.
  assert (H : (Z.to_nat 2 <= length (spi_tx_buf alternating_world))%nat)
    by (cbn; lia).
  split; [exact H|].
  exact (proj1 (proj2 (proj2
           (mcp2515_spi_trans_line_activity 2 alternating_world H)))).
Defined.

(** X2. After a transfer the receive buffer has the length it had; byte
    [j] of the transfer is the byte assembled most-significant-bit first
    from the eight samples taken during that byte, a value below 256; and
    the cells from [len] on are untouched. *)
Theorem mcp2515_spi_trans_inbound_bytes (len : Z) (w : world) (j : nat) :
  let w' := snd (mcp2515_spi_trans len w) in
  length (spi_rx_buf w') = length (spi_rx_buf w)
  /\ ((j < Z.to_nat len)%nat -> (j < length (spi_rx_buf w))%nat ->
      spi_rx_buf w' !! j
      = Some (msb_first_value 0
                (sampled_bits (gpio_in w) (gpio_reads w + 8 * j) 8))
      /\ 0 <= msb_first_value 0
                (sampled_bits (gpio_in w) (gpio_reads w + 8 * j) 8) < 256)
  /\ ((Z.to_nat len <= j)%nat -> spi_rx_buf w' !! j = spi_rx_buf w !! j).
Proof.
  cbv zeta.
  destruct (mcp2515_spi_trans_eq len w) as (rx & n & evs & Heq & Hlen & _).
  assert (Hw : spi_rx_buf (snd (mcp2515_spi_trans len w))
               = spi_rx_buf (snd (spi_trans_bytes (Z.to_nat len) 0 w)))
    by (unfold mcp2515_spi_trans; rewrite !bind_seq; reflexivity).
  destruct (spi_trans_bytes_rx (Z.to_nat len) 0 w j) as (Hin & Hout).
  split; [rewrite Heq; exact Hlen|]. split.
  - intros Hj Hl. split; [|apply sampled_byte_range].
    rewrite Hw, Hin by lia. replace (j - 0)%nat with j by lia. reflexivity.
  - intros Hj. rewrite Hw. apply Hout. lia.
Qed.

Lemma mcp2515_spi_trans_inbound_bytes_witness :
  spi_rx_buf (snd (mcp2515_spi_trans 2 alternating_world)) !! 1%nat
  = Some 170.
Proof.
  destruct (mcp2515_spi_trans_inbound_bytes 2 alternating_world 1)
    as (_ & Hin & _).
  destruct Hin as (Hv & _); [cbn; lia | cbn; lia |].
  exact Hv.
Defined.

(** X3. A register write and a bit-modify each drive chip-select low,
    make one transfer of [WRITE, reg, val] (three bytes) or of
    [BIT_MODIFY, reg, mask, val] (four bytes), wait one microsecond and
    drive chip-select high again; the arguments go out truncated to
    eight bits, and the private data are not touched. *)
Theorem register_write_activity (reg mask val : Z) (w : world) :
  (4 <= length (spi_tx_buf w))%nat ->
  (let w' := snd (mcp2515_write_reg reg val w) in
   new_events w w'
   = Gpio_set_value GPIO_CS 0
     :: spi_transfer_events (gpio_in w) (gpio_reads w)
          [INSTRUCTION_WRITE; Z.land reg 255; Z.land val 255]
     ++ [Udelay 1; Gpio_set_value GPIO_CS 1]
   /\ cs_levels (new_events w w') = [0; 1]
   /\ priv w' = priv w)
  /\ (let w' := snd (mcp2515_write_bits reg mask val w) in
      new_events w w'
      = Gpio_set_value GPIO_CS 0
        :: spi_transfer_events (gpio_in w) (gpio_reads w)
             [INSTRUCTION_BIT_MODIFY; Z.land reg 255; Z.land mask 255;
              Z.land val 255]
        ++ [Udelay 1; Gpio_set_value GPIO_CS 1]
      /\ cs_levels (new_events w w') = [0; 1]
      /\ priv w' = priv w).
Proof.
  intros Hl. split; cbv zeta.
  - destruct (mcp2515_write_reg_run reg val w ltac:(lia)) as (rx & Heq & _).
    rewrite Heq. cbn [snd]. rewrite new_events_after_io.
    split; [reflexivity|]. split; [|reflexivity].
    change (Gpio_set_value GPIO_CS 0 :: ?l) with ([Gpio_set_value GPIO_CS 0] ++ l).
    rewrite !cs_levels_app, cs_levels_transfer. reflexivity.
  - destruct (mcp2515_write_bits_run reg mask val w Hl) as (rx & Heq & _).
    rewrite Heq. cbn [snd]. rewrite new_events_after_io.
    split; [reflexivity|]. split; [|reflexivity].
    change (Gpio_set_value GPIO_CS 0 :: ?l) with ([Gpio_set_value GPIO_CS 0] ++ l).
    rewrite !cs_levels_app, cs_levels_transfer. reflexivity.
Qed.

Lemma register_write_activity_witness :
  (4 <= length (spi_tx_buf alternating_world))%nat
  /\ cs_levels (new_events alternating_world
                  (snd (mcp2515_write_reg CANCTRL 32 alternating_world)))
     = [0; 1].
Proof.
  assert (H : (4 <= length (spi_tx_buf alternating_world))%nat)
    by (cbn; lia).
  split; [exact H|].
  exact (proj1 (proj2 (proj1
           (register_write_activity CANCTRL 0 32 alternating_world H)))).
Defined.

(** X4. A register read sends [READ, reg] followed by whatever the
    transmit buffer holds in its third cell, under chip-select, and
    returns the byte sampled during the third byte time; the two-register
    read sends four bytes and returns the bytes sampled during the third
    and the fourth byte time.  The values are below 256. *)
Theorem register_read_values (reg : Z) (w : world) :
  (4 <= length (spi_tx_buf w))%nat -> (4 <= length (spi_rx_buf w))%nat ->
  let line := gpio_in w in
  let start := gpio_reads w in
  fst (mcp2515_read_reg reg w) = sampled_byte line (start + 16)
  /\ new_events w (snd (mcp2515_read_reg reg w))
     = Gpio_set_value GPIO_CS 0
       :: spi_transfer_events line start
            [INSTRUCTION_READ; Z.land reg 255; spi_tx_buf w !!! 2%nat]
       ++ [Udelay 1; Gpio_set_value GPIO_CS 1]
  /\ fst (mcp2515_read_2regs reg w)
     = (sampled_byte line (start + 16), sampled_byte line (start + 24))
  /\ new_events w (snd (mcp2515_read_2regs reg w))
     = Gpio_set_value GPIO_CS 0
       :: spi_transfer_events line start
            [INSTRUCTION_READ; Z.land reg 255; spi_tx_buf w !!! 2%nat;
             spi_tx_buf w !!! 3%nat]
       ++ [Udelay 1; Gpio_set_value GPIO_CS 1]
  /\ 0 <= sampled_byte line (start + 16) < 256
  /\ 0 <= sampled_byte line (start + 24) < 256.
Proof.
  intros Hl Hr line start.
  destruct (mcp2515_read_reg_run reg w ltac:(lia) ltac:(lia))
    as (rx1 & Heq1 & _).
  destruct (mcp2515_read_2regs_run reg w Hl Hr) as (rx2 & Heq2 & _).
  rewrite Heq1, Heq2. cbn [fst snd]. rewrite !new_events_after_io.
  repeat split; try reflexivity; apply sampled_byte_range.
Qed.

Lemma register_read_values_witness :
  fst (mcp2515_read_reg CANSTAT alternating_world)
  = sampled_byte alternating_line 16.
Proof.
  refine (proj1 (register_read_values CANSTAT alternating_world _ _));
    cbn; lia.
Defined.

(** X5. Sending a frame with a length code of at most 8 makes two
    transfers and nothing else: the transmit-buffer image (six header
    bytes and the data bytes), then the one-byte request-to-send for the
    mailbox.  Chip-select is not touched, the transmit buffer keeps its
    length and the private data are unchanged. *)
Theorem mcp2515_hw_tx_activity (frame : can_frame) (tx_buf_idx : Z)
    (w : world) :
  0 <= can_dlc frame <= 8 ->
  (Z.to_nat (can_dlc frame) <= length (data frame))%nat ->
  length (spi_tx_buf w) = Z.to_nat SPI_TRANSFER_BUF_LEN ->
  let buf := hw_tx_buf frame tx_buf_idx in
  let rts := Z.land (INSTRUCTION_RTS (Z.shiftl 1 tx_buf_idx)) 255 in
  let w' := snd (mcp2515_hw_tx frame tx_buf_idx w) in
  length buf = Z.to_nat (6 + can_dlc frame)
  /\ new_events w w'
     = spi_transfer_events (gpio_in w) (gpio_reads w) buf
       ++ spi_transfer_events (gpio_in w) (gpio_reads w + 8 * length buf)
            [rts]
  /\ spi_log (new_events w w') = [buf; [rts]]
  /\ cs_levels (new_events w w') = []
  /\ length (spi_tx_buf w') = length (spi_tx_buf w)
  /\ priv w' = priv w.
Proof.
  intros Hd Hdata Hl buf rts w'.
  destruct (mcp2515_hw_tx_run frame tx_buf_idx w Hd Hdata Hl)
    as (rx & Heq & _).
  pose proof (length_hw_tx_buf frame tx_buf_idx (proj1 Hd) Hdata) as Hbuf.
  fold buf in Hbuf. fold buf in Heq.
  subst w'. rewrite Heq. cbn [snd]. rewrite new_events_after_io.
  split; [exact Hbuf|]. split; [reflexivity|]. split; [|split; [|split]].
  - unfold spi_transfer_events.
    rewrite !spi_log_app.
    assert (Hc : forall l s o, spi_log (spi_bytes_cycles l s o) = []).
    { intros l s o. revert s. induction o as [|b o IH]; intros s;
        [reflexivity|]. cbn [spi_bytes_cycles].
      rewrite spi_log_app, IH. reflexivity. }
    rewrite !Hc. reflexivity.
  - rewrite cs_levels_app, !cs_levels_transfer. reflexivity.
  - cbn [after_io spi_tx_buf length]. rewrite length_app, !length_drop.
    change (Z.to_nat SPI_TRANSFER_BUF_LEN) with 14%nat in Hl.
    rewrite Hl, Hbuf. unfold TXBDAT_OFF. lia.
  - reflexivity.
Qed.

Lemma mcp2515_hw_tx_activity_witness :
  spi_log (new_events alternating_world
             (snd (mcp2515_hw_tx (mk_can_frame 291 2 [170; 187; 0; 0; 0; 0; 0; 0])
                     1 alternating_world)))
  = [[66; 36; 96; 1; 35; 2; 170; 187]; [130]].
Proof.
  refine (proj1 (proj2 (proj2
            (mcp2515_hw_tx_activity
               (mk_can_frame 291 2 [170; 187; 0; 0; 0; 0; 0; 0]) 1
               alternating_world _ _ _))));
    cbn; try lia; reflexivity.
Defined.

(** X6. When the allocator has no frame buffer, receiving from a mailbox
    counts one dropped frame and does nothing else: no transfer is made
    (the mailbox is not read), nothing is delivered, and only the
    allocation count and [rx_dropped] change; [rx_dropped] is an
    [unsigned long] and grows by one modulo [2 ^ BITS_PER_LONG]. *)
Theorem mcp2515_hw_rx_no_skb (buf_idx : Z) (w : world) :
  skb_pool w (skb_allocs w) = None ->
  mcp2515_hw_rx buf_idx w
  = (tt, set_stats
           (mk_stats (rx_packets (stats w)) (rx_bytes (stats w))
                     (ulong (rx_dropped (stats w) + 1))
                     (rx_over_errors (stats w)) (rx_errors (stats w))
                     (tx_packets (stats w)) (tx_bytes (stats w))
                     (tx_dropped (stats w)))
           (set_skb_allocs (S (skb_allocs w)) w))
  /\ new_events w (snd (mcp2515_hw_rx buf_idx w)) = [].
Proof.
  intros Hp.
  assert (Hrun : mcp2515_hw_rx buf_idx w
    = (tt, set_stats
             (mk_stats (rx_packets (stats w)) (rx_bytes (stats w))
                       (ulong (rx_dropped (stats w) + 1))
                       (rx_over_errors (stats w)) (rx_errors (stats w))
                       (tx_packets (stats w)) (tx_bytes (stats w))
                       (tx_dropped (stats w)))
             (set_skb_allocs (S (skb_allocs w)) w))).
  { unfold mcp2515_hw_rx. rewrite bind_unfold.
    unfold alloc_can_skb at 1 2. cbn [fst snd]. rewrite Hp. reflexivity. }
  split; [exact Hrun|]. rewrite Hrun.
  unfold new_events. cbn. apply drop_all.
Qed.

(** X7. When the allocator hands out a frame, receiving from mailbox
    [buf_idx] makes exactly one 14-byte transfer that starts with the
    read instruction of that mailbox, without touching chip-select, and
    delivers exactly one frame: the decoding of the fourteen bytes
    sampled during the transfer.  It counts one packet and the frame's
    length code, which is at most 8, in bytes; both counters are
    [unsigned long] and grow modulo [2 ^ BITS_PER_LONG]. *)
Theorem mcp2515_hw_rx_delivers (buf_idx : Z) (frame0 : can_frame) (w : world) :
  skb_pool w (skb_allocs w) = Some frame0 ->
  length (spi_tx_buf w) = Z.to_nat SPI_TRANSFER_BUF_LEN ->
  length (spi_rx_buf w) = Z.to_nat SPI_TRANSFER_BUF_LEN ->
  let image := map (fun j => sampled_byte (gpio_in w) (gpio_reads w + 8 * j))
                   (seq 0 14) in
  let frame := hw_rx_decode image frame0 in
  let w' := snd (mcp2515_hw_rx buf_idx w) in
  deliveries (new_events w w') = [frame]
  /\ spi_log (new_events w w')
     = [Z.land (INSTRUCTION_READ_RXB buf_idx) 255 :: drop 1 (spi_tx_buf w)]
  /\ cs_levels (new_events w w') = []
  /\ rx_packets (stats w') = ulong (rx_packets (stats w) + 1)
  /\ rx_bytes (stats w') = ulong (rx_bytes (stats w) + can_dlc frame)
  /\ 0 <= can_dlc frame <= 8
  /\ rx_dropped (stats w') = rx_dropped (stats w)
  /\ priv w' = priv w.
Proof.
  intros Hp Hl Hr image frame w'.
  assert (Hrun : mcp2515_hw_rx buf_idx w
    = (tt, mk_world (priv w)
             (mk_stats (ulong (rx_packets (stats w) + 1))
                       (ulong (rx_bytes (stats w) + can_dlc frame))
                       (rx_dropped (stats w)) (rx_over_errors (stats w))
                       (rx_errors (stats w)) (tx_packets (stats w))
                       (tx_bytes (stats w)) (tx_dropped (stats w)))
             (u8 (INSTRUCTION_READ_RXB buf_idx) :: drop 1 (spi_tx_buf w))
             image (gpio_in w) (gpio_reads w + 112) (skb_pool w)
             (S (skb_allocs w))
             (trace w
              ++ spi_transfer_events (gpio_in w) (gpio_reads w)
                   (u8 (INSTRUCTION_READ_RXB buf_idx) :: drop 1 (spi_tx_buf w))
              ++ [Can_led_event CAN_LED_EVENT_RX; Netif_rx_ni frame]))).
  { unfold mcp2515_hw_rx. rewrite bind_unfold.
    unfold alloc_can_skb at 1 2. cbn [fst snd]. rewrite Hp.
    rewrite bind_unfold, !bind_seq.
    rewrite (mcp2515_hw_rx_frame_run buf_idx
               (set_skb_allocs (S (skb_allocs w)) w) Hl Hr).
    cbn [fst snd]. fold image. fold frame.
    destruct w as [p s tx rx0 line reads pool allocs tr].
    world_prims. rewrite <- !app_assoc. reflexivity. }
  subst w'. rewrite Hrun. cbn [snd stats priv rx_packets rx_bytes rx_dropped].
  erewrite new_events_app by (cbn [trace]; reflexivity).
  assert (Hc : forall l s o, spi_log (spi_bytes_cycles l s o) = []
                             /\ deliveries (spi_bytes_cycles l s o) = []).
  { intros l s o. revert s. induction o as [|b o IH]; intros s;
      [split; reflexivity|]. cbn [spi_bytes_cycles].
    rewrite spi_log_app, deliveries_app.
    destruct (IH (s + 8)%nat) as (-> & ->). split; reflexivity. }
  unfold spi_transfer_events.
  split; [|split; [|split]].
  - rewrite !deliveries_app. rewrite (proj2 (Hc _ _ _)). reflexivity.
  - rewrite !spi_log_app. rewrite (proj1 (Hc _ _ _)). reflexivity.
  - rewrite !cs_levels_app, cs_levels_bytes_cycles. reflexivity.
  - split; [reflexivity|]. split; [reflexivity|]. split; [|auto].
    assert (Hi : length image = Z.to_nat SPI_TRANSFER_BUF_LEN)
      by (subst image; rewrite length_map, length_seq; reflexivity).
    unfold frame, hw_rx_decode. cbn [can_dlc].
    set (d := Z.land (image !!! RXBDLC_OFF) RXBDLC_LEN_MASK).
    assert (Hd : 0 <= d <= 15).
    { subst d. change RXBDLC_LEN_MASK with (Z.ones 4).
      rewrite Z.land_ones by lia.
      pose proof (Z.mod_pos_bound (image !!! RXBDLC_OFF) (2 ^ 4) ltac:(lia)).
      change (2 ^ 4) with 16 in *. lia. }
    rewrite u8_small; unfold get_can_dlc; lia.
Qed.

(** ** The codec, bit by bit *)

(** Push [Z.testbit] through the bitwise operations; the side conditions
    on the bit index are left to [lia]. *)
Ltac testbits :=
  repeat match goal with
  | |- context [Z.testbit (Z.lor ?a ?b) ?k] => rewrite (Z.lor_spec a b k)
  | |- context [Z.testbit (Z.land ?a ?b) ?k] => rewrite (Z.land_spec a b k)
  | |- context [Z.testbit (Z.shiftl ?a ?n) ?k] =>
      first [ rewrite (Z.shiftl_spec a n k) by lia
            | rewrite (Z.testbit_neg_r (Z.shiftl a n) k) by lia ]
  | |- context [Z.testbit (Z.shiftr ?a ?n) ?k] =>
      first [ rewrite (Z.shiftr_spec a n k) by lia
            | rewrite (Z.testbit_neg_r (Z.shiftr a n) k) by lia ]
  | |- context [Z.testbit (Z.ones ?n) ?k] =>
      first [ rewrite (Z.ones_spec_low n k) by lia
            | rewrite (Z.ones_spec_high n k) by lia
            | rewrite (Z.testbit_neg_r (Z.ones n) k) by lia ]
  | |- context [Z.testbit (2 ^ ?n) ?k] =>
      rewrite (Z.pow2_bits_eqb n k) by lia
  | |- context [Z.testbit 0 ?k] => rewrite (Z.bits_0 k)
  end.

(** Bring every bit index of [x] to the form [i]. *)
Ltac same_index x i :=
  repeat match goal with
  | |- context [Z.testbit x ?k] =>
      lazymatch k with
      | i => fail
      | _ => replace k with i by lia
      end
  end.

(** Decide what is left: comparisons of indices and the bits of [x]. *)
Ltac decide_bits x :=
  repeat match goal with
         | |- context [?a =? ?b] => destruct (Z.eqb_spec a b); try lia
         end;
  repeat match goal with
         | |- context [Z.testbit x ?k] => destruct (Z.testbit x k)
         end;
  repeat match goal with
         | |- context [Z.testbit ?a ?k] => destruct (Z.testbit a k)
         end;
  reflexivity.

Ltac split_index i bounds :=
  lazymatch bounds with
  | nil => idtac
  | cons ?b ?rest =>
      destruct (Z.lt_ge_cases i b); [ | split_index i rest ]
  end.

Lemma ext_id_reconstructs (cid : Z) :
  let eid := Z.land cid CAN_EFF_MASK in
  let sid := Z.shiftr eid 18 in
  let sidh := u8 (Z.shiftr sid SIDH_SHIFT) in
  let sidl := u8 (Z.lor (Z.lor (Z.shiftl (Z.land sid SIDL_SID_MASK)
                                         SIDL_SID_SHIFT)
                               (Z.shiftl 1 SIDL_EXIDE_SHIFT))
                        (Z.land (Z.shiftr eid SIDL_EID_SHIFT) SIDL_EID_MASK)) in
  let eid8 := u8 (GET_BYTE eid 1) in
  let eid0 := u8 (GET_BYTE eid 0) in
  Z.lor (Z.lor (Z.lor (SET_BYTE (Z.land sidl RXBSIDL_EID) 2)
                      (SET_BYTE eid8 1))
               (SET_BYTE eid0 0))
        (Z.shiftl (Z.lor (Z.shiftl sidh RXBSIDH_SHIFT)
                         (Z.shiftr sidl RXBSIDL_SHIFT)) 18)
  = eid
  /\ nonzero (Z.land sidl RXBSIDL_IDE) = true.
Proof.
  cbv zeta. unfold u8, GET_BYTE, SET_BYTE.
  change CAN_EFF_MASK with (Z.ones 29). change SIDL_SID_MASK with (Z.ones 3).
  change SIDL_EID_MASK with (Z.ones 2). change RXBSIDL_EID with (Z.ones 2).
  change 255 with (Z.ones 8). change RXBSIDL_IDE with (2 ^ 3).
  change (Z.shiftl 1 SIDL_EXIDE_SHIFT) with (2 ^ 3).
  unfold SIDH_SHIFT, SIDL_SID_SHIFT, SIDL_EID_SHIFT, RXBSIDH_SHIFT,
    RXBSIDL_SHIFT.
  change (2 * 8) with 16. change (1 * 8) with 8. change (0 * 8) with 0.
  split.
  - apply Z.bits_inj'. intros i Hi.
    split_index i (8 :: 16 :: 18 :: 21 :: 29 :: nil);
      testbits; same_index cid i; decide_bits cid.
  - rewrite nonzero_land_pow2 by lia. testbits.
    rewrite Z.eqb_refl. cbn. rewrite ?orb_true_r. reflexivity.
Qed.

Lemma std_id_reconstructs (cid : Z) :
  let eid := Z.land cid CAN_EFF_MASK in
  let sid := Z.land cid CAN_SFF_MASK in
  let sidh := u8 (Z.shiftr sid SIDH_SHIFT) in
  let sidl := u8 (Z.lor (Z.lor (Z.shiftl (Z.land sid SIDL_SID_MASK)
                                         SIDL_SID_SHIFT)
                               (Z.shiftl 0 SIDL_EXIDE_SHIFT))
                        (Z.land (Z.shiftr eid SIDL_EID_SHIFT) SIDL_EID_MASK)) in
  Z.lor (Z.shiftl sidh RXBSIDH_SHIFT) (Z.shiftr sidl RXBSIDL_SHIFT) = sid
  /\ nonzero (Z.land sidl RXBSIDL_IDE) = false
  /\ nonzero (Z.land sidl RXBSIDL_SRR) = false.
Proof.
  cbv zeta. unfold u8.
  change CAN_EFF_MASK with (Z.ones 29). change CAN_SFF_MASK with (Z.ones 11).
  change SIDL_SID_MASK with (Z.ones 3). change SIDL_EID_MASK with (Z.ones 2).
  change 255 with (Z.ones 8).
  change RXBSIDL_IDE with (2 ^ 3). change RXBSIDL_SRR with (2 ^ 4).
  change (Z.shiftl 0 SIDL_EXIDE_SHIFT) with 0.
  unfold SIDH_SHIFT, SIDL_SID_SHIFT, SIDL_EID_SHIFT, RXBSIDH_SHIFT,
    RXBSIDL_SHIFT.
  split; [|split].
  - apply Z.bits_inj'. intros i Hi.
    split_index i (3 :: 11 :: nil);
      testbits; same_index cid i; decide_bits cid.
  - rewrite nonzero_land_pow2 by lia. testbits. decide_bits cid.
  - rewrite nonzero_land_pow2 by lia. testbits. decide_bits cid.
Qed.

Lemma testbit_small (a n i : Z) :
  0 <= a < 2 ^ n -> n <= i -> Z.testbit a i = false.
Proof.
  intros Ha Hi. rewrite <- (Z.mod_small a (2 ^ n)) by exact Ha.
  apply Z.mod_pow2_bits_high. split; [|exact Hi].
  destruct (Z.neg_nonneg_cases n) as [Hn|Hn]; [|exact Hn].
  rewrite Z.pow_neg_r in Ha by exact Hn. lia.
Qed.

Lemma can_id_parts (flags id n : Z) :
  0 <= id < 2 ^ n -> 0 <= n ->
  Z.land flags (Z.ones n) = 0 ->
  Z.land (Z.lor flags id) (Z.ones n) = id.
Proof.
  intros Hid Hn Hf. rewrite Z.land_lor_distr_l, Hf, Z.lor_0_l.
  rewrite Z.land_ones by exact Hn. apply Z.mod_small. exact Hid.
Qed.

Lemma can_id_flag (flags id n k : Z) :
  0 <= id < 2 ^ n -> n <= k ->
  nonzero (Z.land (Z.lor flags id) (2 ^ k)) = Z.testbit flags k.
Proof.
  intros Hid Hk.
  assert (0 <= n).
  { destruct (Z.neg_nonneg_cases n) as [Hn|Hn]; [|exact Hn].
    rewrite Z.pow_neg_r in Hid by exact Hn. lia. }
  rewrite nonzero_land_pow2 by lia.
  rewrite Z.lor_spec, (testbit_small id n k) by assumption.
  apply orb_false_r.
Qed.

Lemma dlc_byte_decodes (r dlc : Z) :
  (r = 0 \/ r = 1) -> 0 <= dlc <= 8 ->
  let b := u8 (Z.lor (Z.shiftl r DLC_RTR_SHIFT) dlc) in
  u8 (get_can_dlc (Z.land b RXBDLC_LEN_MASK)) = dlc
  /\ nonzero (Z.land b RXBDLC_RTR) = (r =? 1).
Proof.
  intros Hr Hd.
  assert (Hc : dlc = 0 \/ dlc = 1 \/ dlc = 2 \/ dlc = 3 \/ dlc = 4
               \/ dlc = 5 \/ dlc = 6 \/ dlc = 7 \/ dlc = 8) by lia.
  destruct Hr as [-> | ->];
    destruct Hc as [->|[->|[->|[->|[->|[->|[->|[->| ->]]]]]]]];
    split; reflexivity.
Qed.

Lemma memcpy_take (dst src pad : list Z) (n : nat) :
  (n <= length src)%nat ->
  take n (memcpy dst (take n src ++ pad) n) = take n src.
Proof.
  intros Hn. unfold memcpy.
  assert (Hl : length (take n src) = n) by (rewrite length_take; lia).
  rewrite (take_app_length' (take n src) pad n) by (symmetry; exact Hl).
  rewrite take_app_length' by (symmetry; exact Hl). reflexivity.
Qed.

Lemma ext_word (id : Z) (rtr : bool) :
  0 <= id < 2 ^ 29 ->
  (if rtr then u32 (Z.lor (u32 (Z.lor CAN_EFF_FLAG id)) CAN_RTR_FLAG)
   else u32 (Z.lor CAN_EFF_FLAG id))
  = Z.lor (Z.lor CAN_EFF_FLAG (if rtr then CAN_RTR_FLAG else 0)) id.
Proof.
  intros Hid. unfold u32. change 4294967295 with (Z.ones 32).
  change CAN_EFF_FLAG with (2 ^ 31). change CAN_RTR_FLAG with (2 ^ 30).
  destruct rtr; apply Z.bits_inj'; intros i Hi;
    split_index i (29 :: 30 :: 31 :: 32 :: nil);
    testbits; rewrite ?(testbit_small id 29 i) by lia; decide_bits id.
Qed.

(** X8. Round trip of extended frames: for every 29-bit identifier,
    with or without the remote flag, every length code up to 8 and every
    data, decoding the receive image that holds the bytes of the transmit
    buffer gives back the identifier word with its flags, the length code
    and the data bytes. *)
Theorem extended_frame_round_trip (id dlc : Z) (rtr : bool)
    (payload pad : list Z) (tx_buf_idx ctrl : Z) (frame0 : can_frame) :
  0 <= id < 2 ^ 29 -> 0 <= dlc <= 8 ->
  (Z.to_nat dlc <= length payload)%nat ->
  let cid := Z.lor (Z.lor CAN_EFF_FLAG (if rtr then CAN_RTR_FLAG else 0)) id in
  let frame := mk_can_frame cid dlc payload in
  let image := rx_image_of_tx ctrl (hw_tx_buf frame tx_buf_idx) pad in
  let frame' := hw_rx_decode image frame0 in
  can_id frame' = cid
  /\ can_dlc frame' = dlc
  /\ take (Z.to_nat dlc) (data frame') = take (Z.to_nat dlc) payload.
Proof.
  intros Hid Hd Hdata cid frame image frame'.
  assert (Heff : nonzero (Z.land cid CAN_EFF_FLAG) = true).
  { subst cid. change CAN_EFF_FLAG with (2 ^ 31) at 2.
    rewrite (can_id_flag _ id 29 31) by lia. destruct rtr; reflexivity. }
  assert (Hrtr : nonzero (Z.land cid CAN_RTR_FLAG) = rtr).
  { subst cid. change CAN_RTR_FLAG with (2 ^ 30) at 2.
    rewrite (can_id_flag _ id 29 30) by lia. destruct rtr; reflexivity. }
  assert (Hmask : Z.land cid CAN_EFF_MASK = id).
  { subst cid. change CAN_EFF_MASK with (Z.ones 29).
    apply can_id_parts; [exact Hid | lia |]. destruct rtr; reflexivity. }
  destruct (ext_id_reconstructs cid) as (Hrec & Hide). cbv zeta in Hrec, Hide.
  destruct (dlc_byte_decodes (if rtr then 1 else 0) dlc
              ltac:(destruct rtr; auto) Hd) as (Hlen & Hrb).
  cbv zeta in Hlen, Hrb.
  subst frame' image frame. unfold rx_image_of_tx, hw_tx_buf.
  cbn [can_id can_dlc data drop app]. rewrite Heff, Hrtr.
  change (nonzero 1) with true. cbv iota.
  unfold hw_rx_decode.
  cbn [lookup_total list_lookup_total RXBSIDH_OFF RXBSIDL_OFF RXBEID8_OFF
       RXBEID0_OFF RXBDLC_OFF RXBDAT_OFF can_id can_dlc data drop].
  rewrite Hide, Hrec, Hmask, Hlen, Hrb.
  split; [|split].
  - subst cid. rewrite <- (ext_word id rtr Hid). destruct rtr; reflexivity.
  - reflexivity.
  - apply memcpy_take. exact Hdata.
Qed.

Lemma extended_frame_round_trip_witness :
  can_id (hw_rx_decode
            (rx_image_of_tx 0
               (hw_tx_buf (mk_can_frame
                             (Z.lor (Z.lor CAN_EFF_FLAG CAN_RTR_FLAG) 28036591)
                             3 [1; 2; 3; 4; 5; 6; 7; 8]) 0)
               (replicate 8 0))
            zero_frame)
  = Z.lor (Z.lor CAN_EFF_FLAG CAN_RTR_FLAG) 28036591.
Proof.
  refine (proj1 (extended_frame_round_trip 28036591 3 true
                   [1; 2; 3; 4; 5; 6; 7; 8] (replicate 8 0) 0 0 zero_frame
                   _ _ _)); cbn; lia.
Defined.

(** X9. Round trip of standard frames: for every 11-bit identifier,
    every length code up to 8 and every data, decoding the receive image
    that holds the bytes of the transmit buffer gives back the
    identifier, the length code and the data bytes.  The remote flag is
    not carried over by the same bytes: the encoder puts it in bit 6 of
    the length byte, the decoder of a standard frame reads bit 4 of SIDL,
    which the encoder leaves clear. *)
Theorem standard_frame_round_trip (id dlc : Z) (rtr : bool)
    (payload pad : list Z) (tx_buf_idx ctrl : Z) (frame0 : can_frame) :
  0 <= id < 2 ^ 11 -> 0 <= dlc <= 8 ->
  (Z.to_nat dlc <= length payload)%nat ->
  let cid := Z.lor (if rtr then CAN_RTR_FLAG else 0) id in
  let frame := mk_can_frame cid dlc payload in
  let buf := hw_tx_buf frame tx_buf_idx in
  let frame' := hw_rx_decode (rx_image_of_tx ctrl buf pad) frame0 in
  can_id frame' = id
  /\ can_dlc frame' = dlc
  /\ take (Z.to_nat dlc) (data frame') = take (Z.to_nat dlc) payload
  /\ buf !! TXBDLC_OFF = Some (dlc + (if rtr then 64 else 0)).
Proof.
  intros Hid Hd Hdata cid frame buf frame'.
  assert (Heff : nonzero (Z.land cid CAN_EFF_FLAG) = false).
  { subst cid. change CAN_EFF_FLAG with (2 ^ 31).
    rewrite (can_id_flag _ id 11 31) by lia. destruct rtr; reflexivity. }
  assert (Hrtr : nonzero (Z.land cid CAN_RTR_FLAG) = rtr).
  { subst cid. change CAN_RTR_FLAG with (2 ^ 30) at 2.
    rewrite (can_id_flag _ id 11 30) by lia. destruct rtr; reflexivity. }
  assert (Hmask : Z.land cid CAN_SFF_MASK = id).
  { subst cid. change CAN_SFF_MASK with (Z.ones 11).
    apply can_id_parts; [exact Hid | lia |]. destruct rtr; reflexivity. }
  destruct (std_id_reconstructs cid) as (Hrec & Hide & Hsrr).
  cbv zeta in Hrec, Hide, Hsrr.
  destruct (dlc_byte_decodes (if rtr then 1 else 0) dlc
              ltac:(destruct rtr; auto) Hd) as (Hlen & _).
  cbv zeta in Hlen.
  subst frame' buf frame. unfold rx_image_of_tx, hw_tx_buf.
  cbn [can_id can_dlc data drop app]. rewrite Heff, Hrtr.
  change (nonzero 0) with false. cbv iota.
  split; [|split; [|split]].
  - unfold hw_rx_decode.
    cbn [lookup_total list_lookup_total RXBSIDH_OFF RXBSIDL_OFF RXBEID8_OFF
         RXBEID0_OFF RXBDLC_OFF RXBDAT_OFF can_id can_dlc data drop].
    rewrite Hide, Hsrr, Hrec, Hmask.
    unfold u32. change 4294967295 with (Z.ones 32).
    rewrite Z.land_ones by lia. apply Z.mod_small.
    assert (2 ^ 11 < 2 ^ 32) by (apply Z.pow_lt_mono_r; lia). lia.
  - unfold hw_rx_decode.
    cbn [lookup_total list_lookup_total RXBDLC_OFF can_dlc].
    exact Hlen.
  - unfold hw_rx_decode.
    cbn [lookup_total list_lookup_total RXBDLC_OFF RXBDAT_OFF data drop].
    rewrite Hlen. apply memcpy_take. exact Hdata.
  - cbn [lookup list_lookup TXBDLC_OFF]. f_equal.
    assert (Hc : dlc = 0 \/ dlc = 1 \/ dlc = 2 \/ dlc = 3 \/ dlc = 4
                 \/ dlc = 5 \/ dlc = 6 \/ dlc = 7 \/ dlc = 8) by lia.
    destruct rtr;
      destruct Hc as [->|[->|[->|[->|[->|[->|[->|[->| ->]]]]]]]];
      reflexivity.
Qed.

Lemma standard_frame_round_trip_witness :
  can_id (hw_rx_decode
            (rx_image_of_tx 0
               (hw_tx_buf (mk_can_frame (Z.lor CAN_RTR_FLAG 291) 2
                                        [170; 187; 0; 0; 0; 0; 0; 0]) 0)
               (replicate 8 0))
            zero_frame)
  = 291.
Proof.
  refine (proj1 (standard_frame_round_trip 291 2 true
                   [170; 187; 0; 0; 0; 0; 0; 0] (replicate 8 0) 0 0 zero_frame
                   _ _ _)); cbn; lia.
Defined.

(** ** The decoder on arbitrary images *)

Lemma byte_lookup_total (buf : list Z) (i : nat) :
  Forall (fun b => 0 <= b < 256) buf -> 0 <= buf !!! i < 256.
Proof.
  intros Hb. destruct (buf !! i) as [x|] eqn:E.
  - rewrite (list_lookup_total_correct buf i x E).
    rewrite Forall_forall in Hb. apply Hb.
    apply (list_elem_of_lookup_2 buf i x E).
  - rewrite list_lookup_total_alt, E. cbn. lia.
Qed.

Lemma below_pow2_of_bits (a n : Z) :
  0 <= n -> (forall i : Z, n <= i -> Z.testbit a i = false) -> 0 <= a < 2 ^ n.
Proof.
  intros Hn Hb.
  assert (Ha : a = Z.land a (Z.ones n)).
  { apply Z.bits_inj'. intros i Hi. rewrite Z.land_spec.
    destruct (Z.lt_ge_cases i n).
    - rewrite Z.ones_spec_low by lia. symmetry. apply andb_true_r.
    - rewrite Hb by lia. reflexivity. }
  rewrite Ha, Z.land_ones by exact Hn. apply Z.mod_pos_bound.
  apply Z.pow_pos_nonneg; lia.
Qed.

(** X10. Whatever bytes the mailbox image holds, the decoded identifier
    word is well formed: it fits 32 bits, its extended flag (bit 31) is
    bit 3 of SIDL, its remote flag (bit 30) is bit 6 of the length byte
    for an extended frame and bit 4 of SIDL for a standard one, bit 29
    is never set, and for a standard frame the identifier is below 2^11:
    the upper 18 identifier bits are zero. *)
Theorem hw_rx_decode_well_formed (buf : list Z) (frame0 : can_frame) :
  Forall (fun b => 0 <= b < 256) buf ->
  let frame := hw_rx_decode buf frame0 in
  let sidl := buf !!! RXBSIDL_OFF in
  0 <= can_id frame < 2 ^ 32
  /\ Z.testbit (can_id frame) 31 = Z.testbit sidl 3
  /\ Z.testbit (can_id frame) 30
     = (if Z.testbit sidl 3 then Z.testbit (buf !!! RXBDLC_OFF) 6
        else Z.testbit sidl 4)
  /\ Z.testbit (can_id frame) 29 = false
  /\ (Z.testbit sidl 3 = false ->
      0 <= Z.land (can_id frame) CAN_EFF_MASK < 2 ^ 11).
Proof.
  intros Hb frame sidl.
  pose proof (byte_lookup_total buf RXBSIDH_OFF Hb) as Hh.
  pose proof (byte_lookup_total buf RXBSIDL_OFF Hb) as Hl.
  pose proof (byte_lookup_total buf RXBEID8_OFF Hb) as H8.
  pose proof (byte_lookup_total buf RXBEID0_OFF Hb) as H0.
  fold sidl in Hl. subst frame. unfold hw_rx_decode. cbn [can_id].
  fold sidl.
  set (sidh := buf !!! RXBSIDH_OFF) in *.
  set (eid8 := buf !!! RXBEID8_OFF) in *.
  set (eid0 := buf !!! RXBEID0_OFF) in *.
  set (dlcb := buf !!! RXBDLC_OFF) in *.
  change RXBSIDL_IDE with (2 ^ 3). change RXBSIDL_SRR with (2 ^ 4).
  change RXBDLC_RTR with (2 ^ 6).
  rewrite !nonzero_land_pow2 by lia.
  unfold u32, SET_BYTE, RXBSIDH_SHIFT, RXBSIDL_SHIFT.
  change 4294967295 with (Z.ones 32). change RXBSIDL_EID with (Z.ones 2).
  change 255 with (Z.ones 8). change CAN_EFF_FLAG with (2 ^ 31).
  change CAN_RTR_FLAG with (2 ^ 30). change CAN_EFF_MASK with (Z.ones 29).
  change (2 * 8) with 16. change (1 * 8) with 8. change (0 * 8) with 0.
  assert (Hu : forall x, 0 <= Z.land x (Z.ones 32) < 2 ^ 32).
  { intros x. rewrite Z.land_ones by lia. apply Z.mod_pos_bound. lia. }
  assert (Hhi : forall x i, 8 <= i ->
            (x = sidh \/ x = sidl \/ x = eid8 \/ x = eid0) ->
            Z.testbit x i = false).
  { intros x i Hi [->|[->|[->| ->]]]; apply (testbit_small _ 8); lia. }
  destruct (Z.testbit sidl 3) eqn:Eide;
    [destruct (Z.testbit dlcb 6) eqn:Er | destruct (Z.testbit sidl 4) eqn:Er].
  all: split; [apply Hu|].
  all: split; [testbits; rewrite ?Hhi by (first [lia | auto]);
               decide_bits sidh|].
  all: split; [testbits; rewrite ?Hhi by (first [lia | auto]);
               decide_bits sidh|].
  all: split; [testbits; rewrite ?Hhi by (first [lia | auto]);
               decide_bits sidh|].
  all: intros Hstd; try discriminate.
  all: apply below_pow2_of_bits; [lia|]; intros i Hi;
    split_index i (29 :: 30 :: 32 :: nil);
    testbits; rewrite ?Hhi by (first [lia | auto]); decide_bits sidh.
Qed.

Lemma hw_rx_decode_well_formed_witness :
  Forall (fun b => 0 <= b < 256) corrupt_dlc_image
  /\ Z.testbit (can_id (hw_rx_decode corrupt_dlc_image zero_frame)) 29 = false.
Proof.
  assert (Hb : Forall (fun b => 0 <= b < 256) corrupt_dlc_image).
  { unfold corrupt_dlc_image. repeat (constructor; [lia|]). constructor. }
  split; [exact Hb|].
  exact (proj1 (proj2 (proj2 (proj2
           (hw_rx_decode_well_formed corrupt_dlc_image zero_frame Hb))))).
Defined.

(** ** Transmit submission *)

Lemma mcp2515_hard_start_xmit_idle (skb : can_frame) (w : world) :
  tx_skb (priv w) = None -> tx_len (priv w) = 0 ->
  mcp2515_hard_start_xmit skb w
  = if 8 <? can_dlc skb
    then (NETDEV_TX_OK,
          mk_world (priv w)
                   (mk_stats (rx_packets (stats w)) (rx_bytes (stats w))
                             (rx_dropped (stats w)) (rx_over_errors (stats w))
                             (rx_errors (stats w)) (tx_packets (stats w))
                             (tx_bytes (stats w))
                             (ulong (tx_dropped (stats w) + 1)))
                   (spi_tx_buf w) (spi_rx_buf w) (gpio_in w) (gpio_reads w)
                   (skb_pool w) (skb_allocs w)
                   (trace w ++ [Dev_kfree_skb]))
    else (NETDEV_TX_OK,
          mk_world (set_tx_skb (Some skb) (priv w)) (stats w) (spi_tx_buf w)
                   (spi_rx_buf w) (gpio_in w) (gpio_reads w) (skb_pool w)
                   (skb_allocs w)
                   (trace w ++ [Netif_stop_queue; Queue_work_tx])).
Proof.
  intros Hskb Hlen. destruct w as [p s tx rx line reads pool allocs tr].
  cbn [priv] in Hskb, Hlen.
  unfold mcp2515_hard_start_xmit, can_dropped_invalid_skb, bind.
  world_prims. rewrite Hskb, Hlen. cbn [orb nonzero Z.eqb negb].
  destruct (8 <? can_dlc skb); world_prims.
  - reflexivity.
  - rewrite <- app_assoc. reflexivity.
Qed.

(** X11. An idle driver accepts a frame with a valid length code: the
    call returns NETDEV_TX_OK, stops the queue, keeps the frame as the
    pending one and queues the transmit work, without touching the bus or
    the statistics.  Any submission that follows is turned away with
    NETDEV_TX_BUSY and changes nothing. *)
Theorem hard_start_xmit_accepts_then_busy (skb next : can_frame) (w : world) :
  tx_skb (priv w) = None -> tx_len (priv w) = 0 -> can_dlc skb <= 8 ->
  let w1 := snd (mcp2515_hard_start_xmit skb w) in
  fst (mcp2515_hard_start_xmit skb w) = NETDEV_TX_OK
  /\ priv w1 = set_tx_skb (Some skb) (priv w)
  /\ new_events w w1 = [Netif_stop_queue; Queue_work_tx]
  /\ stats w1 = stats w
  /\ gpio_reads w1 = gpio_reads w
  /\ mcp2515_hard_start_xmit next w1 = (NETDEV_TX_BUSY, w1).
Proof.
  intros Hskb Hlen Hdlc. cbv zeta.
  rewrite (mcp2515_hard_start_xmit_idle skb w Hskb Hlen).
  destruct (Z.ltb_spec 8 (can_dlc skb)) as [Hgt|_]; [lia|].
  cbn [fst snd priv stats gpio_reads].
  split; [reflexivity|]. split; [reflexivity|].
  split; [unfold new_events; cbn [trace];
          rewrite drop_app_length; reflexivity|].
  split; [reflexivity|]. split; [reflexivity|].
  unfold mcp2515_hard_start_xmit, bind, get_priv.
  cbn [fst snd priv set_tx_skb tx_skb orb]. reflexivity.
Qed.

(** X12. An idle driver that is handed a frame with a length code above
    8 frees it, counts it in [tx_dropped] (one more, modulo
    [2 ^ BITS_PER_LONG]) and reports NETDEV_TX_OK: the queue is not
    stopped, no work is queued, the driver state and the other counters
    are unchanged, and the next valid frame is accepted as if nothing
    had happened. *)
Theorem hard_start_xmit_drops_invalid (skb next : can_frame) (w : world) :
  tx_skb (priv w) = None -> tx_len (priv w) = 0 ->
  8 < can_dlc skb -> can_dlc next <= 8 ->
  let w1 := snd (mcp2515_hard_start_xmit skb w) in
  let w2 := snd (mcp2515_hard_start_xmit next w1) in
  fst (mcp2515_hard_start_xmit skb w) = NETDEV_TX_OK
  /\ new_events w w1 = [Dev_kfree_skb]
  /\ priv w1 = priv w
  /\ stats w1
     = mk_stats (rx_packets (stats w)) (rx_bytes (stats w))
                (rx_dropped (stats w)) (rx_over_errors (stats w))
                (rx_errors (stats w)) (tx_packets (stats w))
                (tx_bytes (stats w)) (ulong (tx_dropped (stats w) + 1))
  /\ tx_skb (priv w2) = Some next
  /\ new_events w1 w2 = [Netif_stop_queue; Queue_work_tx].
Proof.
  intros Hskb Hlen Hbad Hok. cbv zeta.
  rewrite (mcp2515_hard_start_xmit_idle skb w Hskb Hlen).
  destruct (Z.ltb_spec 8 (can_dlc skb)) as [_|Hle]; [|lia].
  cbn [fst snd].
  rewrite (mcp2515_hard_start_xmit_idle next _)
    by (destruct w; cbn; assumption).
  destruct (Z.ltb_spec 8 (can_dlc next)) as [Hgt|_]; [lia|].
  destruct w as [p s tx rx line reads pool allocs tr].
  cbn [priv] in Hskb, Hlen.
  unfold new_events. cbn.
  split; [reflexivity|].
  split; [rewrite drop_app_length; reflexivity|].
  split; [reflexivity|]. split; [reflexivity|]. split; [reflexivity|].
  rewrite drop_app_length. reflexivity.
Qed.

(** ** Setup, reset and probe *)

Lemma after_io_after_io (w : world) (tx1 rx1 : list Z) (n1 : nat)
    (e1 : list event) (tx2 rx2 : list Z) (n2 : nat) (e2 : list event) :
  after_io (after_io w tx1 rx1 n1 e1) tx2 rx2 n2 e2
  = after_io w tx2 rx2 n2 (e1 ++ e2).
Proof. unfold after_io. cbn. rewrite app_assoc. reflexivity. Qed.

Lemma spi_log_bytes_cycles (line : nat -> Z) (start : nat) (out : list Z) :
  spi_log (spi_bytes_cycles line start out) = [].
Proof.
  revert start. induction out as [|b out IH]; intros start; [reflexivity|].
  cbn [spi_bytes_cycles]. rewrite spi_log_app, IH. reflexivity.
Qed.

Lemma spi_log_transfer (line : nat -> Z) (start : nat) (out : list Z) :
  spi_log (spi_transfer_events line start out) = [out].
Proof.
  unfold spi_transfer_events.
  rewrite spi_log_app, spi_log_bytes_cycles. reflexivity.
Qed.

Lemma delay_usecs_app (a b : list event) :
  delay_usecs (a ++ b) = delay_usecs a + delay_usecs b.
Proof.
  induction a as [|e a IH]; [reflexivity|].
  cbn [app delay_usecs fold_right]. fold (delay_usecs (a ++ b)).
  fold (delay_usecs a). rewrite IH. destruct e; lia.
Qed.

Lemma delay_usecs_bytes_cycles (line : nat -> Z) (start : nat) (out : list Z) :
  delay_usecs (spi_bytes_cycles line start out) = 0.
Proof.
  revert start. induction out as [|b out IH]; intros start; [reflexivity|].
  cbn [spi_bytes_cycles]. rewrite delay_usecs_app, IH. reflexivity.
Qed.

Lemma delay_usecs_transfer (line : nat -> Z) (start : nat) (out : list Z) :
  delay_usecs (spi_transfer_events line start out) = 0.
Proof.
  unfold spi_transfer_events.
  rewrite delay_usecs_app, delay_usecs_bytes_cycles. reflexivity.
Qed.

Lemma mdelay_run (msecs : Z) (w : world) :
  mdelay msecs w
  = (tt, after_io w (spi_tx_buf w) (spi_rx_buf w) (gpio_reads w)
           [Udelay (msecs * 1000)]).
Proof. destruct w. reflexivity. Qed.

Lemma mcp2515_write_reg_io (reg val : Z) (w : world) :
  (3 <= length (spi_tx_buf w))%nat ->
  exists (tx rx : list Z) (n : nat) (evs : list event),
    mcp2515_write_reg reg val w = (tt, after_io w tx rx n evs)
    /\ length tx = length (spi_tx_buf w)
    /\ spi_log evs = [[INSTRUCTION_WRITE; u8 reg; u8 val]]
    /\ cs_levels evs = [0; 1].
Proof.
  intros Hl. destruct (mcp2515_write_reg_run reg val w Hl) as (rx & Heq & _).
  eexists _, rx, _, _. split; [exact Heq|].
  split; [rewrite !length_insert; reflexivity|].
  change (Gpio_set_value GPIO_CS 0 :: ?l) with ([Gpio_set_value GPIO_CS 0] ++ l).
  rewrite !spi_log_app, !cs_levels_app, spi_log_transfer, cs_levels_transfer.
  split; reflexivity.
Qed.

Lemma mcp2515_write_bits_io (reg mask val : Z) (w : world) :
  (4 <= length (spi_tx_buf w))%nat ->
  exists (tx rx : list Z) (n : nat) (evs : list event),
    mcp2515_write_bits reg mask val w = (tt, after_io w tx rx n evs)
    /\ length tx = length (spi_tx_buf w)
    /\ spi_log evs = [[INSTRUCTION_BIT_MODIFY; u8 reg; u8 mask; u8 val]]
    /\ cs_levels evs = [0; 1].
Proof.
  intros Hl.
  destruct (mcp2515_write_bits_run reg mask val w Hl) as (rx & Heq & _).
  eexists _, rx, _, _. split; [exact Heq|].
  split; [rewrite !length_insert; reflexivity|].
  change (Gpio_set_value GPIO_CS 0 :: ?l) with ([Gpio_set_value GPIO_CS 0] ++ l).
  rewrite !spi_log_app, !cs_levels_app, spi_log_transfer, cs_levels_transfer.
  split; reflexivity.
Qed.

Lemma mcp2515_do_set_bittiming_io (w : world) :
  (4 <= length (spi_tx_buf w))%nat ->
  exists (tx rx : list Z) (n : nat) (evs : list event),
    mcp2515_do_set_bittiming w = (0, after_io w tx rx n evs)
    /\ length tx = length (spi_tx_buf w)
    /\ spi_log evs
       = [[INSTRUCTION_WRITE; CNF1; u8 (cnf1_val (can_bt (priv w)))];
          [INSTRUCTION_WRITE; CNF2;
           u8 (cnf2_val (can_ctrlmode (priv w)) (can_bt (priv w)))];
          [INSTRUCTION_BIT_MODIFY; CNF3; CNF3_PHSEG2_MASK;
           u8 (cnf3_val (can_bt (priv w)))]]
    /\ cs_levels evs = [0; 1; 0; 1; 0; 1].
Proof.
  intros Hl. unfold mcp2515_do_set_bittiming. rewrite bind_unfold.
  cbn [get_priv fst snd]. rewrite !bind_seq.
  destruct (mcp2515_write_reg_io CNF1 (cnf1_val (can_bt (priv w))) w)
    as (tx1 & rx1 & n1 & evs1 & Heq1 & Hl1 & Hlog1 & Hcs1); [lia|].
  rewrite Heq1. cbn [snd].
  destruct (mcp2515_write_reg_io CNF2
              (cnf2_val (can_ctrlmode (priv w)) (can_bt (priv w)))
              (after_io w tx1 rx1 n1 evs1))
    as (tx2 & rx2 & n2 & evs2 & Heq2 & Hl2 & Hlog2 & Hcs2);
    [cbn [after_io spi_tx_buf]; lia|].
  rewrite Heq2, after_io_after_io. cbn [snd]. cbn [after_io spi_tx_buf] in Hl2.
  destruct (mcp2515_write_bits_io CNF3 CNF3_PHSEG2_MASK
              (cnf3_val (can_bt (priv w)))
              (after_io w tx2 rx2 n2 (evs1 ++ evs2)))
    as (tx3 & rx3 & n3 & evs3 & Heq3 & Hl3 & Hlog3 & Hcs3);
    [cbn [after_io spi_tx_buf]; lia|].
  rewrite Heq3, after_io_after_io. cbn [snd ret].
  cbn [after_io spi_tx_buf] in Hl3.
  exists tx3, rx3, n3, ((evs1 ++ evs2) ++ evs3).
  split; [reflexivity|]. split; [lia|].
  rewrite !spi_log_app, !cs_levels_app, Hlog1, Hlog2, Hlog3, Hcs1, Hcs2, Hcs3.
  split; reflexivity.
Qed.

(** X13. Setup writes the three bit-timing registers and then puts both
    receive buffers into receive-any mode, with rollover on buffer 0:
    0x64 goes to register 0x60 and 0x60 to register 0x70.  Each of the
    five transactions is framed by chip-select, the call returns 0 and
    the driver state and the statistics are unchanged. *)
Theorem mcp2515_setup_transactions (w : world) :
  (4 <= length (spi_tx_buf w))%nat ->
  let w' := snd (mcp2515_setup w) in
  fst (mcp2515_setup w) = 0
  /\ spi_log (new_events w w')
     = [[2; 42; u8 (cnf1_val (can_bt (priv w)))];
        [2; 41; u8 (cnf2_val (can_ctrlmode (priv w)) (can_bt (priv w)))];
        [5; 40; 7; u8 (cnf3_val (can_bt (priv w)))];
        [2; 96; 100];
        [2; 112; 96]]
  /\ cs_levels (new_events w w') = [0; 1; 0; 1; 0; 1; 0; 1; 0; 1]
  /\ priv w' = priv w
  /\ stats w' = stats w.
Proof.
  intros Hl. cbv zeta. unfold mcp2515_setup. rewrite !bind_seq.
  destruct (mcp2515_do_set_bittiming_io w Hl)
    as (tx1 & rx1 & n1 & evs1 & Heq1 & Hl1 & Hlog1 & Hcs1).
  rewrite Heq1. cbn [snd].
  match goal with
  | |- context [mcp2515_write_reg ?r ?v (after_io w tx1 rx1 n1 evs1)] =>
      destruct (mcp2515_write_reg_io r v (after_io w tx1 rx1 n1 evs1))
        as (tx2 & rx2 & n2 & evs2 & Heq2 & Hl2 & Hlog2 & Hcs2);
        [cbn [after_io spi_tx_buf]; lia|]
  end.
  rewrite Heq2, after_io_after_io. cbn [snd]. cbn [after_io spi_tx_buf] in Hl2.
  match goal with
  | |- context [mcp2515_write_reg ?r ?v (after_io w tx2 rx2 n2 ?e)] =>
      destruct (mcp2515_write_reg_io r v (after_io w tx2 rx2 n2 e))
        as (tx3 & rx3 & n3 & evs3 & Heq3 & Hl3 & Hlog3 & Hcs3);
        [cbn [after_io spi_tx_buf]; lia|]
  end.
  rewrite Heq3, after_io_after_io. cbn [snd fst ret].
  rewrite new_events_after_io.
  rewrite !spi_log_app, !cs_levels_app, Hlog1, Hlog2, Hlog3, Hcs1, Hcs2, Hcs3.
  split; [reflexivity|]. split; [reflexivity|]. split; [reflexivity|].
  split; reflexivity.
Qed.

Lemma mcp2515_setup_transactions_witness :
  fst (mcp2515_setup timing_world) = 0.
Proof.
  refine (proj1 (mcp2515_setup_transactions timing_world _)).
  cbn. lia.
Defined.

(** The mode bits of a sampled byte are its first three samples. *)
Lemma sampled_byte_mode_bits (line : nat -> Z) (start : nat) :
  (Z.land (sampled_byte line start) CANCTRL_REQOP_MASK =? CANCTRL_REQOP_CONF)
  = nonzero (line start)
    && negb (nonzero (line (start + 1)%nat))
    && negb (nonzero (line (start + 2)%nat)).
Proof.
  unfold sampled_byte, sampled_bits. cbn [seq map].
  rewrite Nat.add_0_r.
  destruct (nonzero (line start)), (nonzero (line (start + 1)%nat)),
    (nonzero (line (start + 2)%nat)), (nonzero (line (start + 3)%nat)),
    (nonzero (line (start + 4)%nat)), (nonzero (line (start + 5)%nat)),
    (nonzero (line (start + 6)%nat)), (nonzero (line (start + 7)%nat));
    reflexivity.
Qed.

(** The bits that the probe checks in a sampled byte. *)
Lemma sampled_byte_powerup_bits (line : nat -> Z) (start : nat) :
  (Z.land (sampled_byte line start) 23 =? 7)
  = negb (nonzero (line (start + 3)%nat))
    && nonzero (line (start + 5)%nat)
    && nonzero (line (start + 6)%nat)
    && nonzero (line (start + 7)%nat).
Proof.
  unfold sampled_byte, sampled_bits. cbn [seq map].
  rewrite Nat.add_0_r.
  destruct (nonzero (line start)), (nonzero (line (start + 1)%nat)),
    (nonzero (line (start + 2)%nat)), (nonzero (line (start + 3)%nat)),
    (nonzero (line (start + 4)%nat)), (nonzero (line (start + 5)%nat)),
    (nonzero (line (start + 6)%nat)), (nonzero (line (start + 7)%nat));
    reflexivity.
Qed.

Lemma mcp2515_hw_reset_run (w : world) :
  (3 <= length (spi_tx_buf w))%nat -> (3 <= length (spi_rx_buf w))%nat ->
  exists rx : list Z,
    mcp2515_hw_reset w
    = ((if Z.land (sampled_byte (gpio_in w) (gpio_reads w + 24))
                  CANCTRL_REQOP_MASK =? CANCTRL_REQOP_CONF
        then 0 else - ENODEV),
       after_io w
         (<[1%nat := u8 CANSTAT]>
            (<[0%nat := u8 INSTRUCTION_READ]>
               (<[0%nat := u8 INSTRUCTION_RESET]> (spi_tx_buf w))))
         rx (gpio_reads w + 32)
         ([Udelay 5000]
          ++ spi_transfer_events (gpio_in w) (gpio_reads w) [INSTRUCTION_RESET]
          ++ [Udelay 5000]
          ++ Gpio_set_value GPIO_CS 0
             :: spi_transfer_events (gpio_in w) (gpio_reads w + 8)
                  [INSTRUCTION_READ; CANSTAT; spi_tx_buf w !!! 2%nat]
             ++ [Udelay 1; Gpio_set_value GPIO_CS 1]))
    /\ length rx = length (spi_rx_buf w).
Proof.
  intros Hl Hr. unfold mcp2515_hw_reset.
  rewrite bind_seq, mdelay_run. cbn [snd].
  rewrite bind_seq.
  destruct w as [p s tx rx0 line reads pool allocs tr].
  cbn [spi_tx_buf spi_rx_buf] in Hl, Hr.
  world_prims. rewrite bind_unfold.
  spi_trans_run. cbn [fst snd nonzero Z.eqb negb].
  rewrite bind_seq, mdelay_run. cbn [snd]. rewrite bind_unfold.
  cbn [spi_rx_buf] in Hlen. clear Hin Hout.
  match goal with
  | |- context [mcp2515_read_reg CANSTAT ?w1] =>
      destruct (mcp2515_read_reg_run CANSTAT w1) as (rx2 & Heq2 & Hlen2);
        [ cbn [after_io spi_tx_buf spi_rx_buf]; rewrite ?length_insert; lia
        | cbn [after_io spi_tx_buf spi_rx_buf]; lia
        | rewrite Heq2; clear Heq2 ]
  end.
  cbn [fst snd]. world_prims.
  cbn [after_io spi_rx_buf] in Hlen2.
  exists rx2. split; [|lia].
  replace (reads + 8 * Z.to_nat 1 + 16)%nat with (reads + 24)%nat by lia.
    replace (reads + 8 * Z.to_nat 1 + 24)%nat with (reads + 32)%nat by lia.
    replace (reads + 8 * Z.to_nat 1)%nat with (reads + 8)%nat by lia.
  assert (Ht : take (Z.to_nat 1) (<[0%nat := u8 INSTRUCTION_RESET]> tx)
               = [INSTRUCTION_RESET]).
  { destruct tx; cbn in Hl; [lia|]. reflexivity. }
  assert (Hk : <[0%nat := u8 INSTRUCTION_RESET]> tx !!! 2%nat = tx !!! 2%nat).
  { destruct tx as [|x0 [|x1 [|x2 tx]]]; cbn in Hl; try lia. reflexivity. }
  rewrite Ht, Hk. change (u8 CANSTAT) with CANSTAT.
  rewrite <- !app_assoc.
  destruct (Z.land (sampled_byte line (reads + 24)) CANCTRL_REQOP_MASK
            =? CANCTRL_REQOP_CONF); reflexivity.
Qed.

(** X14. Reset waits 5 ms, clocks out the single byte 0xC0 without
    driving chip-select, waits 5 ms again and reads CANSTAT in a
    chip-selected transaction.  It returns 0 exactly when the first
    three samples of the answer byte read 1, 0, 0 (configuration mode)
    and -ENODEV otherwise; the driver state and the statistics are left
    alone. *)
Theorem mcp2515_hw_reset_outcome (w : world) :
  (3 <= length (spi_tx_buf w))%nat -> (3 <= length (spi_rx_buf w))%nat ->
  let line := gpio_in w in
  let n := gpio_reads w in
  let w' := snd (mcp2515_hw_reset w) in
  fst (mcp2515_hw_reset w)
  = (if nonzero (line (n + 24)%nat)
        && negb (nonzero (line (n + 25)%nat))
        && negb (nonzero (line (n + 26)%nat))
     then 0 else - ENODEV)
  /\ new_events w w'
     = [Udelay 5000]
       ++ spi_transfer_events line n [192]
       ++ [Udelay 5000]
       ++ Gpio_set_value GPIO_CS 0
          :: spi_transfer_events line (n + 8) [3; 14; spi_tx_buf w !!! 2%nat]
          ++ [Udelay 1; Gpio_set_value GPIO_CS 1]
  /\ spi_log (new_events w w') = [[192]; [3; 14; spi_tx_buf w !!! 2%nat]]
  /\ cs_levels (new_events w w') = [0; 1]
  /\ delay_usecs (new_events w w') = 10001
  /\ gpio_reads w' = (n + 32)%nat
  /\ priv w' = priv w
  /\ stats w' = stats w.
Proof.
  intros Hl Hr line n w'. subst w'.
  destruct (mcp2515_hw_reset_run w Hl Hr) as (rx & Heq & _).
  rewrite Heq. cbn [fst snd]. rewrite new_events_after_io.
  rewrite sampled_byte_mode_bits.
  replace (gpio_reads w + 24 + 1)%nat with (n + 25)%nat by (subst n; lia).
  replace (gpio_reads w + 24 + 2)%nat with (n + 26)%nat by (subst n; lia).
  split; [reflexivity|]. split; [reflexivity|].
  change (Gpio_set_value GPIO_CS 0 :: ?l) with ([Gpio_set_value GPIO_CS 0] ++ l).
  rewrite !spi_log_app, !cs_levels_app, !delay_usecs_app.
  rewrite !spi_log_transfer, !cs_levels_transfer, !delay_usecs_transfer.
  split; [reflexivity|]. split; [reflexivity|]. split; [reflexivity|].
  split; [reflexivity|]. split; reflexivity.
Qed.

Lemma mcp2515_hw_reset_outcome_witness :
  fst (mcp2515_hw_reset alternating_world) = - ENODEV.
Proof.
  refine (proj1 (mcp2515_hw_reset_outcome alternating_world _ _)).
  - cbn. lia.
  - cbn. lia.
Defined.

Lemma mcp2515_hw_probe_run (w : world) :
  (3 <= length (spi_tx_buf w))%nat -> (3 <= length (spi_rx_buf w))%nat ->
  let line := gpio_in w in
  let n := gpio_reads w in
  let third := spi_tx_buf w !!! 2%nat in
  let reset_evs :=
    [Udelay 5000]
    ++ spi_transfer_events line n [INSTRUCTION_RESET]
    ++ [Udelay 5000]
    ++ Gpio_set_value GPIO_CS 0
       :: spi_transfer_events line (n + 8) [INSTRUCTION_READ; CANSTAT; third]
       ++ [Udelay 1; Gpio_set_value GPIO_CS 1] in
  exists (tx rx : list Z) (m : nat),
    mcp2515_hw_probe w
    = (if Z.land (sampled_byte line (n + 24)) CANCTRL_REQOP_MASK
          =? CANCTRL_REQOP_CONF
       then
         (if Z.land (sampled_byte line (n + 48)) 23 =? 7 then 0 else - ENODEV,
          after_io w tx rx m
            (reset_evs
             ++ Gpio_set_value GPIO_CS 0
                :: spi_transfer_events line (n + 32)
                     [INSTRUCTION_READ; CANCTRL; third]
                ++ [Udelay 1; Gpio_set_value GPIO_CS 1]))
       else (- ENODEV, after_io w tx rx m reset_evs)).
Proof.
  intros Hl Hr line n third reset_evs.
  unfold mcp2515_hw_probe. rewrite bind_unfold.
  destruct (mcp2515_hw_reset_run w Hl Hr) as (rx1 & Heq & Hr1).
  rewrite Heq. cbn [fst snd]. fold line n third reset_evs.
  destruct (Z.land (sampled_byte line (n + 24)) CANCTRL_REQOP_MASK
            =? CANCTRL_REQOP_CONF) eqn:Emode.
  - cbn [nonzero Z.eqb negb]. rewrite bind_unfold.
    match goal with
    | |- context [mcp2515_read_reg CANCTRL ?w1] =>
        destruct (mcp2515_read_reg_run CANCTRL w1) as (rx2 & Heq2 & _);
          [ cbn [after_io spi_tx_buf]; rewrite !length_insert; lia
          | cbn [after_io spi_rx_buf]; lia
          | rewrite Heq2; clear Heq2 ]
    end.
    cbn [fst snd]. rewrite after_io_after_io.
    cbn [after_io gpio_in gpio_reads spi_tx_buf]. fold line n.
    replace (n + 32 + 16)%nat with (n + 48)%nat by lia.
    assert (Hk : <[1%nat := u8 CANSTAT]>
                   (<[0%nat := u8 INSTRUCTION_READ]>
                      (<[0%nat := u8 INSTRUCTION_RESET]> (spi_tx_buf w)))
                 !!! 2%nat = third).
    { subst third. destruct (spi_tx_buf w) as [|x0 [|x1 [|x2 tx]]];
        cbn in Hl; try lia. reflexivity. }
    rewrite Hk. change (u8 CANCTRL) with CANCTRL.
    eexists _, rx2, _.
    destruct (Z.land (sampled_byte line (n + 48)) 23 =? 7); reflexivity.
  - cbn [Z.opp ENODEV nonzero Z.eqb negb ret]. eexists _, rx1, _. reflexivity.
Qed.

(** X15. The probe reports a chip (returns 0) exactly when the CANSTAT
    answer reads configuration mode and the CANCTRL answer, sampled 48
    reads after the start, has bit 4 clear and bits 2..0 set; in every
    other case it returns -ENODEV.  CANCTRL is only read when the reset
    succeeded, a line stuck at one level is never taken for a chip, and
    the driver state and the statistics are not touched. *)
Theorem mcp2515_hw_probe_outcome (w : world) :
  (3 <= length (spi_tx_buf w))%nat -> (3 <= length (spi_rx_buf w))%nat ->
  let line := gpio_in w in
  let n := gpio_reads w in
  let w' := snd (mcp2515_hw_probe w) in
  let in_config :=
    nonzero (line (n + 24)%nat)
    && negb (nonzero (line (n + 25)%nat))
    && negb (nonzero (line (n + 26)%nat)) in
  let powerup :=
    negb (nonzero (line (n + 51)%nat))
    && nonzero (line (n + 53)%nat)
    && nonzero (line (n + 54)%nat)
    && nonzero (line (n + 55)%nat) in
  fst (mcp2515_hw_probe w) = (if in_config && powerup then 0 else - ENODEV)
  /\ spi_log (new_events w w')
     = [[192]; [3; 14; spi_tx_buf w !!! 2%nat]]
       ++ (if in_config then [[3; 15; spi_tx_buf w !!! 2%nat]] else [])
  /\ ((forall i j : nat, line i = line j) ->
      fst (mcp2515_hw_probe w) = - ENODEV)
  /\ priv w' = priv w
  /\ stats w' = stats w.
Proof.
  intros Hl Hr line n w' in_config powerup. subst w'.
  destruct (mcp2515_hw_probe_run w Hl Hr) as (tx & rx & m & Heq).
  cbv zeta in Heq. fold line n in Heq.
  rewrite sampled_byte_mode_bits, sampled_byte_powerup_bits in Heq.
  replace (n + 24 + 1)%nat with (n + 25)%nat in Heq by lia.
  replace (n + 24 + 2)%nat with (n + 26)%nat in Heq by lia.
  replace (n + 48 + 3)%nat with (n + 51)%nat in Heq by lia.
  replace (n + 48 + 5)%nat with (n + 53)%nat in Heq by lia.
  replace (n + 48 + 6)%nat with (n + 54)%nat in Heq by lia.
  replace (n + 48 + 7)%nat with (n + 55)%nat in Heq by lia.
  fold in_config powerup in Heq. rewrite Heq.
  assert (Hstuck : (forall i j : nat, line i = line j) -> in_config = false).
  { intros Hs. subst in_config.
    rewrite (Hs (n + 25)%nat (n + 24)%nat).
    destruct (nonzero (line (n + 24)%nat)); reflexivity. }
  change (Gpio_set_value GPIO_CS 0 :: ?l) with ([Gpio_set_value GPIO_CS 0] ++ l).
  destruct in_config; cbn [fst snd andb].
  - rewrite new_events_after_io.
    rewrite !spi_log_app, !spi_log_transfer.
    split; [reflexivity|]. split; [reflexivity|].
    split; [intros Hs; discriminate (Hstuck Hs)|].
    split; reflexivity.
  - rewrite new_events_after_io.
    rewrite !spi_log_app, !spi_log_transfer.
    split; [reflexivity|]. split; [reflexivity|].
    split; [reflexivity|]. split; reflexivity.
Qed.

Lemma mcp2515_hw_probe_outcome_witness :
  fst (mcp2515_hw_probe quiet_world) = - ENODEV.
Proof.
  refine (proj1 (proj2 (proj2
            (mcp2515_hw_probe_outcome quiet_world _ _))) _).
  - cbn. lia.
  - cbn. lia.
  - reflexivity.
Defined.

(** ** The interrupt handler, phase by phase *)

(** What a receive leaves alone, and what it counts. *)
Lemma mcp2515_hw_rx_sides (buf_idx : Z) (w : world) :
  let w' := snd (mcp2515_hw_rx buf_idx w) in
  priv w' = priv w
  /\ length (spi_tx_buf w') = length (spi_tx_buf w)
  /\ length (spi_rx_buf w') = length (spi_rx_buf w)
  /\ skb_allocs w' = S (skb_allocs w)
  /\ rx_over_errors (stats w') = rx_over_errors (stats w)
  /\ rx_errors (stats w') = rx_errors (stats w)
  /\ tx_packets (stats w') = tx_packets (stats w)
  /\ tx_bytes (stats w') = tx_bytes (stats w).
Proof.
  cbv zeta.
  assert (Hrun : exists w',
             mcp2515_hw_rx buf_idx w = (tt, w')
             /\ priv w' = priv w
             /\ length (spi_tx_buf w') = length (spi_tx_buf w)
             /\ length (spi_rx_buf w') = length (spi_rx_buf w)
             /\ skb_allocs w' = S (skb_allocs w)
             /\ rx_over_errors (stats w') = rx_over_errors (stats w)
             /\ rx_errors (stats w') = rx_errors (stats w)
             /\ tx_packets (stats w') = tx_packets (stats w)
             /\ tx_bytes (stats w') = tx_bytes (stats w)).
  { unfold mcp2515_hw_rx. rewrite bind_unfold.
    unfold alloc_can_skb at 1 2. cbn [fst snd].
    destruct (skb_pool w (skb_allocs w)) as [frame0|].
    - rewrite bind_unfold, !bind_seq.
      match goal with
      | |- context [mcp2515_hw_rx_frame ?i ?w1] =>
          destruct (mcp2515_hw_rx_frame_eq i w1)
            as (rx & n & evs & Heq & Hlen & _); rewrite Heq
      end.
      destruct w as [p s tx rx0 line reads pool allocs tr].
      cbn in Hlen. eexists. split; [reflexivity|].
      cbn. rewrite length_insert. auto 10.
    - destruct w as [p s tx rx0 line reads pool allocs tr].
      eexists. split; [reflexivity|]. cbn. auto 10. }
  destruct Hrun as (w' & Heq & H). rewrite Heq. exact H.
Qed.

Lemma ist_receive_sides (intf : Z) (w : world) :
  let w' := snd (ist_receive intf w) in
  priv w' = priv w
  /\ length (spi_tx_buf w') = length (spi_tx_buf w)
  /\ length (spi_rx_buf w') = length (spi_rx_buf w)
  /\ skb_allocs w'
     = (skb_allocs w + Nat.b2n (nonzero (Z.land intf CANINTF_RX0IF))
        + Nat.b2n (nonzero (Z.land intf CANINTF_RX1IF)))%nat
  /\ rx_over_errors (stats w') = rx_over_errors (stats w)
  /\ rx_errors (stats w') = rx_errors (stats w)
  /\ tx_packets (stats w') = tx_packets (stats w)
  /\ tx_bytes (stats w') = tx_bytes (stats w).
Proof.
  cbv zeta. unfold ist_receive, when. rewrite bind_seq.
  destruct (nonzero (Z.land intf CANINTF_RX0IF));
    destruct (nonzero (Z.land intf CANINTF_RX1IF)); cbn [Nat.b2n ret snd].
  - destruct (mcp2515_hw_rx_sides 0 w) as (A1 & A2 & A3 & A4 & A5 & A6 & A7 & A8).
    destruct (mcp2515_hw_rx_sides 1 (snd (mcp2515_hw_rx 0 w)))
      as (B1 & B2 & B3 & B4 & B5 & B6 & B7 & B8).
    rewrite B1, B2, B3, B4, B5, B6, B7, B8, A1, A2, A3, A4, A5, A6, A7, A8.
    repeat split; lia.
  - destruct (mcp2515_hw_rx_sides 0 w) as (A1 & A2 & A3 & A4 & A5 & A6 & A7 & A8).
    rewrite A1, A2, A3, A4, A5, A6, A7, A8. repeat split; lia.
  - destruct (mcp2515_hw_rx_sides 1 w) as (A1 & A2 & A3 & A4 & A5 & A6 & A7 & A8).
    rewrite A1, A2, A3, A4, A5, A6, A7, A8. repeat split; lia.
  - repeat split; lia.
Qed.

Lemma ist_clear_sides (intf eflag : Z) (w : world) :
  let w' := snd (ist_clear intf eflag w) in
  priv w' = priv w
  /\ stats w' = stats w
  /\ skb_allocs w' = skb_allocs w
  /\ length (spi_tx_buf w') = length (spi_tx_buf w)
  /\ length (spi_rx_buf w') = length (spi_rx_buf w).
Proof.
  cbv zeta. unfold ist_clear, when. rewrite bind_seq.
  set (m := ist_clear_intf intf).
  assert (H1 : let w1 := snd ((if nonzero m
                               then mcp2515_write_bits CANINTF m 0
                               else ret tt) w) in
               priv w1 = priv w /\ stats w1 = stats w
               /\ skb_allocs w1 = skb_allocs w
               /\ length (spi_tx_buf w1) = length (spi_tx_buf w)
               /\ length (spi_rx_buf w1) = length (spi_rx_buf w)).
  { cbv zeta. destruct (nonzero m).
    - destruct (mcp2515_write_bits_eq CANINTF m 0 w)
        as (rx & n & evs & Heq & Hlen & _).
      rewrite Heq. cbn. rewrite !length_insert. auto.
    - cbn. auto. }
  cbv zeta in H1.
  set (w1 := snd ((if nonzero m then mcp2515_write_bits CANINTF m 0
                   else ret tt) w)) in *.
  destruct H1 as (A1 & A2 & A3 & A4 & A5).
  destruct (nonzero eflag).
  - destruct (mcp2515_write_bits_eq EFLG eflag 0 w1)
      as (rx & n & evs & Heq & Hlen & _).
    rewrite Heq. cbn. rewrite !length_insert. rewrite Hlen. auto.
  - cbn. auto.
Qed.

Lemma ulong_add_l (a b : Z) : ulong (ulong a + b) = ulong (a + b).
Proof.
  unfold ulong. destruct (Z.eq_dec (2 ^ BITS_PER_LONG) 0) as [E|E].
  - rewrite E, !Z.mod_0_r. reflexivity.
  - apply Z.add_mod_idemp_l. exact E.
Qed.

Lemma ist_error_notify_sides (intf eflag : Z) (w : world) :
  let w' := snd (ist_error_notify intf eflag w) in
  let errif := nonzero (Z.land intf CANINTF_ERRIF) in
  let overruns :=
    if errif
    then (if Z.testbit eflag 6 then 1 else 0)
         + (if Z.testbit eflag 7 then 1 else 0)
    else 0 in
  priv w' = priv w
  /\ spi_tx_buf w' = spi_tx_buf w
  /\ spi_rx_buf w' = spi_rx_buf w
  /\ gpio_reads w' = gpio_reads w
  /\ skb_allocs w' = (skb_allocs w + Nat.b2n errif)%nat
  /\ rx_over_errors (stats w') = ulong_count (rx_over_errors (stats w)) overruns
  /\ rx_errors (stats w') = ulong_count (rx_errors (stats w)) overruns
  /\ rx_packets (stats w') = rx_packets (stats w)
  /\ rx_bytes (stats w') = rx_bytes (stats w)
  /\ rx_dropped (stats w') = rx_dropped (stats w)
  /\ tx_packets (stats w') = tx_packets (stats w)
  /\ tx_bytes (stats w') = tx_bytes (stats w).
Proof.
  cbv zeta. unfold ist_error_notify, when.
  destruct (nonzero (Z.land intf CANINTF_ERRIF)); cbn [Nat.b2n].
  - rewrite bind_seq.
    assert (Hovr : nonzero (Z.land eflag (Z.lor EFLG_RX0OVR EFLG_RX1OVR))
                   = Z.testbit eflag 6 || Z.testbit eflag 7).
    { rewrite <- (nonzero_land_pow2 eflag 6), <- (nonzero_land_pow2 eflag 7)
        by lia.
      change (2 ^ 6) with EFLG_RX0OVR. change (2 ^ 7) with EFLG_RX1OVR.
      rewrite Z.land_lor_distr_r. unfold nonzero.
      destruct (Z.eqb_spec (Z.land eflag EFLG_RX0OVR) 0) as [E0|E0];
        destruct (Z.eqb_spec (Z.land eflag EFLG_RX1OVR) 0) as [E1|E1];
        cbn [negb orb].
      - rewrite E0, E1. reflexivity.
      - rewrite E0, Z.lor_0_l. destruct (Z.eqb_spec (Z.land eflag EFLG_RX1OVR) 0);
          [contradiction|reflexivity].
      - rewrite E1, Z.lor_0_r. destruct (Z.eqb_spec (Z.land eflag EFLG_RX0OVR) 0);
          [contradiction|reflexivity].
      - destruct (Z.eqb_spec (Z.lor (Z.land eflag EFLG_RX0OVR)
                                    (Z.land eflag EFLG_RX1OVR)) 0) as [E|E];
          [|reflexivity].
        apply Z.lor_eq_0_iff in E. destruct E; contradiction. }
    rewrite Hovr.
    change EFLG_RX0OVR with (2 ^ 6). change EFLG_RX1OVR with (2 ^ 7).
    rewrite !nonzero_land_pow2 by lia.
    unfold mcp2515_error_skb, alloc_can_skb.
    destruct w as [p s tx rx line reads pool allocs tr].
    destruct (Z.testbit eflag 6), (Z.testbit eflag 7); cbn [orb];
      rewrite ?bind_seq; rewrite bind_unfold; world_prims;
      cbv [bind fst snd set_skb_allocs skb_pool skb_allocs priv stats
           spi_tx_buf spi_rx_buf gpio_in gpio_reads trace count_rx_over];
      destruct (pool allocs); world_prims; unfold ulong_count; cbn;
      rewrite ?ulong_add_l; repeat split; first [lia | f_equal; lia].
  - destruct w; cbn. repeat split; lia.
Qed.

Lemma ist_state_stats_sides (ns : can_state) (p : mcp2515_priv) :
  let p' := set_can_st ns (ist_state_stats ns p) in
  can_st p' = ns
  /\ can_restart_ms p' = can_restart_ms p
  /\ can_ctrlmode p' = can_ctrlmode p
  /\ can_bt p' = can_bt p
  /\ tx_skb p' = tx_skb p
  /\ tx_len p' = tx_len p
  /\ force_quit p' = force_quit p.
Proof.
  cbv zeta. unfold ist_state_stats.
  destruct (can_st p);
    destruct (state_in CAN_STATE_ERROR_WARNING CAN_STATE_BUS_OFF ns);
    destruct (state_in CAN_STATE_ERROR_PASSIVE CAN_STATE_BUS_OFF ns);
    cbn; auto 10.
Qed.

Lemma ist_masked_bit (intf k : Z) :
  0 <= k < 6 ->
  nonzero (Z.land (ist_masked intf) (2 ^ k)) = Z.testbit intf k.
Proof.
  intros Hk. rewrite nonzero_land_pow2 by lia. unfold ist_masked.
  change (Z.lor (Z.lor CANINTF_RX CANINTF_TX) CANINTF_ERR) with (Z.ones 6).
  rewrite Z.land_spec, Z.ones_spec_low by lia. apply andb_true_r.
Qed.

(** The four phases in front of the loop exits, with what they leave
    alone and what they count. *)
Lemma ist_body_to_finish (intf eflag : Z) (w : world) :
  let ns := fst (fst (ist_new_state eflag)) in
  let overruns :=
    if Z.testbit intf 5
    then (if Z.testbit eflag 6 then 1 else 0)
         + (if Z.testbit eflag 7 then 1 else 0)
    else 0 in
  exists (w4 : world) (evs : list event),
    ist_body intf eflag w = ist_finish (ist_masked intf) w4
    /\ priv w4 = set_can_st ns (ist_state_stats ns (priv w))
    /\ trace w4 = trace w ++ evs
    /\ length (spi_tx_buf w4) = length (spi_tx_buf w)
    /\ length (spi_rx_buf w4) = length (spi_rx_buf w)
    /\ skb_allocs w4
       = (skb_allocs w + Nat.b2n (Z.testbit intf 0)
          + Nat.b2n (Z.testbit intf 1) + Nat.b2n (Z.testbit intf 5))%nat
    /\ rx_over_errors (stats w4) = ulong_count (rx_over_errors (stats w)) overruns
    /\ rx_errors (stats w4) = ulong_count (rx_errors (stats w)) overruns
    /\ tx_packets (stats w4) = tx_packets (stats w)
    /\ tx_bytes (stats w4) = tx_bytes (stats w).
Proof.
  intros ns overruns. unfold ist_body. cbv zeta.
  fold (ist_masked intf). set (i := ist_masked intf).
  rewrite !bind_seq.
  destruct (ist_receive_eq i w) as (w1 & evs1 & Heq1 & _ & Htr1 & _).
  pose proof (ist_receive_sides i w) as S1. cbv zeta in S1.
  rewrite Heq1 in S1 |- *. cbn [snd] in S1 |- *.
  destruct S1 as (P1 & L1 & R1 & A1 & O1 & E1 & T1 & B1).
  destruct (ist_clear_eq i eflag w1) as (w2 & evs2 & Heq2 & _ & Htr2 & _).
  pose proof (ist_clear_sides i eflag w1) as S2. cbv zeta in S2.
  rewrite Heq2 in S2 |- *. cbn [snd] in S2 |- *.
  destruct S2 as (P2 & St2 & A2 & L2 & R2).
  unfold ist_update_state. rewrite bind_seq. fold ns.
  set (w3 := snd (modify_priv (set_can_st ns)
                    (snd (modify_priv (ist_state_stats ns) w2)))).
  assert (H3 : priv w3 = set_can_st ns (ist_state_stats ns (priv w))
               /\ trace w3 = trace w2 /\ stats w3 = stats w2
               /\ spi_tx_buf w3 = spi_tx_buf w2
               /\ spi_rx_buf w3 = spi_rx_buf w2
               /\ skb_allocs w3 = skb_allocs w2).
  { subst w3. cbn. rewrite P2, P1. repeat split. }
  clearbody w3. destruct H3 as (P3 & Htr3 & St3 & L3 & R3 & A3).
  destruct (ist_error_notify_eq i eflag w3)
    as (w4 & evs4 & Heq4 & _ & Htr4 & _).
  pose proof (ist_error_notify_sides i eflag w3) as S4. cbv zeta in S4.
  rewrite Heq4 in S4 |- *. cbn [snd] in S4 |- *.
  destruct S4 as (P4 & L4 & R4 & _ & A4 & O4 & E4 & _ & _ & _ & T4 & B4).
  change CANINTF_ERRIF with (2 ^ 5) in A4, O4, E4.
  change CANINTF_RX0IF with (2 ^ 0) in A1.
  change CANINTF_RX1IF with (2 ^ 1) in A1.
  subst i. rewrite !ist_masked_bit in * by lia.
  exists w4, (evs1 ++ evs2 ++ evs4).
  split; [reflexivity|]. split; [rewrite P4; exact P3|].
  split; [rewrite Htr4, Htr3, Htr2, Htr1, <- !app_assoc; reflexivity|].
  split; [rewrite L4, L3, L2, L1; reflexivity|].
  split; [rewrite R4, R3, R2, R1; reflexivity|].
  split; [rewrite A4, A3, A2, A1; reflexivity|].
  split; [rewrite O4, St3, St2, O1; reflexivity|].
  split; [rewrite E4, St3, St2, E1; reflexivity|].
  split; [rewrite T4, St3, St2, T1; reflexivity|].
  rewrite B4, St3, St2, B1; reflexivity.
Qed.

(** The bus-off exit. *)
Lemma ist_finish_bus_off (intf : Z) (w : world) :
  can_st (priv w) = CAN_STATE_BUS_OFF -> can_restart_ms (priv w) = 0 ->
  (3 <= length (spi_tx_buf w))%nat ->
  exists tx rx : list Z,
    ist_finish intf w
    = (Break,
       mk_world (set_force_quit 1 (priv w)) (stats w) tx rx (gpio_in w)
         (gpio_reads w + 24) (skb_pool w) (skb_allocs w)
         (trace w
          ++ Can_bus_off
             :: Gpio_set_value GPIO_CS 0
             :: spi_transfer_events (gpio_in w) (gpio_reads w)
                  [INSTRUCTION_WRITE; CANCTRL; CANCTRL_REQOP_SLEEP]
             ++ [Udelay 1; Gpio_set_value GPIO_CS 1])).
Proof.
  intros Hst Hms Hl. unfold ist_finish. rewrite bind_unfold.
  cbn [get_priv fst snd]. rewrite Hst, Hms. cbn [can_state_eqb andb Z.eqb].
  change (can_state_eqb CAN_STATE_BUS_OFF CAN_STATE_BUS_OFF) with true.
  cbn [andb]. rewrite !bind_seq. unfold mcp2515_hw_sleep.
  match goal with
  | |- context [mcp2515_write_reg ?r ?v ?w1] =>
      destruct (mcp2515_write_reg_run r v w1) as (rx & Heq & _);
        [destruct w; exact Hl | rewrite Heq; clear Heq]
  end.
  destruct w as [p s tx rx0 line reads pool allocs tr].
  eexists _, rx. world_prims. rewrite <- !app_assoc. reflexivity.
Qed.

(** The exits and the transmit-complete handling when the bus-off exit
    is not taken. *)
Lemma ist_finish_running (intf : Z) (w : world) :
  can_state_eqb (can_st (priv w)) CAN_STATE_BUS_OFF
  && (can_restart_ms (priv w) =? 0) = false ->
  ist_finish intf w
  = if intf =? 0 then (Break, w)
    else if nonzero (Z.land intf CANINTF_TX)
    then
      (Continue,
       mk_world
         (if nonzero (tx_len (priv w)) then set_tx_len 0 (priv w) else priv w)
         (mk_stats (rx_packets (stats w)) (rx_bytes (stats w))
                   (rx_dropped (stats w)) (rx_over_errors (stats w))
                   (rx_errors (stats w)) (ulong (tx_packets (stats w) + 1))
                   (ulong (tx_bytes (stats w) + (tx_len (priv w) - 1)))
                   (tx_dropped (stats w)))
         (spi_tx_buf w) (spi_rx_buf w) (gpio_in w) (gpio_reads w)
         (skb_pool w) (skb_allocs w)
         (trace w
          ++ Can_led_event CAN_LED_EVENT_TX
             :: (if nonzero (tx_len (priv w)) then [Can_get_echo_skb] else [])
             ++ [Netif_wake_queue]))
    else (Continue, w).
Proof.
  intros Hrun. unfold ist_finish. rewrite bind_unfold.
  cbn [get_priv fst snd]. rewrite Hrun.
  destruct (intf =? 0); [reflexivity|].
  rewrite bind_seq. unfold when.
  destruct (nonzero (Z.land intf CANINTF_TX)); [|reflexivity].
  rewrite !bind_seq.
  destruct w as [p s tx rx line reads pool allocs tr]. cbn [priv].
  destruct (nonzero (tx_len p)); rewrite ?bind_seq; cbn;
    rewrite <- ?app_assoc; reflexivity.
Qed.

(** One pass reads CANINTF and EFLG off the line and acts on them. *)
Lemma ist_pass_run (w : world) :
  (4 <= length (spi_tx_buf w))%nat -> (4 <= length (spi_rx_buf w))%nat ->
  exists tx rx : list Z,
    ist_pass w
    = ist_body (sampled_byte (gpio_in w) (gpio_reads w + 16))
               (sampled_byte (gpio_in w) (gpio_reads w + 24))
               (after_io w tx rx (gpio_reads w + 32)
                  (Gpio_set_value GPIO_CS 0
                   :: spi_transfer_events (gpio_in w) (gpio_reads w)
                        [INSTRUCTION_READ; CANINTF; spi_tx_buf w !!! 2%nat;
                         spi_tx_buf w !!! 3%nat]
                   ++ [Udelay 1; Gpio_set_value GPIO_CS 1]))
    /\ length tx = length (spi_tx_buf w)
    /\ length rx = length (spi_rx_buf w).
Proof.
  intros Hl Hr. unfold ist_pass. rewrite bind_unfold.
  destruct (mcp2515_read_2regs_run CANINTF w Hl Hr) as (rx & Heq & Hlen).
  rewrite Heq. cbn [fst snd]. eexists _, rx.
  split; [reflexivity|]. split; [|exact Hlen].
  rewrite !length_insert. reflexivity.
Qed.

(** ** The interrupt handler as a whole *)

(** What the end of the loop body leaves alone. *)
Lemma ist_finish_sides (intf : Z) (w : world) :
  let w' := snd (ist_finish intf w) in
  can_st (priv w') = can_st (priv w)
  /\ can_restart_ms (priv w') = can_restart_ms (priv w)
  /\ can_ctrlmode (priv w') = can_ctrlmode (priv w)
  /\ can_bt (priv w') = can_bt (priv w)
  /\ tx_skb (priv w') = tx_skb (priv w)
  /\ length (spi_tx_buf w') = length (spi_tx_buf w)
  /\ length (spi_rx_buf w') = length (spi_rx_buf w)
  /\ skb_allocs w' = skb_allocs w
  /\ rx_over_errors (stats w') = rx_over_errors (stats w)
  /\ rx_errors (stats w') = rx_errors (stats w).
Proof.
  cbv zeta.
  destruct (can_state_eqb (can_st (priv w)) CAN_STATE_BUS_OFF
            && (can_restart_ms (priv w) =? 0)) eqn:Hc.
  - unfold ist_finish. rewrite bind_unfold. cbn [get_priv fst snd].
    rewrite Hc, !bind_seq. unfold mcp2515_hw_sleep.
    match goal with
    | |- context [mcp2515_write_reg ?r ?v ?w1] =>
        destruct (mcp2515_write_reg_eq r v w1)
          as (rx & n & evs & Heq & Hlen & _); rewrite Heq
    end.
    destruct w as [p s tx rx0 line reads pool allocs tr].
    cbn in Hlen. cbn. rewrite !length_insert. repeat split. exact Hlen.
  - rewrite (ist_finish_running intf w Hc).
    destruct (intf =? 0); [cbn; repeat split|].
    destruct (nonzero (Z.land intf CANINTF_TX)); [|cbn; repeat split].
    destruct (nonzero (tx_len (priv w))); cbn; repeat split.
Qed.

Lemma ist_body_quiet (intf : Z) (w : world) :
  ist_masked intf = 0 ->
  ist_body intf 0 w
  = (Break, set_priv (set_can_st CAN_STATE_ERROR_ACTIVE (priv w)) w).
Proof.
  intros Hi. unfold ist_body. cbv zeta. fold (ist_masked intf). rewrite Hi.
  destruct w as [p s tx rx line reads pool allocs tr].
  destruct p as [st ms cm bt ew ep skb len fq].
  destruct st; reflexivity.
Qed.

(** X16. A spurious interrupt: when the driver has not been told to quit
    and the flag byte read off the line has none of the six handled bits
    set and the error-flag byte is zero, the handler ends after one pass
    whatever bound is put on the passes.  It takes the lock, reads the
    two registers in one chip-selected transaction, releases the lock,
    and nothing else: no frame is delivered or allocated, the statistics
    do not move, and the state is set to error-active. *)
Theorem mcp2515_can_ist_spurious (fuel : nat) (w : world) :
  force_quit (priv w) = 0 ->
  (4 <= length (spi_tx_buf w))%nat -> (4 <= length (spi_rx_buf w))%nat ->
  Z.land (sampled_byte (gpio_in w) (gpio_reads w + 16)) 63 = 0 ->
  sampled_byte (gpio_in w) (gpio_reads w + 24) = 0 ->
  exists w' : world,
    mcp2515_can_ist (S fuel) w = Some w'
    /\ new_events w w'
       = Mutex_lock
         :: Gpio_set_value GPIO_CS 0
         :: spi_transfer_events (gpio_in w) (gpio_reads w)
              [3; 44; spi_tx_buf w !!! 2%nat; spi_tx_buf w !!! 3%nat]
         ++ [Udelay 1; Gpio_set_value GPIO_CS 1; Mutex_unlock]
    /\ priv w' = set_can_st CAN_STATE_ERROR_ACTIVE (priv w)
    /\ stats w' = stats w
    /\ skb_allocs w' = skb_allocs w.
Proof.
  intros Hfq Hl Hr Hintf Heflag.
  unfold mcp2515_can_ist. cbn [ist_loop].
  destruct w as [p s tx rx line reads pool allocs tr].
  cbn [priv spi_tx_buf spi_rx_buf gpio_in gpio_reads] in *.
  world_prims. rewrite Hfq. cbn [nonzero Z.eqb negb].
  match goal with
  | |- context [ist_pass ?w0] =>
      destruct (ist_pass_run w0) as (tx1 & rx1 & Heq & _);
        [exact Hl | exact Hr | rewrite Heq; clear Heq]
  end.
  cbn [gpio_in gpio_reads spi_tx_buf]. rewrite Heflag.
  rewrite ist_body_quiet by exact Hintf.
  world_prims. eexists. split; [reflexivity|].
  unfold new_events. world_prims.
  rewrite <- !app_assoc, drop_app_length.
  repeat split.
Qed.

(** X17. Bus-off shutdown: when automatic restart is off and the
    error-flag byte read off the line has TXBO set, the handler ends
    after that pass, whatever the flag byte says.  It leaves the driver
    in bus-off state with the quit flag raised, has reported the bus-off
    to the CAN core, and its last bus transaction is the write of the
    sleep request 0x20 to CANCTRL.  A handler run that follows takes and
    releases the lock and does nothing else: no bus access, no change
    of driver state or statistics. *)
Theorem mcp2515_can_ist_bus_off (fuel fuel2 : nat) (w : world) :
  force_quit (priv w) = 0 -> can_restart_ms (priv w) = 0 ->
  (4 <= length (spi_tx_buf w))%nat -> (4 <= length (spi_rx_buf w))%nat ->
  Z.testbit (sampled_byte (gpio_in w) (gpio_reads w + 24)) 5 = true ->
  exists w' : world,
    mcp2515_can_ist (S fuel) w = Some w'
    /\ force_quit (priv w') = 1
    /\ can_st (priv w') = CAN_STATE_BUS_OFF
    /\ In Can_bus_off (new_events w w')
    /\ last (spi_log (new_events w w')) = Some [2; 15; 32]
    /\ exists w'' : world,
         mcp2515_can_ist (S fuel2) w' = Some w''
         /\ new_events w' w'' = [Mutex_lock; Mutex_unlock]
         /\ priv w'' = priv w'
         /\ stats w'' = stats w'.
Proof.
  intros Hfq Hms Hl Hr Hbo.
  unfold mcp2515_can_ist at 1. cbn [ist_loop].
  set (w0 := snd (emit Mutex_lock w)).
  assert (H0 : priv w0 = priv w /\ trace w0 = trace w ++ [Mutex_lock]
               /\ spi_tx_buf w0 = spi_tx_buf w /\ spi_rx_buf w0 = spi_rx_buf w
               /\ gpio_in w0 = gpio_in w /\ gpio_reads w0 = gpio_reads w)
    by (subst w0; destruct w; cbn; repeat split).
  clearbody w0. destruct H0 as (P0 & T0 & L0 & R0 & G0 & N0).
  rewrite P0, Hfq. cbn [nonzero Z.eqb negb].
  destruct (ist_pass_run w0) as (tx1 & rx1 & Heq & Hl1 & _);
    [rewrite L0; exact Hl | rewrite R0; exact Hr |].
  rewrite Heq. clear Heq. rewrite G0, N0, L0.
  set (intf := sampled_byte (gpio_in w) (gpio_reads w + 16)).
  set (eflag := sampled_byte (gpio_in w) (gpio_reads w + 24)) in *.
  set (evs_read := Gpio_set_value GPIO_CS 0 :: _ ++ _).
  destruct (ist_body_to_finish intf eflag
              (after_io w0 tx1 rx1 (gpio_reads w + 32) evs_read))
    as (w4 & evs & Heq & P4 & T4 & L4 & _).
  rewrite Heq. clear Heq.
  cbn [after_io priv trace spi_tx_buf] in P4, T4, L4.
  rewrite ist_new_state_bits, Hbo in P4.
  pose proof (ist_state_stats_sides CAN_STATE_BUS_OFF (priv w0))
    as (S1 & S2 & _ & _ & _ & _ & S7).
  rewrite <- P4 in S1, S2, S7.
  destruct (ist_finish_bus_off (ist_masked intf) w4) as (tx5 & rx5 & Heq);
    [exact S1 | rewrite S2, P0; exact Hms | rewrite L4, Hl1, L0; lia |].
  rewrite Heq. clear Heq.
  eexists. split; [reflexivity|].
  unfold new_events. cbn [snd emit set_trace trace priv stats].
  rewrite T4, T0, <- !app_assoc, drop_app_length.
  split; [reflexivity|]. split; [exact S1|].
  split; [apply in_cons, in_or_app; right; apply in_or_app; right;
          left; reflexivity|].
  split.
  - change (Mutex_lock :: ?l) with ([Mutex_lock] ++ l).
    change (Can_bus_off :: Gpio_set_value GPIO_CS 0 :: ?l)
      with ([Can_bus_off; Gpio_set_value GPIO_CS 0] ++ l).
    rewrite !spi_log_app, spi_log_transfer, !app_assoc.
    change (spi_log [Udelay 1; Gpio_set_value GPIO_CS 1]) with (@nil (list Z)).
    change (spi_log [Mutex_unlock]) with (@nil (list Z)).
    rewrite !app_nil_r. apply last_snoc.
  - unfold mcp2515_can_ist. cbn [ist_loop].
    cbn [emit snd set_trace priv set_force_quit force_quit nonzero Z.eqb negb].
    eexists. split; [reflexivity|].
    unfold new_events. cbn [snd set_trace trace priv stats].
    split; [|split; reflexivity].
    match goal with
    | |- drop (length ?a) ((?a ++ [Mutex_lock]) ++ [Mutex_unlock]) = _ =>
        rewrite <- (app_assoc a), drop_app_length; reflexivity
    end.
Qed.

Lemma ist_masked_tx (intf : Z) :
  Z.land (ist_masked intf) CANINTF_TX = Z.land intf 28.
Proof.
  unfold ist_masked. rewrite <- Z.land_assoc. reflexivity.
Qed.

(** X18. Transmit completion: a pass whose flag byte has one of the
    three TX bits set, and which does not end in the bus-off exit,
    asks for another pass and closes the transmission: the pending
    length is zero afterwards, tx_packets has grown by one and tx_bytes
    by the pending length minus one, both modulo [2 ^ BITS_PER_LONG]
    (with nothing pending tx_bytes goes one down, from 0 to the largest
    value of its type), the pending frame pointer is not touched, and
    the last thing the pass does is wake the queue. *)
Theorem ist_pass_tx_complete (w : world) :
  (4 <= length (spi_tx_buf w))%nat -> (4 <= length (spi_rx_buf w))%nat ->
  let intf := sampled_byte (gpio_in w) (gpio_reads w + 16) in
  let eflag := sampled_byte (gpio_in w) (gpio_reads w + 24) in
  let w' := snd (ist_pass w) in
  Z.land intf 28 <> 0 ->
  Z.testbit eflag 5 = false \/ can_restart_ms (priv w) <> 0 ->
  fst (ist_pass w) = Continue
  /\ tx_len (priv w') = 0
  /\ tx_skb (priv w') = tx_skb (priv w)
  /\ tx_packets (stats w') = ulong (tx_packets (stats w) + 1)
  /\ tx_bytes (stats w') = ulong (tx_bytes (stats w) + (tx_len (priv w) - 1))
  /\ last (new_events w w') = Some Netif_wake_queue.
Proof.
  intros Hl Hr intf eflag w' Htx Hrun. subst w'.
  destruct (ist_pass_run w Hl Hr) as (tx1 & rx1 & Heq & _).
  rewrite Heq. clear Heq. fold intf eflag.
  set (evs_read := Gpio_set_value GPIO_CS 0 :: _ ++ _).
  destruct (ist_body_to_finish intf eflag
              (after_io w tx1 rx1 (gpio_reads w + 32) evs_read))
    as (w4 & evs & Heq & P4 & T4 & _ & _ & _ & _ & _ & TP4 & TB4).
  rewrite Heq. clear Heq.
  cbn [after_io priv trace stats] in P4, T4, TP4, TB4.
  set (ns := fst (fst (ist_new_state eflag))) in *.
  pose proof (ist_state_stats_sides ns (priv w))
    as (S1 & S2 & _ & _ & S5 & S6 & _).
  rewrite <- P4 in S1, S2, S5, S6.
  assert (Hc : can_state_eqb (can_st (priv w4)) CAN_STATE_BUS_OFF
               && (can_restart_ms (priv w4) =? 0) = false).
  { rewrite S1, S2. destruct Hrun as [Hbo|Hms].
    - subst ns. rewrite ist_new_state_bits, Hbo.
      destruct (Z.testbit eflag 4), (Z.testbit eflag 3),
        (Z.testbit eflag 2), (Z.testbit eflag 1); reflexivity.
    - apply Z.eqb_neq in Hms. rewrite Hms. apply andb_false_r. }
  rewrite (ist_finish_running _ _ Hc).
  assert (Hm : (ist_masked intf =? 0) = false).
  { apply Z.eqb_neq. intros Hz.
    apply Htx. rewrite <- ist_masked_tx, Hz. reflexivity. }
  assert (Ht : nonzero (Z.land (ist_masked intf) CANINTF_TX) = true).
  { rewrite ist_masked_tx. unfold nonzero.
    apply Z.eqb_neq in Htx. rewrite Htx. reflexivity. }
  rewrite Hm, Ht. cbn [fst snd priv stats tx_packets tx_bytes].
  rewrite TP4, TB4.
  split; [reflexivity|].
  split; [unfold nonzero; destruct (Z.eqb_spec (tx_len (priv w4)) 0);
          cbn [negb]; [assumption | reflexivity]|].
  split; [destruct (nonzero (tx_len (priv w4))); cbn [set_tx_len tx_skb];
          exact S5|].
  split; [reflexivity|].
  split; [rewrite S6; reflexivity|].
  unfold new_events. cbn [trace]. rewrite T4, <- !app_assoc, drop_app_length.
  change (Can_led_event CAN_LED_EVENT_TX :: ?a ++ [Netif_wake_queue])
    with ((Can_led_event CAN_LED_EVENT_TX :: a) ++ [Netif_wake_queue]).
  rewrite !app_assoc. apply last_snoc.
Qed.

(** X19. Accounting of one pass: it makes one frame-buffer allocation
    for each of the two receive flags that is set and one more when the
    error interrupt flag is set, and no other.  Receive overruns are
    counted only under the error interrupt flag: then rx_over_errors
    and rx_errors both grow by the number of overrun bits (RX0OVR,
    RX1OVR) set in the error-flag byte, modulo [2 ^ BITS_PER_LONG], and
    otherwise they stay as they are even when overrun bits are set. *)
Theorem ist_pass_accounting (w : world) :
  (4 <= length (spi_tx_buf w))%nat -> (4 <= length (spi_rx_buf w))%nat ->
  let intf := sampled_byte (gpio_in w) (gpio_reads w + 16) in
  let eflag := sampled_byte (gpio_in w) (gpio_reads w + 24) in
  let w' := snd (ist_pass w) in
  let overruns :=
    if Z.testbit intf 5
    then (if Z.testbit eflag 6 then 1 else 0)
         + (if Z.testbit eflag 7 then 1 else 0)
    else 0 in
  skb_allocs w'
  = (skb_allocs w + Nat.b2n (Z.testbit intf 0) + Nat.b2n (Z.testbit intf 1)
     + Nat.b2n (Z.testbit intf 5))%nat
  /\ rx_over_errors (stats w') = ulong_count (rx_over_errors (stats w)) overruns
  /\ rx_errors (stats w') = ulong_count (rx_errors (stats w)) overruns.
Proof.
  intros Hl Hr intf eflag w' overruns. subst w'.
  destruct (ist_pass_run w Hl Hr) as (tx1 & rx1 & Heq & _).
  rewrite Heq. clear Heq. fold intf eflag.
  set (evs_read := Gpio_set_value GPIO_CS 0 :: _ ++ _).
  destruct (ist_body_to_finish intf eflag
              (after_io w tx1 rx1 (gpio_reads w + 32) evs_read))
    as (w4 & evs & Heq & _ & _ & _ & _ & A4 & O4 & E4 & _).
  rewrite Heq. clear Heq. cbn [after_io skb_allocs stats] in A4, O4, E4.
  fold overruns in O4, E4.
  pose proof (ist_finish_sides (ist_masked intf) w4)
    as (_ & _ & _ & _ & _ & _ & _ & A5 & O5 & E5).
  rewrite A5, O5, E5, A4, O4, E4. repeat split.
Qed.

Lemma ist_pass_sides (w : world) :
  let w' := snd (ist_pass w) in
  can_restart_ms (priv w') = can_restart_ms (priv w)
  /\ can_ctrlmode (priv w') = can_ctrlmode (priv w)
  /\ can_bt (priv w') = can_bt (priv w)
  /\ tx_skb (priv w') = tx_skb (priv w)
  /\ length (spi_tx_buf w') = length (spi_tx_buf w)
  /\ length (spi_rx_buf w') = length (spi_rx_buf w).
Proof.
  cbv zeta. unfold ist_pass. rewrite bind_unfold.
  destruct (mcp2515_read_2regs_eq CANINTF w)
    as (v & rx & n & evs0 & Heq & Hlen & _).
  rewrite Heq. cbn [fst snd].
  destruct (ist_body_to_finish (fst v) (snd v)
              (after_io w
                 (<[1%nat := u8 CANINTF]>
                    (<[0%nat := u8 INSTRUCTION_READ]> (spi_tx_buf w)))
                 rx n evs0))
    as (w4 & evs & Heq4 & P4 & _ & L4 & R4 & _).
  rewrite Heq4. cbn [after_io priv spi_tx_buf spi_rx_buf] in P4, L4, R4.
  pose proof (ist_state_stats_sides (fst (fst (ist_new_state (snd v))))
                (priv w)) as (_ & S2 & S3 & S4 & S5 & _).
  rewrite <- P4 in S2, S3, S4, S5.
  pose proof (ist_finish_sides (ist_masked (fst v)) w4)
    as (_ & F2 & F3 & F4 & F5 & F6 & F7 & _).
  rewrite F2, F3, F4, F5, F6, F7, S2, S3, S4, S5, L4, R4, Hlen.
  rewrite !length_insert. repeat split.
Qed.

Lemma ist_loop_sides (fuel : nat) (w w' : world) :
  ist_loop fuel w = Some w' ->
  can_restart_ms (priv w') = can_restart_ms (priv w)
  /\ can_ctrlmode (priv w') = can_ctrlmode (priv w)
  /\ can_bt (priv w') = can_bt (priv w)
  /\ tx_skb (priv w') = tx_skb (priv w)
  /\ length (spi_tx_buf w') = length (spi_tx_buf w)
  /\ length (spi_rx_buf w') = length (spi_rx_buf w).
Proof.
  revert w. induction fuel as [|fuel IH]; intros w; cbn [ist_loop];
    [discriminate|].
  destruct (nonzero (force_quit (priv w))).
  - intros [= <-]. repeat split.
  - pose proof (ist_pass_sides w) as Hs. cbv zeta in Hs.
    destruct (ist_pass w) as [c w1]. cbn [snd] in Hs.
    destruct Hs as (A & B & C & D & E & F).
    destruct c.
    + intros Hrun. destruct (IH _ Hrun) as (A' & B' & C' & D' & E' & F').
      rewrite A', B', C', D', E', F', A, B, C, D, E, F. repeat split.
    + intros [= <-]. repeat split; assumption.
Qed.

(** X20. However many passes a handler run takes, when it returns it has
    not touched the configuration it works from: the restart delay, the
    control mode, the bit timing and the pending transmit frame are what
    they were, and the two transfer buffers keep their lengths. *)
Theorem mcp2515_can_ist_preserves_config (fuel : nat) (w w' : world) :
  mcp2515_can_ist fuel w = Some w' ->
  can_restart_ms (priv w') = can_restart_ms (priv w)
  /\ can_ctrlmode (priv w') = can_ctrlmode (priv w)
  /\ can_bt (priv w') = can_bt (priv w)
  /\ tx_skb (priv w') = tx_skb (priv w)
  /\ length (spi_tx_buf w') = length (spi_tx_buf w)
  /\ length (spi_rx_buf w') = length (spi_rx_buf w).
Proof.
  unfold mcp2515_can_ist.
  destruct (ist_loop fuel (snd (emit Mutex_lock w))) as [w1|] eqn:Hloop;
    [|discriminate].
  intros [= <-]. apply ist_loop_sides in Hloop.
  destruct w; exact Hloop.
Qed.

End Target.

(** * The handler and the transmit path on a 32-bit target

    What follows instantiates [BITS_PER_LONG] at 32. *)

Lemma ist_clear_mask_spares_rx_witness :
  length (spi_tx_buf quiet_world) = Z.to_nat SPI_TRANSFER_BUF_LEN
  /\ Forall (fun m => Z.land m CANINTF_RX = 0
                      /\ Z.land m (Z.lor CANINTF_TX CANINTF_ERR) = m)
       (intf_clear_masks
          (spi_log (new_events quiet_world
                      (snd (ist_body 32 5 0 quiet_world))))).
Proof.
  split; [reflexivity|].
  exact (proj1 (ist_clear_mask_spares_rx 32 5 0 quiet_world eq_refl)).
Defined.

Lemma ist_ignores_merr_wak_witness :
  length (spi_tx_buf quiet_world) = Z.to_nat SPI_TRANSFER_BUF_LEN
  /\ ist_body 32 196 0 quiet_world
     = ist_body 32 (ist_masked 196) 0 quiet_world.
Proof.
  split; [reflexivity|].
  exact (proj1 (ist_ignores_merr_wak 32 196 0 192 quiet_world eq_refl)).
Defined.

Lemma hard_start_xmit_busy_witness :
  (tx_skb (priv busy_world) <> None \/ tx_len (priv busy_world) <> 0)
  /\ mcp2515_hard_start_xmit 32 zero_frame busy_world
     = (NETDEV_TX_BUSY, busy_world).
Proof.
  split; [right; discriminate|].
  apply (hard_start_xmit_busy 32 zero_frame busy_world).
  right; discriminate.
Defined.



Lemma mcp2515_hw_rx_no_skb_witness :
  new_events starved_world (snd (mcp2515_hw_rx 32 0 starved_world)) = [].
Proof.
  exact (proj2 (mcp2515_hw_rx_no_skb 32 0 starved_world eq_refl)).
Defined.

Lemma mcp2515_hw_rx_delivers_witness :
  deliveries (new_events alternating_world
                (snd (mcp2515_hw_rx 32 1 alternating_world)))
  = [hw_rx_decode (replicate 14 170) zero_frame].
Proof.
  refine (proj1 (mcp2515_hw_rx_delivers 32 1 zero_frame alternating_world
                   _ _ _));
    reflexivity.
Defined.

Lemma hard_start_xmit_accepts_then_busy_witness :
  mcp2515_hard_start_xmit 32 zero_frame
    (snd (mcp2515_hard_start_xmit 32 zero_frame quiet_world))
  = (NETDEV_TX_BUSY, snd (mcp2515_hard_start_xmit 32 zero_frame quiet_world)).
Proof.
  apply (hard_start_xmit_accepts_then_busy 32 zero_frame zero_frame
           quiet_world).
  - reflexivity.
  - reflexivity.
  - cbn. lia.
Defined.

Lemma hard_start_xmit_drops_invalid_witness :
  tx_dropped
    (stats (snd (mcp2515_hard_start_xmit 32 (mk_can_frame 1 9 (replicate 8 0))
                   quiet_world)))
  = 1.
Proof.
  refine (f_equal tx_dropped
            (proj1 (proj2 (proj2 (proj2
               (hard_start_xmit_drops_invalid 32
                  (mk_can_frame 1 9 (replicate 8 0)) zero_frame
                  quiet_world _ _ _ _)))))).
  - reflexivity.
  - reflexivity.
  - cbn. lia.
  - cbn. lia.
Defined.

Lemma mcp2515_can_ist_spurious_witness :
  exists w' : world,
    mcp2515_can_ist 32 1 quiet_world = Some w'
    /\ stats w' = stats quiet_world.
Proof.
  destruct (mcp2515_can_ist_spurious 32 0 quiet_world)
    as (w' & Hrun & _ & _ & Hstats & _).
  - reflexivity.
  - cbn. lia.
  - cbn. lia.
  - vm_compute. reflexivity.
  - vm_compute. reflexivity.
  - exists w'. split; [exact Hrun | exact Hstats].
Defined.

Lemma mcp2515_can_ist_bus_off_witness :
  exists w' : world,
    mcp2515_can_ist 32 1 alternating_world = Some w'
    /\ force_quit (priv w') = 1.
Proof.
  destruct (mcp2515_can_ist_bus_off 32 0 0 alternating_world)
    as (w' & Hrun & Hfq & _).
  - reflexivity.
  - reflexivity.
  - cbn. lia.
  - cbn. lia.
  - vm_compute. reflexivity.
  - exists w'. split; [exact Hrun | exact Hfq].
Defined.

Lemma ist_pass_tx_complete_witness :
  tx_bytes (stats (snd (ist_pass 32 sending_world))) = 2.
Proof.
  refine (proj1 (proj2 (proj2 (proj2 (proj2
            (ist_pass_tx_complete 32 sending_world _ _ _ _)))))).
  - cbn. lia.
  - cbn. lia.
  - vm_compute. discriminate.
  - right. cbn. lia.
Defined.

Lemma ist_pass_accounting_witness :
  rx_over_errors (stats (snd (ist_pass 32 alternating_world))) = 1.
Proof.
  refine (proj1 (proj2 (ist_pass_accounting 32 alternating_world _ _))).
  - cbn. lia.
  - cbn. lia.
Defined.

Lemma mcp2515_can_ist_preserves_config_witness :
  tx_skb (priv (default quiet_world (mcp2515_can_ist 32 1 quiet_world)))
  = None.
Proof.
  refine (proj1 (proj2 (proj2 (proj2
            (mcp2515_can_ist_preserves_config 32 1 quiet_world _ _))))).
  vm_compute. reflexivity.
Defined.
